(** * ChatBud: a shallow embedding of the chat server and its specification

    The development follows the layout of the repository:

    - [JS]        the fragment of the JavaScript runtime the server relies on
                  (strings, [parseInt], [trim], truthiness);
    - [Db]        the four tables behind [config/database.js] and the SQL
                  statements the models send;
    - the monad [M] of a request or event handler: state passing over the
      process state, exceptions, and the environment met at every [await];
    - [User], [Session], [Message]   the models;
    - [utils/users.js], [utils/messages.js];
    - the handlers of [app.js];
    - [Client]    the escaping of [public/js/script.js];
    - the properties of the specification, and then those of the code
      around them: requests that are turned away, registration and login,
      sessions, presence, rooms and messages, chat and disconnect, joins.

    Conventions.  A string is its sequence of UTF-8 bytes; its [length]
    is counted in UTF-16 code units, as JavaScript does.  A Number is an
    exact integer or NaN: the embedding agrees with the source as long as
    every Number stays a safe integer (magnitude below 2^53), and printing a
    Number gives plain decimal digits (magnitude below 10^21).  Instants are
    whole seconds. *)

From Stdlib Require Import String Ascii ZArith List Lia Bool.
From Stdlib Require Decimal DecimalString DecimalNat DecimalN DecimalPos.
From Stdlib Require Import Sorting.Sorted Sorting.Permutation FinFun.
Import ListNotations.

Local Open Scope string_scope.
Local Open Scope Z_scope.

(* ================================================================== *)
(** * The JavaScript fragment *)

Module JS.

(** ** Numbers *)

Inductive number : Type :=
| NaN
| Num (z : Z).

Definition number_truthy (n : number) : bool :=
  match n with
  | NaN => false
  | Num z => negb (z =? 0)
  end.

(** The Numbers on which the embedding is exact: NaN and the safe
    integers, [Number.isSafeInteger]. *)
Definition safe (n : number) : Prop :=
  match n with
  | NaN => True
  | Num z => Z.abs z < 2 ^ 53
  end.

(** [a || b] on Numbers. *)
Definition number_or (a b : number) : number :=
  if number_truthy a then a else b.

(** [Math.min] and [Math.max]: NaN is contagious. *)
Definition Math_min (a b : number) : number :=
  match a, b with
  | Num x, Num y => Num (Z.min x y)
  | _, _ => NaN
  end.

Definition Math_max (a b : number) : number :=
  match a, b with
  | Num x, Num y => Num (Z.max x y)
  | _, _ => NaN
  end.

(** ** Strings as byte lists *)

Definition bytes (s : string) : list ascii := list_ascii_of_string s.
Definition unbytes (l : list ascii) : string := string_of_list_ascii l.

Definition code (c : ascii) : Z := Z.of_N (N_of_ascii c).

Definition string_truthy (s : string) : bool :=
  match s with
  | EmptyString => false
  | String _ _ => true
  end.

(** [s.length]: the number of UTF-16 code units of the string.  In
    UTF-8 every byte that is not a continuation byte (10xxxxxx, 128..191)
    starts a character, and a character of four bytes (first byte
    11110xxx, 240 and above) is the only kind that takes two units. *)
Definition units (c : ascii) : nat :=
  let n := code c in
  if (128 <=? n) && (n <=? 191) then 0%nat
  else if 240 <=? n then 2%nat
  else 1%nat.

Fixpoint string_length (s : string) : nat :=
  match s with
  | EmptyString => 0%nat
  | String c r => (units c + string_length r)%nat
  end.

(** ** White space

    [WhiteSpace] and [LineTerminator] of ECMAScript, in UTF-8:
    U+0009..U+000D and U+0020 are one byte; U+00A0 is [C2 A0]; U+1680,
    U+2000..U+200A, U+2028, U+2029, U+202F, U+205F, U+3000 and U+FEFF are
    three bytes. *)

Definition ws1 (c : ascii) : bool :=
  let n := code c in ((9 <=? n) && (n <=? 13)) || (n =? 32).

Definition ws2 (c1 c2 : ascii) : bool :=
  (code c1 =? 194) && (code c2 =? 160).

Definition ws3 (c1 c2 c3 : ascii) : bool :=
  let a := code c1 in
  let b := code c2 in
  let c := code c3 in
  ((a =? 225) && (b =? 154) && (c =? 128))
  || ((a =? 226) && (b =? 128)
      && (((128 <=? c) && (c <=? 138)) || (c =? 168) || (c =? 169) || (c =? 175)))
  || ((a =? 226) && (b =? 129) && (c =? 159))
  || ((a =? 227) && (b =? 128) && (c =? 128))
  || ((a =? 239) && (b =? 187) && (c =? 191)).

(** Drop the white space a byte list starts with.  With [back] the list
    is read from its end, so that the bytes of a character arrive in
    reverse. *)
Fixpoint strip (back : bool) (l : list ascii) : list ascii :=
  match l with
  | [] => []
  | c1 :: l1 =>
      if ws1 c1 then strip back l1
      else
        match l1 with
        | [] => l
        | c2 :: l2 =>
            if (if back then ws2 c2 c1 else ws2 c1 c2) then strip back l2
            else
              match l2 with
              | [] => l
              | c3 :: l3 =>
                  if (if back then ws3 c3 c2 c1 else ws3 c1 c2 c3)
                  then strip back l3
                  else l
              end
        end
  end.

Definition trimStart (s : string) : string :=
  unbytes (strip false (bytes s)).

Definition trimEnd (s : string) : string :=
  unbytes (rev (strip true (rev (bytes s)))).

(** [String.prototype.trim] *)
Definition trim (s : string) : string := trimEnd (trimStart s).

(** ** parseInt *)

(** The value of a digit of any radix up to 36. *)
Definition digit_value (c : ascii) : option Z :=
  let n := code c in
  if (48 <=? n) && (n <=? 57) then Some (n - 48)
  else if (97 <=? n) && (n <=? 122) then Some (n - 87)
  else if (65 <=? n) && (n <=? 90) then Some (n - 55)
  else None.

(** The longest prefix of radix-[R] digits: its value, and whether it has
    a digit at all. *)
Fixpoint digits (R : Z) (l : list ascii) (seen : bool) (acc : Z) : option Z :=
  match l with
  | [] => if seen then Some acc else None
  | c :: l' =>
      match digit_value c with
      | Some d =>
          if d <? R then digits R l' true (acc * R + d)
          else if seen then Some acc else None
      | None => if seen then Some acc else None
      end
  end.

Definition is_x (c : ascii) : bool := (code c =? 120) || (code c =? 88).

(** [parseInt(string, radix)]; [radix] is [None] for a call with one
    argument.  A result of [-0] is [Num 0]: both are falsy. *)
Definition parseInt (s : string) (radix : option Z) : number :=
  let S1 := strip false (bytes s) in
  let '(sign, S2) :=
    match S1 with
    | c :: r =>
        if code c =? 45 then (-1, r)
        else if code c =? 43 then (1, r)
        else (1, S1)
    | [] => (1, S1)
    end in
  let R0 := match radix with Some r => r | None => 0 end in
  if negb (R0 =? 0) && ((R0 <? 2) || (36 <? R0)) then NaN
  else
    let stripPrefix := (R0 =? 0) || (R0 =? 16) in
    let R1 := if R0 =? 0 then 10 else R0 in
    let '(R, S3) :=
      match S2 with
      | c0 :: cx :: r =>
          if stripPrefix && (code c0 =? 48) && is_x cx then (16, r)
          else (R1, S2)
      | _ => (R1, S2)
      end in
    match digits R S3 false 0 with
    | Some v => Num (sign * v)
    | None => NaN
    end.

(** ** Printing a Number

    [Number::toString] with radix 10 on an integer: an optional minus
    sign and the decimal digits. *)
Definition number_to_string (n : number) : string :=
  match n with
  | NaN => "NaN"
  | Num z =>
      match z with
      | Z0 => "0"
      | Zpos p => DecimalString.NilZero.string_of_uint (N.to_uint (Npos p))
      | Zneg p => String "-" (DecimalString.NilZero.string_of_uint (N.to_uint (Npos p)))
      end
  end.

(** [`${n}`] for a counter. *)
Definition nat_to_string (n : nat) : string :=
  DecimalString.NilZero.string_of_uint (Nat.to_uint n).

(** ** Values that reach a handler from outside *)

Inductive value : Type :=
| VUndefined
| VNull
| VBool (b : bool)
| VNumber (n : number)
| VString (s : string)
| VObject.

Definition truthy (v : value) : bool :=
  match v with
  | VUndefined | VNull => false
  | VBool b => b
  | VNumber n => number_truthy n
  | VString s => string_truthy s
  | VObject => true
  end.

Definition typeof (v : value) : string :=
  match v with
  | VUndefined => "undefined"
  | VNull => "object"
  | VBool _ => "boolean"
  | VNumber _ => "number"
  | VString _ => "string"
  | VObject => "object"
  end.

(** [s.split(sep)[0]] for a one-byte separator: the bytes before the
    first separator, the whole string when there is none. *)
Fixpoint split_head (sep : ascii) (s : string) : string :=
  match s with
  | EmptyString => EmptyString
  | String c r => if Ascii.eqb c sep then EmptyString else String c (split_head sep r)
  end.

(** [s.toLowerCase().replace(/[^a-z0-9]/g, '')].  A letter A-Z becomes
    a-z.  The only characters outside ASCII whose lower case holds an
    ASCII letter are U+212A (Kelvin sign, [E2 84 AA]), which gives k, and
    U+0130 ([C4 B0]), which gives i followed by a combining dot. *)
Fixpoint lower_alnum (l : list ascii) : list ascii :=
  match l with
  | [] => []
  | c1 :: l1 =>
      let n := code c1 in
      if ((97 <=? n) && (n <=? 122)) || ((48 <=? n) && (n <=? 57))
      then c1 :: lower_alnum l1
      else if (65 <=? n) && (n <=? 90)
      then ascii_of_N (Z.to_N (n + 32)) :: lower_alnum l1
      else
        match l1 with
        | c2 :: l2 =>
            if (n =? 196) && (code c2 =? 176) then "i"%char :: lower_alnum l2
            else
              match l2 with
              | c3 :: l3 =>
                  if (n =? 226) && (code c2 =? 132) && (code c3 =? 170)
                  then "k"%char :: lower_alnum l3
                  else lower_alnum l1
              | [] => lower_alnum l1
              end
        | [] => lower_alnum l1
        end
  end.

End JS.

(* ================================================================== *)
(** * Sorting, as ORDER BY does it *)

Section InsertionSort.

Context {A : Type}.
Variable leb : A -> A -> bool.

Fixpoint insert_sorted (x : A) (l : list A) : list A :=
  match l with
  | [] => [x]
  | y :: l' => if leb x y then x :: l else y :: insert_sorted x l'
  end.

(** A stable sort: rows that compare equal keep the order of the table. *)
Definition order_by (l : list A) : list A :=
  fold_right insert_sorted [] l.

End InsertionSort.

(* ================================================================== *)
(** * Errors a handler can catch *)

Inductive error : Type :=
| SqlError (code : string) (sqlMessage : string)   (* raised by the driver *)
| TypeError (message : string)
| Error (message : string).

Definition error_code (e : error) : option string :=
  match e with
  | SqlError c _ => Some c
  | _ => None
  end.

Definition error_message (e : error) : string :=
  match e with
  | SqlError _ m => m
  | TypeError m => m
  | Error m => m
  end.

Definition is_dup_entry (e : error) : bool :=
  match error_code e with
  | Some c => String.eqb c "ER_DUP_ENTRY"
  | None => false
  end.

(* ================================================================== *)
(** * The database *)

Module Db.

Record UserRow : Type := mkUser {
  u_id : Z;
  u_username : string;
  u_email : string;
  u_password_hash : string;
  u_avatar_url : option string;
  u_is_online : bool;
  u_last_seen : Z
}.

Record RoomRow : Type := mkRoom {
  r_id : Z;
  r_name : string;
  r_created_by : Z
}.

Record MessageRow : Type := mkMessage {
  m_id : Z;
  m_user_id : Z;
  m_room_id : Z;
  m_message : string;
  m_message_type : string;
  m_timestamp : Z;
  m_is_deleted : bool
}.

Record SessionRow : Type := mkSession {
  s_session_id : string;
  s_user_id : Z;
  s_socket_id : option string;
  s_room_name : option string;
  s_ip_address : option string;
  s_user_agent : option string;
  s_created_at : Z;
  s_last_activity : Z
}.

(** The state of the server behind the connection pool; [now] is what
    NOW() and CURRENT_TIMESTAMP read. *)
Record t : Type := mk {
  users : list UserRow;
  rooms : list RoomRow;
  messages : list MessageRow;
  active_sessions : list SessionRow;
  now : Z
}.

Definition with_users (l : list UserRow) (d : t) : t :=
  mk l (rooms d) (messages d) (active_sessions d) (now d).
Definition with_rooms (l : list RoomRow) (d : t) : t :=
  mk (users d) l (messages d) (active_sessions d) (now d).
Definition with_messages (l : list MessageRow) (d : t) : t :=
  mk (users d) (rooms d) l (active_sessions d) (now d).
Definition with_sessions (l : list SessionRow) (d : t) : t :=
  mk (users d) (rooms d) (messages d) l (now d).
Definition with_now (n : Z) (d : t) : t :=
  mk (users d) (rooms d) (messages d) (active_sessions d) n.

(** Modelled from the spec: the declarations of the tables are not part
    of the sources.  Every table has an id; ids are handed out in
    increasing order, a message is stamped with the time of its insert, and
    a string column compares by its bytes. *)
Definition fresh_id (ids : list Z) : Z :=
  1 + fold_right Z.max 0 ids.

Definition usernames (d : t) : list string := map u_username (users d).
Definition emails (d : t) : list string := map u_email (users d).
Definition room_names (d : t) : list string := map r_name (rooms d).

Definition has_username (name : string) (d : t) : bool :=
  existsb (String.eqb name) (usernames d).
Definition has_email (email : string) (d : t) : bool :=
  existsb (String.eqb email) (emails d).
Definition has_room (name : string) (d : t) : bool :=
  existsb (String.eqb name) (room_names d).

(** A statement maps the database to a result, or to the error the
    driver raises, and to the database after it. *)
Definition statement (A : Type) : Type := t -> (A + error) * t.

Definition dup_entry (v key : string) : error :=
  SqlError "ER_DUP_ENTRY" ("Duplicate entry '" ++ v ++ "' for key '" ++ key ++ "'").

(** SELECT * FROM users WHERE email = ? *)
Definition select_users_by_email (email : string) : statement (list UserRow) :=
  fun d => (inl (filter (fun u => String.eqb (u_email u) email) (users d)), d).

(** SELECT * FROM users WHERE username = ? *)
Definition select_users_by_username (username : string) : statement (list UserRow) :=
  fun d => (inl (filter (fun u => String.eqb (u_username u) username) (users d)), d).

(** Modelled from the spec: the declaration of the users table is not
    part of the sources; the spec gives a user a unique username and a
    unique email, and the handlers read the name of the key out of the
    message of the error.
    INSERT INTO users (username, email, password_hash) VALUES (?, ?, ?);
    gives the insertId. *)
Definition insert_user (username email hash : string) : statement Z :=
  fun d =>
    if has_username username d then (inr (dup_entry username "username"), d)
    else if has_email email d then (inr (dup_entry email "email"), d)
    else
      let id := fresh_id (map u_id (users d)) in
      (inl id,
       with_users (users d ++ [mkUser id username email hash None false (now d)]) d).

(** UPDATE users SET is_online = ?, last_seen = CURRENT_TIMESTAMP WHERE id = ? *)
Definition update_user_online (isOnline : bool) (userId : Z) : statement unit :=
  fun d =>
    (inl tt,
     with_users
       (map (fun u =>
               if u_id u =? userId
               then mkUser (u_id u) (u_username u) (u_email u) (u_password_hash u)
                      (u_avatar_url u) isOnline (now d)
               else u)
            (users d)) d).

(** SELECT * FROM active_sessions WHERE session_id = ? *)
Definition select_sessions (sessionId : string) : statement (list SessionRow) :=
  fun d =>
    (inl (filter (fun s => String.eqb (s_session_id s) sessionId) (active_sessions d)), d).

Definition keep {A : Type} (new : option A) (old : option A) : option A :=
  match new with
  | Some v => Some v
  | None => old
  end.

(** UPDATE active_sessions SET <the fields given>, last_activity = NOW()
    WHERE session_id = ? *)
Definition update_session (sessionId : string)
    (socketId roomName ipAddress userAgent : option string) : statement unit :=
  fun d =>
    (inl tt,
     with_sessions
       (map (fun s =>
               if String.eqb (s_session_id s) sessionId
               then mkSession (s_session_id s) (s_user_id s)
                      (keep socketId (s_socket_id s)) (keep roomName (s_room_name s))
                      (keep ipAddress (s_ip_address s)) (keep userAgent (s_user_agent s))
                      (s_created_at s) (now d)
               else s)
            (active_sessions d)) d).

(** The same UPDATE for a caller that passes null: a field is [None]
    when it is undefined and left out of SET, [Some None] when it is null
    and the column is set to NULL. *)
Definition assign (new : option (option string)) (old : option string) : option string :=
  match new with
  | Some v => v
  | None => old
  end.

Definition update_session_fields (sessionId : string)
    (socketId roomName ipAddress userAgent : option (option string)) : statement unit :=
  fun d =>
    (inl tt,
     with_sessions
       (map (fun s =>
               if String.eqb (s_session_id s) sessionId
               then mkSession (s_session_id s) (s_user_id s)
                      (assign socketId (s_socket_id s)) (assign roomName (s_room_name s))
                      (assign ipAddress (s_ip_address s)) (assign userAgent (s_user_agent s))
                      (s_created_at s) (now d)
               else s)
            (active_sessions d)) d).

(** INSERT INTO active_sessions (...) VALUES (?, ?, ?, ?, ?, ?, NOW(), NOW()) *)
Definition insert_session (sessionId : string) (userId : Z)
    (socketId roomName ipAddress userAgent : string) : statement unit :=
  fun d =>
    (inl tt,
     with_sessions
       (active_sessions d ++
        [mkSession sessionId userId (Some socketId) (Some roomName)
           (Some ipAddress) (Some userAgent) (now d) (now d)]) d).

(** DELETE FROM active_sessions WHERE session_id = ?; gives affectedRows. *)
Definition delete_session (sessionId : string) : statement Z :=
  fun d =>
    let gone := filter (fun s => String.eqb (s_session_id s) sessionId) (active_sessions d) in
    (inl (Z.of_nat (length gone)),
     with_sessions
       (filter (fun s => negb (String.eqb (s_session_id s) sessionId)) (active_sessions d)) d).

(** DELETE FROM active_sessions
    WHERE last_activity < DATE_SUB(NOW(), INTERVAL ? HOUR); gives affectedRows. *)
Definition delete_old_sessions (hoursOld : Z) : statement Z :=
  fun d =>
    let old := fun s => s_last_activity s <? now d - 3600 * hoursOld in
    (inl (Z.of_nat (length (filter old (active_sessions d)))),
     with_sessions (filter (fun s => negb (old s)) (active_sessions d)) d).

(** A row of the roster query. *)
Record RosterRow : Type := mkRosterRow {
  rr_id : Z;
  rr_username : string;
  rr_is_online : bool;
  rr_avatar_url : option string;
  rr_last_activity : Z;
  rr_socket_id : option string
}.

Definition RosterRow_eq_dec (a b : RosterRow) : {a = b} + {a <> b}.
Proof.
  decide equality;
    try apply Z.eq_dec; try apply string_dec; try apply bool_dec;
    decide equality; apply string_dec.
Defined.

Definition in_room (room : string) (s : SessionRow) : bool :=
  match s_room_name s with
  | Some r => String.eqb r room
  | None => false
  end.

(** s.last_activity > DATE_SUB(NOW(), INTERVAL 1 HOUR) *)
Definition active_within_hour (d : t) (s : SessionRow) : bool :=
  now d - 3600 <? s_last_activity s.

Definition roster_row (u : UserRow) (s : SessionRow) : RosterRow :=
  mkRosterRow (u_id u) (u_username u) (u_is_online u) (u_avatar_url u)
    (s_last_activity s) (s_socket_id s).

Definition by_username (a b : RosterRow) : bool :=
  String.leb (rr_username a) (rr_username b).

(** SELECT DISTINCT u.id, u.username, u.is_online, u.avatar_url,
           s.last_activity, s.socket_id
    FROM users u JOIN active_sessions s ON u.id = s.user_id
    WHERE s.room_name = ? AND s.last_activity > DATE_SUB(NOW(), INTERVAL 1 HOUR)
    ORDER BY u.username ASC *)
Definition roster_rows (room : string) (d : t) : list RosterRow :=
  order_by by_username
    (nodup RosterRow_eq_dec
       (flat_map
          (fun u =>
             map (roster_row u)
               (filter (fun s => (u_id u =? s_user_id s) && in_room room s
                                 && active_within_hour d s)
                  (active_sessions d)))
          (users d))).

Definition select_users_in_room (room : string) : statement (list RosterRow) :=
  fun d => (inl (roster_rows room d), d).

(** SELECT id FROM rooms WHERE name = ? *)
Definition select_room_ids (name : string) : statement (list Z) :=
  fun d => (inl (map r_id (filter (fun r => String.eqb (r_name r) name) (rooms d))), d).

(** Modelled from the spec: the declaration of the rooms table is not
    part of the sources; the spec gives a room a unique name.
    INSERT INTO rooms (name, created_by) VALUES (?, 1); gives the insertId. *)
Definition insert_room (name : string) : statement Z :=
  fun d =>
    if has_room name d then (inr (dup_entry name "name"), d)
    else
      let id := fresh_id (map r_id (rooms d)) in
      (inl id, with_rooms (rooms d ++ [mkRoom id name 1]) d).

(** INSERT INTO messages (user_id, room_id, message, message_type)
    VALUES (?, ?, ?, ?); gives the insertId. *)
Definition insert_message (userId roomId : Z) (message messageType : string) : statement Z :=
  fun d =>
    let id := fresh_id (map m_id (messages d)) in
    (inl id,
     with_messages
       (messages d ++ [mkMessage id userId roomId message messageType (now d) false]) d).

(** A row of the history query: m.*, u.username, u.avatar_url and
    m.timestamp as local_time. *)
Record HistoryRow : Type := mkHistoryRow {
  h_message : MessageRow;
  h_username : string;
  h_avatar_url : option string;
  h_local_time : Z
}.

Definition h_timestamp (h : HistoryRow) : Z := m_timestamp (h_message h).

Definition newest_first (a b : HistoryRow) : bool :=
  h_timestamp b <=? h_timestamp a.

(** FROM messages m JOIN users u ON m.user_id = u.id
                    JOIN rooms r ON m.room_id = r.id
    WHERE r.name = ? AND m.is_deleted = FALSE *)
Definition history_rows (roomName : string) (d : t) : list HistoryRow :=
  flat_map
    (fun m =>
       flat_map
         (fun u =>
            flat_map
              (fun r =>
                 if (m_user_id m =? u_id u) && (m_room_id m =? r_id r)
                    && String.eqb (r_name r) roomName && negb (m_is_deleted m)
                 then [mkHistoryRow m (u_username u) (u_avatar_url u) (m_timestamp m)]
                 else [])
              (rooms d))
         (users d))
    (messages d).

(** ... ORDER BY m.timestamp DESC LIMIT <messageLimit>, the limit being
    written into the text of the query. *)
Definition select_recent_messages (roomName : string) (messageLimit : JS.number)
  : statement (list HistoryRow) :=
  fun d =>
    match messageLimit with
    | JS.Num n =>
        if n <? 0 then (inr (SqlError "ER_PARSE_ERROR" "You have an error in your SQL syntax"), d)
        else (inl (firstn (Z.to_nat n) (order_by newest_first (history_rows roomName d))), d)
    | JS.NaN => (inr (SqlError "ER_PARSE_ERROR" "You have an error in your SQL syntax"), d)
    end.

(** The statements that change a table: what any handler may send while
    another one waits. *)
Inductive write : Type :=
| InsertUser (username email hash : string)
| UpdateUserOnline (isOnline : bool) (userId : Z)
| UpdateSession (sessionId : string) (socketId roomName ipAddress userAgent : option string)
| InsertSession (sessionId : string) (userId : Z) (socketId roomName ipAddress userAgent : string)
| DeleteSession (sessionId : string)
| DeleteOldSessions (hoursOld : Z)
| InsertRoom (name : string)
| InsertMessage (userId roomId : Z) (message messageType : string).

Definition apply (w : write) (d : t) : t :=
  match w with
  | InsertUser u e h => snd (insert_user u e h d)
  | UpdateUserOnline b i => snd (update_user_online b i d)
  | UpdateSession s a b c e => snd (update_session s a b c e d)
  | InsertSession s u a b c e => snd (insert_session s u a b c e d)
  | DeleteSession s => snd (delete_session s d)
  | DeleteOldSessions h => snd (delete_old_sessions h d)
  | InsertRoom n => snd (insert_room n d)
  | InsertMessage u r m k => snd (insert_message u r m k d)
  end.

End Db.

(* ================================================================== *)
(** * The process state and the monad of handlers *)

(** A presence record of [utils/users.js]. *)
Record Presence : Type := mkPresence {
  p_id : Z;
  p_socketId : string;
  p_sessionId : string;
  p_username : string;
  p_room : string;
  p_joinedAt : Z
}.

(** ** A JavaScript [Map] with string keys

    Entries keep the order of their first insertion; [set] on a key that
    is present overwrites the value where it stands. *)
Module StrMap.

Definition t (V : Type) : Type := list (string * V).

Definition empty {V : Type} : t V := [].

Fixpoint get {V : Type} (k : string) (m : t V) : option V :=
  match m with
  | [] => None
  | (k', v) :: m' => if String.eqb k' k then Some v else get k m'
  end.

Fixpoint set {V : Type} (k : string) (v : V) (m : t V) : t V :=
  match m with
  | [] => [(k, v)]
  | (k', v') :: m' =>
      if String.eqb k' k then (k', v) :: m' else (k', v') :: set k v m'
  end.

Fixpoint delete {V : Type} (k : string) (m : t V) : t V :=
  match m with
  | [] => []
  | (k', v') :: m' =>
      if String.eqb k' k then m' else (k', v') :: delete k m'
  end.

Definition keys {V : Type} (m : t V) : list string := map fst m.
Definition values {V : Type} (m : t V) : list V := map snd m.

(** The number of entries stored under a key. *)
Definition count {V : Type} (k : string) (m : t V) : nat :=
  length (filter (fun e => String.eqb (fst e) k) m).

End StrMap.

(** What a handler sends over Socket.IO. *)
Record ChatMessage : Type := mkChatMessage {
  cm_username : string;
  cm_text : string;
  cm_time : Z;
  cm_messageType : option string;
  cm_avatar : option (option string)
}.

Record RosterEntry : Type := mkRosterEntry {
  re_id : option Z;
  re_username : string;
  re_isOnline : bool;
  re_avatar : option (option string)
}.

Inductive payload : Type :=
| PText (text : string)
| PRoomJoined (room : string) (userId : Z) (username : string)
| PMessage (m : ChatMessage)
| PMessages (ms : list ChatMessage)
| PRoomUsers (room : string) (users : list RosterEntry)
| PTyping (username : string) (isTyping : bool).

Inductive target : Type :=
| ToSocket (socketId : string)                       (* socket.emit *)
| ToRoom (room : string)                             (* io.to(room).emit *)
| ToRoomExcept (room : string) (socketId : string).  (* socket.broadcast.to(room).emit *)

Record Emit : Type := mkEmit {
  e_target : target;
  e_event : string;
  e_payload : payload
}.

(** What the rest of the process does while a handler waits at an
    [await]: statements of other handlers, their changes to the presence
    map, and time passing. *)
Inductive env_action : Type :=
| EnvWrite (w : Db.write)
| EnvSet (socketId : string) (p : Presence)
| EnvDelete (socketId : string)
| EnvElapse (seconds : N).

(** One [await] on the database: what happened meanwhile, and whether the
    statement is lost to a failure of the connection or the server. *)
Record Tick : Type := mkTick {
  tick_env : list env_action;
  tick_fault : option error
}.

Definition quiet : Tick := mkTick [] None.

Record World : Type := mkWorld {
  db : Db.t;
  connectedUsers : StrMap.t Presence;
  memberships : list (string * string);   (* socket id, room joined *)
  outbox : list Emit;                     (* oldest first *)
  sched : list Tick                       (* the awaits to come *)
}.

Definition with_db (d : Db.t) (w : World) : World :=
  mkWorld d (connectedUsers w) (memberships w) (outbox w) (sched w).
Definition with_connectedUsers (m : StrMap.t Presence) (w : World) : World :=
  mkWorld (db w) m (memberships w) (outbox w) (sched w).
Definition with_memberships (l : list (string * string)) (w : World) : World :=
  mkWorld (db w) (connectedUsers w) l (outbox w) (sched w).
Definition with_outbox (l : list Emit) (w : World) : World :=
  mkWorld (db w) (connectedUsers w) (memberships w) l (sched w).
Definition with_sched (l : list Tick) (w : World) : World :=
  mkWorld (db w) (connectedUsers w) (memberships w) (outbox w) l.

Definition run_env (w : World) (a : env_action) : World :=
  match a with
  | EnvWrite x => with_db (Db.apply x (db w)) w
  | EnvSet k p => with_connectedUsers (StrMap.set k p (connectedUsers w)) w
  | EnvDelete k => with_connectedUsers (StrMap.delete k (connectedUsers w)) w
  | EnvElapse s => with_db (Db.with_now (Db.now (db w) + Z.of_N s) (db w)) w
  end.

(** The world a handler finds when it resumes after one [await]. *)
Definition resume (w : World) : World :=
  fold_left run_env (tick_env (hd quiet (sched w))) (with_sched (tl (sched w)) w).

Inductive outcome (A : Type) : Type :=
| Ok (a : A)
| Thrown (e : error).

Arguments Ok {A} a.
Arguments Thrown {A} e.

Definition M (A : Type) : Type := World -> outcome A * World.

Definition ret {A : Type} (a : A) : M A := fun w => (Ok a, w).

Definition bind {A B : Type} (m : M A) (f : A -> M B) : M B :=
  fun w =>
    match m w with
    | (Ok a, w') => f a w'
    | (Thrown e, w') => (Thrown e, w')
    end.

Definition throw {A : Type} (e : error) : M A := fun w => (Thrown e, w).

(** The outcome of a statement that has answered. *)
Definition answered {A : Type} (o : outcome A) : M A := fun w => (o, w).

(** try { m } catch (e) { h e } *)
Definition try {A : Type} (m : M A) (h : error -> M A) : M A :=
  fun w =>
    match m w with
    | (Thrown e, w') => h e w'
    | r => r
    end.

Declare Scope monad_scope.
Delimit Scope monad_scope with monad.
Notation "x <- m ;; k" := (bind m (fun x => k))
  (at level 61, m at next level, right associativity) : monad_scope.
Notation "m ;; k" := (bind m (fun _ => k))
  (at level 61, right associativity) : monad_scope.
Local Open Scope monad_scope.

Definition gets {A : Type} (f : World -> A) : M A := fun w => (Ok (f w), w).
Definition modify (f : World -> World) : M unit := fun w => (Ok tt, f w).

(** [await db.execute(...)] *)
Definition await {A : Type} (stmt : Db.statement A) : M A :=
  fun w =>
    let w1 := resume w in
    match tick_fault (hd quiet (sched w)) with
    | Some e => (Thrown e, w1)
    | None =>
        match stmt (db w1) with
        | (inl a, d) => (Ok a, with_db d w1)
        | (inr e, d) => (Thrown e, with_db d w1)
        end
    end.

(** [new Date()] *)
Definition clock : M Z := gets (fun w => Db.now (db w)).

Definition emit (t : target) (event : string) (p : payload) : M unit :=
  modify (fun w => with_outbox (outbox w ++ [mkEmit t event p]) w).

Definition exec {A : Type} (m : M A) (w : World) : World := snd (m w).
Definition result {A : Type} (m : M A) (w : World) : outcome A := fst (m w).

(* ================================================================== *)
(** * The models *)

(** [bcrypt.hash]: the hash is kept symbolic, a tag in front of the
    password; nothing below reads it. *)
Definition bcrypt_hash (password : string) : string := "$2a$" ++ password.

Module User.

(** The [catch] of these methods throws the error again. *)
Definition create (username email password : string) : M Z :=
  try (let hashedPassword := bcrypt_hash password in
       await (Db.insert_user username email hashedPassword))
      (fun error => throw error).

Definition findByEmail (email : string) : M (option Db.UserRow) :=
  try (rows <- await (Db.select_users_by_email email) ;;
       ret (hd_error rows))
      (fun error => throw error).

Definition findByUsername (username : string) : M (option Db.UserRow) :=
  try (rows <- await (Db.select_users_by_username username) ;;
       ret (hd_error rows))
      (fun error => throw error).

Definition setOnlineStatus (userId : Z) (isOnline : bool) : M unit :=
  try (await (Db.update_user_online isOnline userId))
      (fun error => throw error).

(** [this.findByEmail] first, [this.findByUsername] when that finds
    nobody. *)
Definition findByEmailOrUsername (emailOrUsername : string) : M (option Db.UserRow) :=
  try (userByEmail <- findByEmail emailOrUsername ;;
       match userByEmail with
       | Some user => ret (Some user)
       | None =>
           userByUsername <- findByUsername emailOrUsername ;;
           match userByUsername with
           | Some user => ret (Some user)
           | None => ret None
           end
       end)
      (fun error => throw error).

(** [bcrypt.compare] is left open: [compare] gives its answer for a
    password and a stored hash. *)
Definition verifyPassword (compare : string -> string -> bool)
    (password hashedPassword : string) : M bool :=
  try (ret (compare password hashedPassword))
      (fun error => ret false).

End User.

Module Session.

Definition findBySessionId (sessionId : string) : M (option Db.SessionRow) :=
  try (if negb (JS.string_truthy sessionId) then ret None
       else
         rows <- await (Db.select_sessions sessionId) ;;
         ret (hd_error rows))
      (fun error => throw (Error ("Failed to find session: " ++ error_message error))).

(** [updates] is { socketId, roomName, ipAddress, userAgent }; a field
    that is [undefined] is [None] and is left out of the statement. *)
Definition update (sessionId : string)
    (socketId roomName ipAddress userAgent : option string) : M bool :=
  try (await (Db.update_session sessionId socketId roomName ipAddress userAgent) ;;
       ret true)
      (fun error => throw (Error ("Failed to update session: " ++ error_message error))).

Definition create (sessionId : string) (userId : Z)
    (socketId roomName ipAddress userAgent : string) : M unit :=
  try (existing <- findBySessionId sessionId ;;
       match existing with
       | Some _ =>
           update sessionId (Some socketId) (Some roomName) (Some ipAddress) (Some userAgent) ;;
           ret tt
       | None =>
           await (Db.insert_session sessionId userId socketId roomName ipAddress userAgent)
       end)
      (fun error => throw (Error ("Failed to create session: " ++ error_message error))).

Definition remove (sessionId : string) : M bool :=
  try (if negb (JS.string_truthy sessionId) then ret false
       else
         affectedRows <- await (Db.delete_session sessionId) ;;
         ret (0 <? affectedRows))
      (fun error => throw (Error ("Failed to remove session: " ++ error_message error))).

Definition getUsersInRoom (roomName : string) : M (list Db.RosterRow) :=
  try (if negb (JS.string_truthy roomName) then ret []
       else await (Db.select_users_in_room roomName))
      (fun error => throw (Error ("Failed to get users in room: " ++ error_message error))).

(** [update] for a caller whose fields may be null. *)
Definition update_fields (sessionId : string)
    (socketId roomName ipAddress userAgent : option (option string)) : M bool :=
  try (await (Db.update_session_fields sessionId socketId roomName ipAddress userAgent) ;;
       ret true)
      (fun error => throw (Error ("Failed to update session: " ++ error_message error))).

(** [socketId] and [roomName] are null, [None], when the caller gives
    none; the object passed to [update] has these two fields and no other. *)
Definition updateActivity (sessionId : string) (socketId roomName : option string) : M bool :=
  try (if negb (JS.string_truthy sessionId)
       then throw (Error "Session ID is required")
       else update_fields sessionId (Some socketId) (Some roomName) None None)
      (fun error => throw error).

(** [hoursOld] is [None] for a call without argument. *)
Definition cleanOldSessions (hoursOld : option Z) : M Z :=
  let hoursOld := match hoursOld with Some h => h | None => 24 end in
  try (await (Db.delete_old_sessions hoursOld))
      (fun error => throw (Error ("Failed to clean old sessions: " ++ error_message error))).

End Session.

Module Message.

Definition ensureRoom (roomName : string) : M Z :=
  try (roomRows <- await (Db.select_room_ids roomName) ;;
       match roomRows with
       | id :: _ => ret id
       | [] => await (Db.insert_room roomName)
       end)
      (fun error => throw error).

Definition create (userId : Z) (roomName message : string) (messageType : option string)
  : M Z :=
  let messageType := match messageType with Some k => k | None => "text" end in
  try (roomId <- ensureRoom roomName ;;
       await (Db.insert_message userId roomId message messageType))
      (fun error => throw error).

(** [create] cut at its first [await], for a caller that does not await
    it: [create_sent] is the statement that leaves when the method is
    called, the SELECT of [ensureRoom]; [create_resumed] is what the method
    does once that statement has answered. *)
Definition create_sent (roomName : string) : M (list Z) :=
  await (Db.select_room_ids roomName).

Definition create_resumed (userId : Z) (roomName message : string)
    (messageType : option string) (answer : outcome (list Z)) : M Z :=
  let messageType := match messageType with Some k => k | None => "text" end in
  try (roomId <-
         try (roomRows <- answered answer ;;
              match roomRows with
              | id :: _ => ret id
              | [] => await (Db.insert_room roomName)
              end)
             (fun error => throw error) ;;
       await (Db.insert_message userId roomId message messageType))
      (fun error => throw error).

(** Math.max(1, Math.min(parseInt(limit, 10) || 50, 1000)) *)
Definition messageLimit (limit : JS.number) : JS.number :=
  JS.Math_max (JS.Num 1)
    (JS.Math_min
       (JS.number_or (JS.parseInt (JS.number_to_string limit) (Some 10)) (JS.Num 50))
       (JS.Num 1000)).

(** [limit] is the Number the caller passes, [None] when it passes none. *)
Definition getRecentMessages (roomName : string) (limit : option JS.number)
  : M (list Db.HistoryRow) :=
  let limit := match limit with Some n => n | None => JS.Num 50 end in
  try (ensureRoom roomName ;;
       rows <- await (Db.select_recent_messages roomName (messageLimit limit)) ;;
       ret (rev rows))
      (fun error => ret []).

End Message.

(* ================================================================== *)
(** * utils/messages.js *)

Definition string_or (a b : string) : string :=
  if JS.string_truthy a then a else b.

(** The time of day shown to the user is rendered from the instant kept
    in [cm_time]. *)
Definition formatMessage (username text : string) : M ChatMessage :=
  time <- clock ;;
  ret (mkChatMessage username text time None None).

Definition formatDbMessage (dbMessage : Db.HistoryRow) : ChatMessage :=
  mkChatMessage
    (string_or (Db.h_username dbMessage) "Unknown User")
    (string_or (Db.m_message (Db.h_message dbMessage)) "")
    (Db.h_local_time dbMessage)
    (Some (string_or (Db.m_message_type (Db.h_message dbMessage)) "text"))
    (Some (Db.h_avatar_url dbMessage)).

(* ================================================================== *)
(** * utils/users.js *)

Definition userJoin (socketId sessionId : string) (userId : Z)
    (username room ipAddress userAgent : string) : M Presence :=
  joinedAt <- clock ;;
  let user := mkPresence userId socketId sessionId username room joinedAt in
  modify (fun w => with_connectedUsers (StrMap.set socketId user (connectedUsers w)) w) ;;
  try (User.setOnlineStatus userId true ;;
       Session.create sessionId userId socketId room ipAddress userAgent)
      (fun error => ret tt) ;;
  ret user.

Definition getCurrentUser (socketId : string) : M (option Presence) :=
  gets (fun w => StrMap.get socketId (connectedUsers w)).

Definition userLeave (socketId : string) : M (option Presence) :=
  user <- gets (fun w => StrMap.get socketId (connectedUsers w)) ;;
  match user with
  | Some u =>
      modify (fun w => with_connectedUsers (StrMap.delete socketId (connectedUsers w)) w) ;;
      try (User.setOnlineStatus (p_id u) false ;;
           Session.remove (p_sessionId u) ;;
           ret tt)
          (fun error => ret tt)
  | None => ret tt
  end ;;
  ret user.

(** The entry built from a row of the query.  The row has the columns
    id, username, is_online, avatar_url, last_activity and socket_id, so
    [user.userId || user.user_id] and [user.isOnline] are both undefined. *)
Definition roster_entry_of_row (user : Db.RosterRow) : RosterEntry :=
  mkRosterEntry None (Db.rr_username user) true (Some (Db.rr_avatar_url user)).

Definition roster_entry_of_presence (user : Presence) : RosterEntry :=
  mkRosterEntry (Some (p_id user)) (p_username user) true None.

Definition in_memory_users (room : string) (m : StrMap.t Presence) : list RosterEntry :=
  map roster_entry_of_presence
    (filter (fun user => String.eqb (p_room user) room) (StrMap.values m)).

Definition getRoomUsers (room : string) : M (list RosterEntry) :=
  try (users <- Session.getUsersInRoom room ;;
       if (0 <? Z.of_nat (length users))%Z
       then ret (map roster_entry_of_row users)
       else gets (fun w => in_memory_users room (connectedUsers w)))
      (fun error => gets (fun w => in_memory_users room (connectedUsers w))).

(* ================================================================== *)
(** * app.js *)

Definition botName : string := "ChatBud Bot".

(** ** The HTTP side *)

Record HttpSession : Type := mkHttpSession {
  hs_userId : option Z;
  hs_username : option string
}.

Inductive body : Type :=
| BStatus (success : bool) (message : string)
| BUser (message : string) (id : Z) (username email : string)
| BMessages (messages : list ChatMessage).

Record Response : Type := mkResponse {
  status : Z;
  json : body
}.

(** [req.body] of POST /auth/register: each field a string, or absent. *)
Record RegisterBody : Type := mkRegisterBody {
  rb_email : option string;
  rb_password : option string
}.

Definition present (s : option string) : bool :=
  match s with
  | Some v => JS.string_truthy v
  | None => false
  end.

(** An assignment to a binding declared with [const] throws. *)
Definition assign_const {A : Type} (value : A) : M A :=
  throw (TypeError "Assignment to constant variable.").

(** while (await User.findByUsername(newUsername)) { counter++; ... },
    entered with [newUsername] built from [counter].  [fuel] bounds the
    number of times the body runs; the result is [None] when the loop is
    still running after that. *)
Fixpoint next_free_username (fuel : nat) (username : string) (counter : nat)
  : M (option string) :=
  let newUsername := username ++ JS.nat_to_string counter in
  found <- User.findByUsername newUsername ;;
  match found with
  | None => ret (Some newUsername)
  | Some _ =>
      match fuel with
      | O => ret None
      | S fuel' => next_free_username fuel' username (S counter)
      end
  end.

(** [hay.includes(needle)] *)
Definition includes (needle hay : string) : bool :=
  match String.index 0 needle hay with
  | Some _ => true
  | None => false
  end.

Definition register_catch (session : HttpSession) (error : error)
  : M (option (Response * HttpSession)) :=
  let server_error :=
    ret (Some (mkResponse 500 (BStatus false "Server error during registration"), session)) in
  if is_dup_entry error then
    if includes "username" (error_message error)
    then ret (Some (mkResponse 409 (BStatus false "Username already taken"), session))
    else if includes "email" (error_message error)
    then ret (Some (mkResponse 409 (BStatus false "Email already registered"), session))
    else server_error
  else server_error.

(** The end of the handler, once [username] is settled. *)
Definition register_create (username email password : string)
  : M (option (Response * HttpSession)) :=
  userId <- User.create username email password ;;
  ret (Some (mkResponse 200 (BUser "Registration successful" userId username email),
             mkHttpSession (Some userId) (Some username))).

(** POST /auth/register.  The handler answers with a response and leaves
    the session of the request as returned; [None] when the fuel of the
    loop runs out. *)
Definition register (fuel : nat) (req : RegisterBody) (session : HttpSession)
  : M (option (Response * HttpSession)) :=
  try (if negb (present (rb_email req)) || negb (present (rb_password req))
       then ret (Some (mkResponse 400 (BStatus false "Email and password are required"),
                       session))
       else
         let email := match rb_email req with Some e => e | None => "" end in
         let password := match rb_password req with Some p => p | None => "" end in
         if (Z.of_nat (JS.string_length password) <? 6)%Z
         then ret (Some (mkResponse 400 (BStatus false "Password must be at least 6 characters"),
                         session))
         else
           let username := JS.split_head "@" email in
           existingUser <- User.findByEmail email ;;
           match existingUser with
           | Some _ =>
               ret (Some (mkResponse 409 (BStatus false "Email already registered"), session))
           | None =>
               existingUsername <- User.findByUsername username ;;
               match existingUsername with
               | Some _ =>
                   newUsername <- next_free_username fuel username 1 ;;
                   match newUsername with
                   | None => ret None
                   | Some newUsername =>
                       (* username = newUsername, and username is a const *)
                       username <- assign_const newUsername ;;
                       register_create username email password
                   end
               | None => register_create username email password
               end
           end)
      (register_catch session).

(** GET /api/messages/:room; [limit] is [req.query.limit], a string or
    absent. *)
Definition query_text (v : option string) : string :=
  match v with
  | Some s => s
  | None => "undefined"
  end.

Definition query_limit (limit : option string) : JS.number :=
  JS.number_or (JS.parseInt (query_text limit) None) (JS.Num 50).

Definition get_messages (room : string) (limit : option string) (session : HttpSession)
  : M Response :=
  try (match hs_userId session with
       | None => ret (mkResponse 401 (BStatus false "Not authenticated"))
       | Some _ =>
           let limit := query_limit limit in
           messages <- Message.getRecentMessages room (Some limit) ;;
           let formattedMessages := map formatDbMessage messages in
           ret (mkResponse 200 (BMessages formattedMessages))
       end)
      (fun error => ret (mkResponse 500 (BStatus false "Error fetching messages"))).

(** ** The Socket.IO side *)

Record Socket : Type := mkSocket {
  id : string;
  handshake_sessionID : option string;
  handshake_address : string;
  handshake_user_agent : string
}.

(** socket.join(room) *)
Definition socket_join (socket : Socket) (room : string) : M unit :=
  modify (fun w =>
            if existsb (fun e => String.eqb (fst e) (id socket) && String.eqb (snd e) room)
                 (memberships w)
            then w
            else with_memberships (memberships w ++ [(id socket, room)]) w).

(** The placeholder address of a guest account. *)
Definition tempEmail (username : string) : string :=
  JS.unbytes (JS.lower_alnum (JS.bytes username)) ++ "@guest.temp".

(** What the handler keeps in [user]: a row of the table, or the object
    { id, username } it builds after an insert. *)
Record UserRef : Type := mkUserRef {
  ur_id : Z;
  ur_username : string
}.

Definition user_ref (row : Db.UserRow) : UserRef :=
  mkUserRef (Db.u_id row) (Db.u_username row).

(** [user.id] *)
Definition user_id_of (user : option UserRef) : M Z :=
  match user with
  | Some u => ret (ur_id u)
  | None => throw (TypeError "Cannot read properties of undefined (reading 'id')")
  end.

(** The end of the join, once roomJoined is sent: the history, the
    welcome, the notice to the others, the system message and the roster. *)
Definition join_greet (socket : Socket) (userId : Z) (username room : string) : M unit :=
  try (recentMessages <- Message.getRecentMessages room (Some (JS.Num 20)) ;;
       let formattedMessages := map formatDbMessage recentMessages in
       emit (ToSocket (id socket)) "loadMessages" (PMessages formattedMessages))
      (fun messageError => emit (ToSocket (id socket)) "loadMessages" (PMessages [])) ;;
  welcome <- formatMessage botName ("Welcome to ChatBud, " ++ username ++ "! 🎉") ;;
  emit (ToSocket (id socket)) "message" (PMessage welcome) ;;
  joined <- formatMessage botName (username ++ " has joined the chat! 👋") ;;
  emit (ToRoomExcept room (id socket)) "message" (PMessage joined) ;;
  try (Message.create userId room (username ++ " has joined the chat!") (Some "system") ;;
       ret tt)
      (fun systemMsgError => ret tt) ;;
  roomUsers <- getRoomUsers room ;;
  emit (ToRoom room) "roomUsers" (PRoomUsers room roomUsers).

(** socket.handshake.sessionID || socket.id *)
Definition session_of (socket : Socket) : string :=
  match handshake_sessionID socket with
  | Some s => string_or s (id socket)
  | None => id socket
  end.

(** The part of the join after the user is resolved. *)
Definition join_resolved (socket : Socket) (user : option UserRef) (username room : string)
  : M unit :=
  let sessionId := session_of socket in
  let ipAddress := handshake_address socket in
  let userAgent := handshake_user_agent socket in
  userId <- user_id_of user ;;
  joinedUser <- userJoin (id socket) sessionId userId username room ipAddress userAgent ;;
  socket_join socket room ;;
  emit (ToSocket (id socket)) "roomJoined" (PRoomJoined room userId username) ;;
  join_greet socket userId username room.

(** The handler after a lookup that finds nobody: the guest account.
    [created] is [None] when the handler has returned. *)
Definition join_as_guest (socket : Socket) (username room : string) : M unit :=
  let tempEmail := tempEmail username in
  let tempPassword := "temporary123" in
  created <-
    try (userId <- User.create username tempEmail tempPassword ;;
         ret (Some (Some (mkUserRef userId username))))
        (fun createError =>
           if is_dup_entry createError
           then
             again <- User.findByUsername username ;;
             ret (Some (option_map user_ref again))
           else
             emit (ToSocket (id socket)) "roomJoinError"
               (PText "Error creating user account") ;;
             ret None) ;;
  match created with
  | Some user => join_resolved socket user username room
  | None => ret tt
  end.

Definition join_failed : payload := PText "Failed to join room. Please try again.".

(** The [catch] around the whole handler. *)
Definition join_catch (socket : Socket) (error : error) : M unit :=
  emit (ToSocket (id socket)) "roomJoinError" join_failed.

(** socket.on('joinRoom', async ({ username, room }) => ...) *)
Definition joinRoom (socket : Socket) (username room : option string) : M unit :=
  try (if negb (present username) || negb (present room)
       then emit (ToSocket (id socket)) "roomJoinError" (PText "Username and room are required")
       else
         let username := match username with Some u => u | None => "" end in
         let room := match room with Some r => r | None => "" end in
         found <- User.findByUsername username ;;
         match found with
         | Some row => join_resolved socket (Some (user_ref row)) username room
         | None => join_as_guest socket username room
         end)
      (join_catch socket).

(** A call whose promise is not awaited, with a [.catch] that only logs:
    the caller runs on to its end, and the statements of the call reach the
    database after that. *)
Definition detach {A : Type} (promise : M unit) (rest : M A) : M A :=
  fun w =>
    match rest w with
    | (r, w') => (r, exec (try promise (fun error => ret tt)) w')
    end.

(** Such a call made by a caller that goes on to await.  The first
    statement of the call, [sent], leaves when the call is made, before
    any statement the caller sends after it; the caller runs on to its
    end; what is left of the call, [resumed], runs on the answer of that
    statement, with a [.catch] that only logs. *)
Definition detach_sent {A B : Type} (sent : M A) (resumed : outcome A -> M unit)
    (rest : M B) : M B :=
  fun w =>
    match sent w with
    | (answer, w1) =>
        match rest w1 with
        | (r, w2) => (r, exec (try (resumed answer) (fun error => ret tt)) w2)
        end
    end.

(** socket.on('chatMessage', async (msg) => ...) *)
Definition chatMessage (socket : Socket) (msg : JS.value) : M unit :=
  try (user <- getCurrentUser (id socket) ;;
       match user with
       | None => emit (ToSocket (id socket)) "messageError" (PText "User session not found")
       | Some user =>
           if negb (JS.truthy msg) || negb (String.eqb (JS.typeof msg) "string")
           then emit (ToSocket (id socket)) "messageError" (PText "Invalid message")
           else
             let text := match msg with JS.VString s => s | _ => "" end in
             let trimmedMsg := JS.trim text in
             if negb (JS.string_truthy trimmedMsg)
             then emit (ToSocket (id socket)) "messageError" (PText "Empty message")
             else
               detach (Message.create (p_id user) (p_room user) trimmedMsg None ;; ret tt)
                 (message <- formatMessage (p_username user) trimmedMsg ;;
                  emit (ToRoom (p_room user)) "message" (PMessage message))
       end)
      (fun error => emit (ToSocket (id socket)) "messageError" (PText "Failed to send message")).

(** socket.on('disconnect', async () => ...).  The system message is
    saved by a call that is not awaited: its SELECT on the rooms leaves
    before the query of the roster, its inserts after it. *)
Definition disconnect (socket : Socket) : M unit :=
  try (user <- userLeave (id socket) ;;
       match user with
       | Some user =>
           left <- formatMessage botName (p_username user ++ " has left the chat! 👋") ;;
           emit (ToRoom (p_room user)) "message" (PMessage left) ;;
           detach_sent (Message.create_sent (p_room user))
             (fun answer =>
                Message.create_resumed (p_id user) (p_room user)
                  (p_username user ++ " has left the chat!") (Some "system") answer ;;
                ret tt)
             (roomUsers <- getRoomUsers (p_room user) ;;
              emit (ToRoom (p_room user)) "roomUsers" (PRoomUsers (p_room user) roomUsers))
       | None => ret tt
       end)
      (fun error => ret tt).

(** ** The login *)

(** [req.body] of POST /auth/login; [lb_email] holds an email or a
    username. *)
Record LoginBody : Type := mkLoginBody {
  lb_email : option string;
  lb_password : option string
}.

(** POST /auth/login: the response and the session of the request after
    it. *)
Definition login (compare : string -> string -> bool) (req : LoginBody)
    (session : HttpSession) : M (Response * HttpSession) :=
  try (if negb (present (lb_email req)) || negb (present (lb_password req))
       then ret (mkResponse 400 (BStatus false "Email/username and password required"),
                 session)
       else
         let email := match lb_email req with Some e => e | None => "" end in
         let password := match lb_password req with Some p => p | None => "" end in
         user <- User.findByEmailOrUsername email ;;
         match user with
         | None => ret (mkResponse 401 (BStatus false "User not found"), session)
         | Some user =>
             isValidPassword <-
               User.verifyPassword compare password (Db.u_password_hash user) ;;
             if negb isValidPassword
             then ret (mkResponse 401 (BStatus false "Invalid password"), session)
             else
               ret (mkResponse 200
                      (BUser "Login successful" (Db.u_id user) (Db.u_username user)
                         (Db.u_email user)),
                    mkHttpSession (Some (Db.u_id user)) (Some (Db.u_username user)))
         end)
      (fun error => ret (mkResponse 500 (BStatus false "Server error during login"), session)).

(** ** The timer of utils/users.js *)

(** setInterval(async () => { try { await Session.cleanOldSessions() } ... }) *)
Definition clean_timer : M unit :=
  try (Session.cleanOldSessions None ;; ret tt)
      (fun error => ret tt).

(* ================================================================== *)
(** * public/js/script.js *)

Module Client.

(** [s.replace(/c/g, by)] for a pattern of one ASCII character. *)
Fixpoint replace_all (c : ascii) (by_ : string) (s : string) : string :=
  match s with
  | EmptyString => EmptyString
  | String a r =>
      if Ascii.eqb a c then by_ ++ replace_all c by_ r
      else String a (replace_all c by_ r)
  end.

(** The double quote. *)
Definition dquote : ascii := "034"%char.

(** [escapeHtml] on a string: the five replacements, one after the
    other.  (Another value is turned into a string and not escaped.) *)
Definition escapeHtml (unsafe : string) : string :=
  replace_all "'" "&#039;"
    (replace_all dquote "&quot;"
       (replace_all ">" "&gt;"
          (replace_all "<" "&lt;"
             (replace_all "&" "&amp;" unsafe)))).

End Client.

(* ================================================================== *)
(** * Sample runs *)

Module Sample.

Definition alice : Db.UserRow := Db.mkUser 1 "alice" "alice@example.com" "$2a$x" None false 0.
Definition bob : Db.UserRow := Db.mkUser 2 "bob" "bob@example.com" "$2a$y" None false 0.

Definition db0 : Db.t := Db.mk [alice; bob] [] [] [] 1000.

Definition world (d : Db.t) (ticks : list Tick) : World :=
  mkWorld d StrMap.empty [] [] ticks.

Definition s1 : Socket := mkSocket "sock-1" None "10.0.0.1" "agent".
Definition s2 : Socket := mkSocket "sock-2" None "10.0.0.2" "agent".

Definition anonymous : HttpSession := mkHttpSession None None.
Definition alice_session : HttpSession := mkHttpSession (Some 1) (Some "alice").

Definition general : Db.RoomRow := Db.mkRoom 1 "general" 1.
Definition m1 : Db.MessageRow := Db.mkMessage 1 1 1 "first" "text" 100 false.
Definition m2 : Db.MessageRow := Db.mkMessage 2 2 1 "second" "text" 200 false.
Definition m3 : Db.MessageRow := Db.mkMessage 3 1 1 "third" "text" 300 false.

(** A database with one room and three messages in it. *)
Definition db1 : Db.t := Db.mk [alice; bob] [general] [m1; m2; m3] [] 1000.

Definition sess (sid : string) (uid : Z) (room : string) (last : Z) : Db.SessionRow :=
  Db.mkSession sid uid (Some sid) (Some room) (Some "10.0.0.1") (Some "agent") last last.

(** bob and alice both have a fresh session in general; alice has a stale one too. *)
Definition db2 : Db.t :=
  Db.mk [alice; bob] [general] []
    [sess "s-bob" 2 "general" 9000; sess "s-alice" 1 "general" 9500;
     sess "s-old" 1 "general" 100; sess "s-other" 2 "random" 9500]
    10000.

Definition registry : StrMap.t Presence :=
  [("sock-9", mkPresence 7 "sock-9" "s-9" "zoe" "general" 0)].

(** Another connection creates the guest carol between the lookup and the
    insert of this one. *)
Definition race_ticks : list Tick :=
  [quiet; mkTick [EnvWrite (Db.InsertUser "carol" "carol@guest.temp" "$2a$temporary123")] None].

Definition w_race : World := world db0 race_ticks.

Definition lost : error := SqlError "ECONNRESET" "read ECONNRESET".

(** alice is known; the first statement of Session.create is lost. *)
Definition w_session : World :=
  world db0 [quiet; quiet; mkTick [] (Some lost)].

(** The lookup is lost. *)
Definition w_lookup : World := world db0 [mkTick [] (Some lost)].

End Sample.

(* ================================================================== *)
(** * The vocabulary of the properties *)

(** ** Schedules *)

(** No statement of the schedule is lost. *)
Definition faultless (ticks : list Tick) : Prop :=
  Forall (fun t => tick_fault t = None) ticks.

(** Nothing else runs while the handler waits. *)
Definition undisturbed (ticks : list Tick) : Prop :=
  Forall (fun t => tick_env t = []) ticks.

(** An action of the environment that leaves the presence record of a
    socket alone. *)
Definition spares (socketId : string) (a : env_action) : Prop :=
  match a with
  | EnvSet k _ => k <> socketId
  | EnvDelete k => k <> socketId
  | _ => True
  end.

Definition sparing (socketId : string) (ticks : list Tick) : Prop :=
  Forall (fun t => Forall (spares socketId) (tick_env t)) ticks.

(** A schedule under which the handler runs alone and loses nothing. *)
Definition calm (w : World) : Prop := faultless (sched w) /\ undisturbed (sched w).

(** The world after an [await] of such a schedule, before the statement. *)
Definition settle (w : World) : World := with_sched (tl (sched w)) w.

(** ** History *)

(** The [n] newest rows of a room, newest first, and the rows left out. *)
Definition newest (n : Z) (room : string) (d : Db.t) : list Db.HistoryRow :=
  firstn (Z.to_nat n) (order_by Db.newest_first (Db.history_rows room d)).

Definition older (n : Z) (room : string) (d : Db.t) : list Db.HistoryRow :=
  skipn (Z.to_nat n) (order_by Db.newest_first (Db.history_rows room d)).

Definition chronological (ms : list ChatMessage) : Prop :=
  StronglySorted (fun a b => cm_time a <= cm_time b) ms.

(** The limit as the specification words it: the requested number clamped
    to [1, 1000], and 50 when the request has no number. *)
Definition claimed_limit (limit : option string) : Z :=
  match JS.parseInt (query_text limit) None with
  | JS.NaN => 50
  | JS.Num n => Z.max 1 (Z.min n 1000)
  end.

(** The limit the handler ends up with. *)
Definition served_limit (limit : option string) : Z :=
  match JS.parseInt (query_text limit) None with
  | JS.NaN => 50
  | JS.Num n => if n =? 0 then 50 else Z.max 1 (Z.min n 1000)
  end.

(** The database once a room of that name is in it. *)
Definition with_room (name : string) (d : Db.t) : Db.t :=
  if Db.has_room name d then d
  else Db.with_rooms
         (Db.rooms d ++ [Db.mkRoom (Db.fresh_id (map Db.r_id (Db.rooms d))) name 1]) d.

(** ** Relations between the world before and the world after *)

(** A computation that always returns. *)
Definition total {A : Type} (m : M A) : Prop := forall w, exists a, fst (m w) = Ok a.

(** What is sent is sent after what was there, and satisfies [P]. *)
Definition emits_only (P : Emit -> Prop) (w w' : World) : Prop :=
  exists news, outbox w' = (outbox w ++ news)%list /\ Forall P news.

Definition not_join_error (e : Emit) : Prop := e_event e <> "roomJoinError".

(** The confirmation a socket gets for its join. *)
Definition roomJoined (socket : Socket) (room : string) (userId : Z) (username : string)
  : Emit :=
  mkEmit (ToSocket (id socket)) "roomJoined" (PRoomJoined room userId username).

Definition keeps_faultless (w w' : World) : Prop :=
  faultless (sched w) -> faultless (sched w').

(** A room, once in the table, stays. *)
Definition room_stays (name : string) (w w' : World) : Prop :=
  Db.has_room name (db w) = true -> Db.has_room name (db w') = true.

(** The usernames that statements of other handlers try to insert. *)
Definition inserted_name (a : env_action) : list string :=
  match a with
  | EnvWrite (Db.InsertUser u _ _) => [u]
  | _ => []
  end.

Definition env_names (ticks : list Tick) : list string :=
  flat_map (fun t => flat_map inserted_name (tick_env t)) ticks.

(** The only username the computation itself adds to the table is
    [username]. *)
Definition adds_only (username : string) (w w' : World) : Prop :=
  (forall name,
      In name (Db.usernames (db w')) ->
      In name (Db.usernames (db w)) \/ name = username \/ In name (env_names (sched w)))
  /\ incl (env_names (sched w')) (env_names (sched w)).

Definition keeps_unique (w w' : World) : Prop :=
  NoDup (Db.usernames (db w)) -> NoDup (Db.usernames (db w')).

(** A relation between the world before and the world after that holds
    of doing nothing, composes, and holds of the environment's turn at an
    [await]. *)
Class Frame (R : World -> World -> Prop) : Prop := {
  frame_refl : forall w, R w w;
  frame_trans : forall a b c, R a b -> R b c -> R a c;
  frame_resume : forall w, R w (resume w)
}.

(** Such a relation that does not look at the database. *)
Class DbBlind (R : World -> World -> Prop) : Prop :=
  db_blind : forall w d, R w (with_db d w).

Definition frames (R : World -> World -> Prop) {A : Type} (m : M A) : Prop :=
  forall w, R w (exec m w).

(** The presence map has one entry per key. *)
Definition registry_ok (w : World) : Prop := NoDup (StrMap.keys (connectedUsers w)).

Definition keeps_registry_ok (w w' : World) : Prop := registry_ok w -> registry_ok w'.

(** Nothing is sent and no socket changes rooms. *)
Definition silent (w w' : World) : Prop :=
  outbox w' = outbox w /\ memberships w' = memberships w.

(** The presence record of one socket stays as it is, as long as the
    environment leaves it alone. *)
Definition keeps_presence (socketId : string) (w w' : World) : Prop :=
  sparing socketId (sched w) ->
  StrMap.get socketId (connectedUsers w') = StrMap.get socketId (connectedUsers w)
  /\ sparing socketId (sched w').

(** With nothing else running, an [await] leaves the presence map alone. *)
Definition same_registry (w w' : World) : Prop :=
  undisturbed (sched w) ->
  connectedUsers w' = connectedUsers w /\ undisturbed (sched w').

(** ** Registration *)

(** The name the loop of the registration tries at a counter. *)
Definition candidate (username : string) (counter : nat) : string :=
  username ++ JS.nat_to_string counter.

(** The answer of the registration to an error it does not know. *)
Definition server_error : Response :=
  mkResponse 500 (BStatus false "Server error during registration").

(** ** Calls of [utils/users.js] in any order *)

Inductive call : Type :=
| Join (socketId sessionId : string) (userId : Z) (username room ipAddress userAgent : string)
| Leave (socketId : string).

Definition run_call (c : call) : M unit :=
  match c with
  | Join socketId sessionId userId username room ipAddress userAgent =>
      userJoin socketId sessionId userId username room ipAddress userAgent ;; ret tt
  | Leave socketId => userLeave socketId ;; ret tt
  end.

Fixpoint run_calls (cs : list call) (w : World) : World :=
  match cs with
  | [] => w
  | c :: cs' => run_calls cs' (exec (run_call c) w)
  end.

(** ** What a client sees *)

Definition send (w : World) (t : target) (event : string) (p : payload) : World :=
  with_outbox (outbox w ++ [mkEmit t event p]) w.

(** ** Requests *)

(** A string of ASCII characters: its [length] in JavaScript is its
    number of bytes. *)
Definition ascii_text (s : string) : Prop :=
  Forall (fun c => JS.code c < 128) (JS.bytes s).

Definition bad_request (message : string) : Response :=
  mkResponse 400 (BStatus false message).

(** The response of a registration or of a login that succeeds, and the
    session it leaves. *)
Definition welcome (message : string) (row : Db.UserRow) : Response * HttpSession :=
  (mkResponse 200 (BUser message (Db.u_id row) (Db.u_username row) (Db.u_email row)),
   mkHttpSession (Some (Db.u_id row)) (Some (Db.u_username row))).

(** The row a registration inserts. *)
Definition registered (email password : string) (d : Db.t) : Db.UserRow :=
  Db.mkUser (Db.fresh_id (map Db.u_id (Db.users d))) (JS.split_head "@" email) email
    (bcrypt_hash password) None false (Db.now d).

(** The outcome of a lookup: lost with the statement, or what the table
    holds when the statement runs. *)
Definition lookup {A} (fault : option error) (found : A) (w : World) : outcome A * World :=
  match fault with
  | Some e => (Thrown e, resume w)
  | None => (Ok found, resume w)
  end.

(** The first user with an email, with a username. *)
Definition by_email (email : string) (d : Db.t) : option Db.UserRow :=
  hd_error (filter (fun u => String.eqb (Db.u_email u) email) (Db.users d)).

Definition by_username (username : string) (d : Db.t) : option Db.UserRow :=
  hd_error (filter (fun u => String.eqb (Db.u_username u) username) (Db.users d)).

(** A [bcrypt.compare] for the sample runs: it accepts the hash made from
    the password. *)
Definition hash_check (password hashedPassword : string) : bool :=
  String.eqb (bcrypt_hash password) hashedPassword.

Module Cases.

(** A guest who took the email of alice as username. *)
Definition mallory : Db.UserRow :=
  Db.mkUser 3 "alice@example.com" "aliceexamplecom@guest.temp" "$2a$temporary123"
    None false 0.

Definition db3 : Db.t := Db.mk [Sample.alice; Sample.bob; mallory] [] [] [] 1000.

End Cases.

(** ** The text a page shows *)

(** The text [escapeHtml] puts in the place of one character. *)
Definition entity (c : ascii) : string :=
  if Ascii.eqb c "&" then "&amp;"
  else if Ascii.eqb c "<" then "&lt;"
  else if Ascii.eqb c ">" then "&gt;"
  else if Ascii.eqb c Client.dquote then "&quot;"
  else if Ascii.eqb c "'" then "&#039;"
  else String c "".

(** The characters with a meaning in HTML text and attribute values. *)
Definition markup (c : ascii) : bool :=
  Ascii.eqb c "<" || Ascii.eqb c ">" || Ascii.eqb c Client.dquote || Ascii.eqb c "'".

(** Reading the five entities back. *)
Fixpoint unescapeHtml (s : string) : string :=
  match s with
  | String "&" (String "a" (String "m" (String "p" (String ";" r)))) =>
      String "&" (unescapeHtml r)
  | String "&" (String "l" (String "t" (String ";" r))) => String "<" (unescapeHtml r)
  | String "&" (String "g" (String "t" (String ";" r))) => String ">" (unescapeHtml r)
  | String "&" (String "q" (String "u" (String "o" (String "t" (String ";" r))))) =>
      String Client.dquote (unescapeHtml r)
  | String "&" (String "#" (String "0" (String "3" (String "9" (String ";" r))))) =>
      String "'" (unescapeHtml r)
  | String c r => String c (unescapeHtml r)
  | EmptyString => EmptyString
  end.

(** ** Sessions *)

(** The rows of a session id, and the other rows. *)
Definition has_id (sessionId : string) (s : Db.SessionRow) : bool :=
  String.eqb (Db.s_session_id s) sessionId.

Definition sessions_of (sessionId : string) (d : Db.t) : list Db.SessionRow :=
  filter (has_id sessionId) (Db.active_sessions d).

Definition other_sessions (sessionId : string) (d : Db.t) : list Db.SessionRow :=
  filter (fun s => negb (has_id sessionId s)) (Db.active_sessions d).

(** ** Presence and the database *)

(** The users table once the rows of a user id are marked online or
    offline at the current time. *)
Definition marked (isOnline : bool) (userId : Z) (d : Db.t) : Db.t :=
  snd (Db.update_user_online isOnline userId d).

(** The sessions table after Session.create has run alone. *)
Definition session_db (sessionId : string) (userId : Z)
    (socketId roomName ipAddress userAgent : string) (d : Db.t) : Db.t :=
  match sessions_of sessionId d with
  | _ :: _ =>
      snd (Db.update_session sessionId (Some socketId) (Some roomName)
             (Some ipAddress) (Some userAgent) d)
  | [] => snd (Db.insert_session sessionId userId socketId roomName ipAddress userAgent d)
  end.

(** ** Rooms and messages *)

(** The id that SELECT id FROM rooms WHERE name = ? gives first. *)
Definition room_id (name : string) (d : Db.t) : Z :=
  hd 0 (map Db.r_id (filter (fun r => String.eqb (Db.r_name r) name) (Db.rooms d))).

(** The world after Message.ensureRoom has run alone: one statement when
    the room is there, two when it is not. *)
Definition room_ensured (name : string) (w : World) : World :=
  with_db (with_room name (db w))
    (if Db.has_room name (db w) then settle w else settle (settle w)).

(** The row Message.create inserts. *)
Definition message_row (userId : Z) (roomName message messageType : string) (d : Db.t)
  : Db.MessageRow :=
  Db.mkMessage (Db.fresh_id (map Db.m_id (Db.messages d))) userId
    (room_id roomName (with_room roomName d)) message messageType (Db.now d) false.

(** ** Chat and disconnect *)

(** The message a chatMessage broadcasts. *)
Definition chat_emit (user : Presence) (text : string) (time : Z) : Emit :=
  mkEmit (ToRoom (p_room user)) "message"
    (PMessage (mkChatMessage (p_username user) text time None None)).


(** What a disconnect sends to the room. *)
Definition left_emit (user : Presence) (time : Z) : Emit :=
  mkEmit (ToRoom (p_room user)) "message"
    (PMessage (mkChatMessage botName (p_username user ++ " has left the chat! 👋") time
                 None None)).

Definition roster_emit (room : string) (roster : list RosterEntry) : Emit :=
  mkEmit (ToRoom room) "roomUsers" (PRoomUsers room roster).

(** What is left of the un-awaited [create] of a disconnect. *)
Definition leaving (user : Presence) (answer : outcome (list Z)) : M unit :=
  try (Message.create_resumed (p_id user) (p_room user)
         (p_username user ++ " has left the chat!") (Some "system") answer ;;
       ret tt)
      (fun _ => ret tt).

(** ** Joins *)

(** A history sent to a client holds at most [n] messages, oldest first. *)
Definition capped_history (n : nat) (e : Emit) : Prop :=
  match e_payload e with
  | PMessages ms => (length ms <= n)%nat /\ chronological ms
  | _ => True
  end.

Module Guests.

(** The guest Carol, as a join creates it. *)
Definition Carol : Db.UserRow :=
  Db.mkUser 3 "Carol" "carol@guest.temp" "$2a$temporary123" None false 1000.

Definition db4 : Db.t := Db.mk [Sample.alice; Sample.bob; Carol] [] [] [] 1000.

End Guests.

(** ** A join from beginning to end *)

(** What a join sends, in order, once the user is resolved. *)
Definition join_emits (socket : Socket) (userId : Z) (username room : string) (time : Z)
    (history : list ChatMessage) (roster : list RosterEntry) : list Emit :=
  [ roomJoined socket room userId username;
    mkEmit (ToSocket (id socket)) "loadMessages" (PMessages history);
    mkEmit (ToSocket (id socket)) "message"
      (PMessage (mkChatMessage botName ("Welcome to ChatBud, " ++ username ++ "! 🎉") time
                   None None));
    mkEmit (ToRoomExcept room (id socket)) "message"
      (PMessage (mkChatMessage botName (username ++ " has joined the chat! 👋") time
                   None None));
    roster_emit room roster ].

(* ================================================================== *)
(** * Proofs *)

Example parseInt_examples :
  JS.parseInt "42" None = JS.Num 42
  /\ JS.parseInt "  -7px" None = JS.Num (-7)
  /\ JS.parseInt "0x1F" None = JS.Num 31
  /\ JS.parseInt "0x1F" (Some 10) = JS.Num 0
  /\ JS.parseInt "abc" None = JS.NaN
  /\ JS.parseInt "" (Some 10) = JS.NaN
  /\ JS.parseInt (JS.number_to_string (JS.Num (-1234))) (Some 10) = JS.Num (-1234).
Proof. repeat split; reflexivity. Qed.

Example string_length_examples :
  JS.string_length "secret1" = 7%nat
  /\ JS.string_length "ééé" = 3%nat
  /\ JS.string_length "👋" = 2%nat
  /\ JS.string_length "" = 0%nat.
Proof. repeat split. Qed.

Example trim_examples :
  JS.trim "  hi there  " = "hi there"
  /\ JS.trim (String (ascii_of_nat 9) (String (ascii_of_nat 194) (String (ascii_of_nat 160) " "))) = ""
  /\ JS.trim "" = ""
  /\ JS.unbytes (JS.lower_alnum (JS.bytes "Bob the 3rd!")) = "bobthe3rd".
Proof. repeat split; reflexivity. Qed.


(* ------------------------------------------------------------------ *)
(** ** The Map *)

Section StrMapFacts.

Variable V : Type.
Implicit Types (m : StrMap.t V) (k : string) (v : V).

Lemma in_keys_set k v m x :
  In x (StrMap.keys (StrMap.set k v m)) <-> x = k \/ In x (StrMap.keys m).
Proof.
  induction m as [|[k' v'] m IH]; simpl.
  - intuition.
  - destruct (String.eqb_spec k' k) as [->|Hne]; simpl; intuition.
Qed.

Lemma keys_set_present k v m :
  In k (StrMap.keys m) -> StrMap.keys (StrMap.set k v m) = StrMap.keys m.
Proof.
  induction m as [|[k' v'] m IH]; simpl; [tauto|].
  destruct (String.eqb_spec k' k) as [->|Hne]; simpl; [reflexivity|].
  intros [H|H]; [congruence|]. now rewrite IH.
Qed.

Lemma NoDup_keys_set k v m :
  NoDup (StrMap.keys m) -> NoDup (StrMap.keys (StrMap.set k v m)).
Proof.
  induction m as [|[k' v'] m IH]; simpl; intros H.
  - constructor; [tauto | constructor].
  - inversion H as [|? ? Hnot Hrest]; subst.
    destruct (String.eqb_spec k' k) as [->|Hne]; simpl.
    + now constructor.
    + constructor; [|auto].
      rewrite in_keys_set. intros [->|Hin]; tauto.
Qed.

Lemma in_keys_delete k m x :
  In x (StrMap.keys (StrMap.delete k m)) -> In x (StrMap.keys m).
Proof.
  induction m as [|[k' v'] m IH]; simpl; [tauto|].
  destruct (String.eqb_spec k' k) as [->|Hne]; simpl; intuition.
Qed.

Lemma NoDup_keys_delete k m :
  NoDup (StrMap.keys m) -> NoDup (StrMap.keys (StrMap.delete k m)).
Proof.
  induction m as [|[k' v'] m IH]; simpl; intros H; [constructor|].
  inversion H as [|? ? Hnot Hrest]; subst.
  destruct (String.eqb_spec k' k) as [->|Hne]; simpl; [assumption|].
  constructor; [|auto].
  intros Hin. apply in_keys_delete in Hin. tauto.
Qed.

Lemma get_in_keys k m v : StrMap.get k m = Some v -> In k (StrMap.keys m).
Proof.
  induction m as [|[k' v'] m IH]; simpl; [discriminate|].
  destruct (String.eqb_spec k' k) as [->|Hne]; auto.
Qed.

Lemma get_set_same k v m : StrMap.get k (StrMap.set k v m) = Some v.
Proof.
  induction m as [|[k' v'] m IH]; simpl.
  - now rewrite String.eqb_refl.
  - destruct (String.eqb_spec k' k) as [->|Hne]; simpl.
    + now rewrite String.eqb_refl.
    + destruct (String.eqb_spec k' k); [contradiction | assumption].
Qed.

Lemma get_set_other k k' v m :
  k <> k' -> StrMap.get k' (StrMap.set k v m) = StrMap.get k' m.
Proof.
  intros Hne. induction m as [|[k0 v0] m IH]; simpl.
  - destruct (String.eqb_spec k k'); [contradiction | reflexivity].
  - destruct (String.eqb_spec k0 k) as [->|Hne0]; simpl.
    + destruct (String.eqb_spec k k'); [contradiction | reflexivity].
    + now rewrite IH.
Qed.

Lemma get_delete_other k k' m :
  k <> k' -> StrMap.get k' (StrMap.delete k m) = StrMap.get k' m.
Proof.
  intros Hne. induction m as [|[k0 v0] m IH]; simpl; [reflexivity|].
  destruct (String.eqb_spec k0 k) as [->|Hne0]; simpl.
  - destruct (String.eqb_spec k k'); [contradiction | reflexivity].
  - now rewrite IH.
Qed.

Lemma count_absent k m : ~ In k (StrMap.keys m) -> StrMap.count k m = 0%nat.
Proof.
  unfold StrMap.count.
  induction m as [|[k' v'] m IH]; simpl; [reflexivity|].
  intros H. destruct (String.eqb_spec k' k) as [->|Hne]; [tauto|].
  apply IH. tauto.
Qed.

Lemma count_at_most_one k m :
  NoDup (StrMap.keys m) -> (StrMap.count k m <= 1)%nat.
Proof.
  unfold StrMap.count.
  induction m as [|[k' v'] m IH]; simpl; intros H; [lia|].
  inversion H as [|? ? Hnot Hrest]; subst.
  destruct (String.eqb_spec k' k) as [->|Hne]; simpl; [|auto].
  pose proof (count_absent k m Hnot) as H0. unfold StrMap.count in H0. lia.
Qed.

Lemma count_present k m :
  NoDup (StrMap.keys m) -> In k (StrMap.keys m) -> StrMap.count k m = 1%nat.
Proof.
  unfold StrMap.count.
  induction m as [|[k' v'] m IH]; simpl; intros H Hin; [tauto|].
  inversion H as [|? ? Hnot Hrest]; subst.
  destruct (String.eqb_spec k' k) as [->|Hne]; simpl.
  - pose proof (count_absent k m Hnot) as H0. unfold StrMap.count in H0. lia.
  - apply IH; [assumption|]. destruct Hin; [contradiction | assumption].
Qed.

End StrMapFacts.

(* ------------------------------------------------------------------ *)
(** ** The monad *)

(** Rethrowing in a [catch] changes nothing. *)
Lemma try_rethrow {A : Type} (m : M A) :
  forall w, try m (fun e => throw e) w = m w.
Proof.
  intros w. unfold try, throw. destruct (m w) as [[a|e] w']; reflexivity.
Qed.

(** A [catch] that only logs. *)
Lemma catch_all (m : M unit) w : fst (try m (fun _ => ret tt) w) = Ok tt.
Proof. unfold try, ret. destruct (m w) as [[[]|e] w']; reflexivity. Qed.

Section Frames.

Context (R : World -> World -> Prop) {HR : Frame R}.

Lemma frames_ret {A : Type} (a : A) : frames R (ret a).
Proof. intros w. apply frame_refl. Qed.

Lemma frames_throw {A : Type} (e : error) : frames R (@throw A e).
Proof. intros w. apply frame_refl. Qed.

Lemma frames_gets {A : Type} (f : World -> A) : frames R (gets f).
Proof. intros w. apply frame_refl. Qed.

Lemma frames_modify (f : World -> World) :
  (forall w, R w (f w)) -> frames R (modify f).
Proof. intros H w. apply H. Qed.

Lemma frames_bind {A B : Type} (m : M A) (f : A -> M B) :
  frames R m -> (forall a, frames R (f a)) -> frames R (bind m f).
Proof.
  intros Hm Hf w. unfold exec, bind.
  specialize (Hm w). unfold exec in Hm.
  destruct (m w) as [[a|e] w']; simpl in *; [|assumption].
  eapply frame_trans; [eassumption | apply Hf].
Qed.

Lemma frames_try {A : Type} (m : M A) (h : error -> M A) :
  frames R m -> (forall e, frames R (h e)) -> frames R (try m h).
Proof.
  intros Hm Hh w. unfold exec, try.
  specialize (Hm w). unfold exec in Hm.
  destruct (m w) as [[a|e] w']; simpl in *; [assumption|].
  eapply frame_trans; [eassumption | apply Hh].
Qed.

Lemma frames_await {A : Type} (stmt : Db.statement A) :
  (forall w, R w (with_db (snd (stmt (db w))) w)) ->
  frames R (await stmt).
Proof.
  intros Hs w. unfold exec, await.
  destruct (tick_fault (hd quiet (sched w))); simpl; [apply frame_resume|].
  specialize (Hs (resume w)).
  destruct (stmt (db (resume w))) as [[a|e] d]; simpl in *;
    (eapply frame_trans; [apply frame_resume | exact Hs]).
Qed.

Lemma frames_await_blind {HB : DbBlind R} {A : Type} (stmt : Db.statement A) :
  frames R (await stmt).
Proof. apply frames_await. intros w. apply db_blind. Qed.

Lemma frames_detach {A : Type} (promise : M unit) (rest : M A) :
  frames R promise -> frames R rest -> frames R (detach promise rest).
Proof.
  intros Hp Hr w. unfold exec, detach.
  specialize (Hr w). unfold exec in Hr.
  destruct (rest w) as [r w']; simpl in *.
  eapply frame_trans; [eassumption|].
  apply (@frames_try unit promise (fun _ => ret tt)); [assumption|].
  intros e. apply frames_ret.
Qed.

Lemma frames_answered {A : Type} (o : outcome A) : frames R (answered o).
Proof. intros w. apply frame_refl. Qed.

End Frames.

Create HintDb handlers.

#[global] Hint Unfold
  User.create User.findByEmail User.findByUsername User.setOnlineStatus
  Session.findBySessionId Session.update Session.create Session.remove
  Session.getUsersInRoom
  Message.ensureRoom Message.create Message.getRecentMessages
  clock formatMessage : handlers.

Lemma frames_emit (R : World -> World -> Prop) t event p :
  (forall w, R w (send w t event p)) -> frames R (emit t event p).
Proof. intros H w. apply H. Qed.

Ltac frame_class :=
  try (match goal with |- Frame _ => exact _ | |- DbBlind _ => exact _ end).

(** Decompose a computation into its steps; [leaf] deals with the steps
    that change the world: an [await], a [modify], an [emit]. *)
Ltac frame_walk leaf :=
  autounfold with handlers;
  repeat first
    [ simple apply @frames_ret; frame_class
    | simple apply @frames_throw; frame_class
    | simple apply @frames_gets; frame_class
    | simple apply @frames_bind; frame_class
    | simple apply @frames_try; frame_class
    | simple apply @frames_detach; frame_class
    | match goal with
      | |- forall _, _ => intro
      | |- frames _ (match ?x with _ => _ end) => destruct x
      | |- frames _ (let _ := _ in _) => cbv zeta
      end
    | leaf ].

(** The leaves of a relation that looks neither at the database nor at
    what the computation changes. *)
Ltac blind_leaf :=
  first
    [ simple apply @frames_await_blind; frame_class
    | simple apply @frames_modify; frame_class; intros ?; red; cbn; solve [auto]
    | simple apply @frames_emit; intros ?; red; cbn; solve [auto] ].

Ltac await_leaf := simple apply @frames_await_blind; frame_class.

Ltac frame_steps := frame_walk await_leaf.

(* ------------------------------------------------------------------ *)
(** ** The environment *)

(** A property of worlds kept by every action of the environment is kept
    by its turn. *)
Lemma fold_env_invariant (P : World -> Prop) :
  (forall w a, P w -> P (run_env w a)) ->
  forall l w, P w -> P (fold_left run_env l w).
Proof.
  intros H l. induction l as [|a l IH]; simpl; auto.
Qed.

Lemma outbox_resume w : outbox (resume w) = outbox w.
Proof.
  unfold resume.
  apply (fold_env_invariant (fun x => outbox x = outbox w)); [|reflexivity].
  intros x [| | |]; simpl; auto.
Qed.

Lemma memberships_resume w : memberships (resume w) = memberships w.
Proof.
  unfold resume.
  apply (fold_env_invariant (fun x => memberships x = memberships w)); [|reflexivity].
  intros x [| | |]; simpl; auto.
Qed.

Lemma sched_resume w : sched (resume w) = tl (sched w).
Proof.
  unfold resume.
  apply (fold_env_invariant (fun x => sched x = tl (sched w))); [|reflexivity].
  intros x [| | |]; simpl; auto.
Qed.

(** ** Relations that are frames *)

#[global] Instance keeps_registry_ok_frame : Frame keeps_registry_ok.
Proof.
  split; unfold keeps_registry_ok.
  - auto.
  - auto.
  - intros w H. unfold resume.
    apply fold_env_invariant; [|exact H].
    intros x [| | |]; unfold registry_ok; simpl; intros Hx; auto.
    + now apply NoDup_keys_set.
    + now apply NoDup_keys_delete.
Qed.

#[global] Instance keeps_registry_ok_blind : DbBlind keeps_registry_ok.
Proof. intros w d H. exact H. Qed.

#[global] Instance silent_frame : Frame silent.
Proof.
  split; unfold silent.
  - auto.
  - intros a b c [H1 H2] [H3 H4]. split; congruence.
  - intros w. split; [apply outbox_resume | apply memberships_resume].
Qed.

#[global] Instance silent_blind : DbBlind silent.
Proof. intros w d. split; reflexivity. Qed.

Lemma fold_env_sparing socketId l :
  Forall (spares socketId) l ->
  forall w,
    StrMap.get socketId (connectedUsers (fold_left run_env l w))
    = StrMap.get socketId (connectedUsers w).
Proof.
  induction 1 as [|a l Ha Hl IH]; intros w; simpl; [reflexivity|].
  rewrite IH. destruct a; simpl in *; auto.
  - now apply get_set_other.
  - now apply get_delete_other.
Qed.

Lemma sparing_tl socketId l : sparing socketId l -> sparing socketId (tl l).
Proof. intros H. destruct l; simpl; [constructor | now inversion H]. Qed.

Lemma sparing_hd socketId l :
  sparing socketId l -> Forall (spares socketId) (tick_env (hd quiet l)).
Proof. intros H. destruct l; simpl; [constructor | now inversion H]. Qed.

#[global] Instance keeps_presence_frame socketId : Frame (keeps_presence socketId).
Proof.
  split; unfold keeps_presence.
  - auto.
  - intros a b c H1 H2 Ha. destruct (H1 Ha) as [E1 Hb].
    destruct (H2 Hb) as [E2 Hc]. split; [congruence | assumption].
  - intros w H. split.
    + unfold resume. rewrite fold_env_sparing; [reflexivity | now apply sparing_hd].
    + rewrite sched_resume. now apply sparing_tl.
Qed.

#[global] Instance keeps_presence_blind socketId : DbBlind (keeps_presence socketId).
Proof. intros w d H. split; [reflexivity | exact H]. Qed.

(* ------------------------------------------------------------------ *)
(** ** One presence record per connection *)

Lemma userJoin_keeps_registry_ok socketId sessionId userId username room ipAddress userAgent :
  frames keeps_registry_ok
    (userJoin socketId sessionId userId username room ipAddress userAgent).
Proof.
  unfold userJoin. frame_steps.
  apply frames_modify. intros w H. unfold registry_ok in *; simpl.
  now apply NoDup_keys_set.
Qed.

Lemma userLeave_keeps_registry_ok socketId :
  frames keeps_registry_ok (userLeave socketId).
Proof.
  unfold userLeave. frame_steps.
  apply frames_modify. intros w H. unfold registry_ok in *; simpl.
  now apply NoDup_keys_delete.
Qed.

Lemma run_calls_keeps_registry_ok cs :
  forall w, registry_ok w -> registry_ok (run_calls cs w).
Proof.
  induction cs as [|c cs IH]; intros w H; simpl; [assumption|].
  apply IH. revert H.
  change (keeps_registry_ok w (exec (run_call c) w)).
  revert w. change (frames keeps_registry_ok (run_call c)).
  destruct c; simpl; frame_steps;
    auto using userJoin_keeps_registry_ok, userLeave_keeps_registry_ok.
Qed.

#[global] Instance same_registry_frame : Frame same_registry.
Proof.
  split; unfold same_registry.
  - auto.
  - intros a b c H1 H2 Ha. destruct (H1 Ha) as [E1 Hb].
    destruct (H2 Hb) as [E2 Hc]. split; [congruence | assumption].
  - intros w H. unfold resume.
    destruct (sched w) as [|t l]; simpl in *.
    + split; [reflexivity | constructor].
    + inversion H as [|? ? Ht Hl]; subst. rewrite Ht. simpl. auto.
Qed.

#[global] Instance same_registry_blind : DbBlind same_registry.
Proof. intros w d H. split; [reflexivity | exact H]. Qed.

Lemma userJoin_registry socketId sessionId userId username room ipAddress userAgent w :
  undisturbed (sched w) ->
  connectedUsers
    (exec (userJoin socketId sessionId userId username room ipAddress userAgent) w)
  = StrMap.set socketId
      (mkPresence userId socketId sessionId username room (Db.now (db w)))
      (connectedUsers w).
Proof.
  intros Hq. unfold userJoin, clock, gets, modify, exec, bind at 1 2. simpl.
  set (w1 := with_connectedUsers _ w).
  assert (F : frames same_registry
                (try (User.setOnlineStatus userId true ;;
                      Session.create sessionId userId socketId room ipAddress userAgent)
                   (fun _ => ret tt) ;;
                 ret (mkPresence userId socketId sessionId username room (Db.now (db w))))).
  { frame_steps. }
  destruct (F w1 Hq) as [E _]. exact E.
Qed.

(** C9.  Every connection id has at most one presence record, whatever
    calls of userJoin and userLeave are made, in whatever order, and
    whatever other handlers do to the map and the database while one of
    them waits; and a userJoin for a connection id that has a record
    writes over that record: the keys of the map stay as they were, and
    the id is now bound to the new record, once. *)
Theorem presence_one_record_per_connection :
  forall w : World,
    NoDup (StrMap.keys (connectedUsers w)) ->
    (forall (cs : list call) (socketId : string),
        (StrMap.count socketId (connectedUsers (run_calls cs w)) <= 1)%nat)
    /\ (forall socketId sessionId userId username room ipAddress userAgent old,
           StrMap.get socketId (connectedUsers w) = Some old ->
           undisturbed (sched w) ->
           let w' := exec (userJoin socketId sessionId userId username room
                             ipAddress userAgent) w in
           StrMap.keys (connectedUsers w') = StrMap.keys (connectedUsers w)
           /\ StrMap.get socketId (connectedUsers w')
              = Some (mkPresence userId socketId sessionId username room (Db.now (db w)))
           /\ StrMap.count socketId (connectedUsers w') = 1%nat).
Proof.
  intros w Hw. split.
  - intros cs socketId. apply count_at_most_one.
    now apply run_calls_keeps_registry_ok.
  - intros socketId sessionId userId username room ipAddress userAgent old Hold Hq w'.
    subst w'. rewrite userJoin_registry by assumption.
    pose proof (get_in_keys _ _ _ _ Hold) as Hin.
    repeat split.
    + now apply keys_set_present.
    + apply get_set_same.
    + apply count_present.
      * now apply NoDup_keys_set.
      * apply in_keys_set. now left.
Qed.

Lemma presence_one_record_per_connection_witness :
  (StrMap.count "sock-1"
     (connectedUsers
        (run_calls
           [Join "sock-1" "sess-1" 1 "alice" "general" "10.0.0.1" "agent";
            Join "sock-1" "sess-1" 1 "alice" "random" "10.0.0.1" "agent";
            Leave "sock-2"]
           (Sample.world Sample.db0
              [mkTick [EnvSet "sock-1" (mkPresence 2 "sock-1" "s" "bob" "general" 0)] None])))
   <= 1)%nat.
Proof.
  refine (proj1 (presence_one_record_per_connection
                   (Sample.world Sample.db0 _) _) _ _).
  simpl. constructor.
Defined.

(* ------------------------------------------------------------------ *)
(** ** Messages that are turned away *)

(** C4.  A chatMessage from a connection without a presence record is
    answered with one messageError to that socket, and that is all the
    handler does: no statement reaches the database, nothing is sent to a
    room, and the rest of the process state is as before. *)
Theorem chatMessage_without_presence :
  forall (w : World) (socket : Socket) (msg : JS.value),
    StrMap.get (id socket) (connectedUsers w) = None ->
    chatMessage socket msg w
    = (Ok tt, send w (ToSocket (id socket)) "messageError" (PText "User session not found"))
    /\ db (exec (chatMessage socket msg) w) = db w
    /\ sched (exec (chatMessage socket msg) w) = sched w
    /\ outbox (exec (chatMessage socket msg) w)
       = (outbox w ++ [mkEmit (ToSocket (id socket)) "messageError"
                         (PText "User session not found")])%list.
Proof.
  intros w socket msg Hnone.
  assert (E : chatMessage socket msg w
              = (Ok tt, send w (ToSocket (id socket)) "messageError"
                          (PText "User session not found"))).
  { unfold chatMessage, try, bind, getCurrentUser, gets. now rewrite Hnone. }
  unfold exec. rewrite E. repeat split.
Qed.

Lemma chatMessage_without_presence_witness :
  chatMessage Sample.s1 (JS.VString "hello") (Sample.world Sample.db0 [])
  = (Ok tt,
     send (Sample.world Sample.db0 []) (ToSocket "sock-1") "messageError"
       (PText "User session not found")).
Proof.
  refine (proj1 (chatMessage_without_presence
                   (Sample.world Sample.db0 []) Sample.s1 (JS.VString "hello") _)).
  reflexivity.
Defined.

(** C5.  A chatMessage whose payload is not a string, or is a string
    that is empty once trimmed, is answered with one messageError to the
    sending socket, and that is all the handler does: no statement reaches
    the database and nothing is sent to a room. *)
Theorem chatMessage_rejects_bad_payload :
  forall (w : World) (socket : Socket) (msg : JS.value),
    (JS.typeof msg <> "string" \/ exists s, msg = JS.VString s /\ JS.trim s = "") ->
    exists reason,
      chatMessage socket msg w
      = (Ok tt, send w (ToSocket (id socket)) "messageError" (PText reason))
      /\ db (exec (chatMessage socket msg) w) = db w
      /\ sched (exec (chatMessage socket msg) w) = sched w
      /\ outbox (exec (chatMessage socket msg) w)
         = (outbox w ++ [mkEmit (ToSocket (id socket)) "messageError" (PText reason)])%list.
Proof.
  intros w socket msg Hbad.
  assert (E : exists reason,
             chatMessage socket msg w
             = (Ok tt, send w (ToSocket (id socket)) "messageError" (PText reason))).
  { unfold chatMessage, try, bind, getCurrentUser, gets.
    destruct (StrMap.get (id socket) (connectedUsers w)) as [user|];
      [|eexists; reflexivity].
    destruct Hbad as [Hty | (s & -> & Htrim)].
    - destruct msg as [| | b | n | s |]; simpl in *;
        try rewrite Bool.orb_true_r; try (eexists; reflexivity).
      exfalso. now apply Hty.
    - simpl. destruct s as [|c s]; simpl; [eexists; reflexivity|].
      rewrite Htrim. simpl. eexists; reflexivity. }
  destruct E as [reason E]. exists reason.
  unfold exec. rewrite E. repeat split.
Qed.

Lemma chatMessage_rejects_bad_payload_witness :
  exists reason,
    chatMessage Sample.s1 (JS.VString "   ")
      (mkWorld Sample.db0
         [("sock-1", mkPresence 1 "sock-1" "sock-1" "alice" "general" 0)] [] [] [])
    = (Ok tt,
       send (mkWorld Sample.db0
               [("sock-1", mkPresence 1 "sock-1" "sock-1" "alice" "general" 0)] [] [] [])
         (ToSocket "sock-1") "messageError" (PText reason)).
Proof.
  destruct (chatMessage_rejects_bad_payload
              (mkWorld Sample.db0
                 [("sock-1", mkPresence 1 "sock-1" "sock-1" "alice" "general" 0)] [] [] [])
              Sample.s1 (JS.VString "   ")) as [reason [E _]].
  - right. exists "   ". split; reflexivity.
  - exists reason. exact E.
Defined.

(* ------------------------------------------------------------------ *)
(** ** Reading and printing numbers *)

Lemma digits_of_uint_acc d :
  forall acc : positive,
    JS.digits 10 (JS.bytes (DecimalString.NilEmpty.string_of_uint d)) true (Z.pos acc)
    = Some (Z.pos (Pos.of_uint_acc d acc)).
Proof.
  induction d; intros acc;
    cbn [JS.digits JS.bytes list_ascii_of_string DecimalString.NilEmpty.string_of_uint
         Pos.of_uint_acc];
    [reflexivity|..];
    match goal with
    | |- context [JS.digit_value ?c] =>
        let v := eval vm_compute in (JS.digit_value c) in
        change (JS.digit_value c) with v
    end;
    cbv iota beta;
    match goal with
    | |- context [?k <? 10] => change (k <? 10) with true
    end;
    cbv iota;
    match goal with
    | |- JS.digits 10 ?l true ?a = Some (Z.pos (Pos.of_uint_acc _ ?b)) =>
        replace a with (Z.pos b) by lia
    end;
    apply IHd.
Qed.

Lemma digits_of_uint d :
  JS.digits 10 (JS.bytes (DecimalString.NilEmpty.string_of_uint d)) true 0
  = Some (Z.of_N (Pos.of_uint d)).
Proof.
  induction d;
    cbn [JS.digits JS.bytes list_ascii_of_string DecimalString.NilEmpty.string_of_uint
         Pos.of_uint];
    [reflexivity|..];
    match goal with
    | |- context [JS.digit_value ?c] =>
        let v := eval vm_compute in (JS.digit_value c) in
        change (JS.digit_value c) with v
    end;
    cbv iota beta;
    match goal with
    | |- context [?k <? 10] => change (k <? 10) with true
    end;
    cbv iota;
    [exact IHd|..];
    match goal with
    | |- JS.digits 10 ?l true (0 * 10 + ?k) = _ =>
        change (0 * 10 + k) with k
    end;
    apply (digits_of_uint_acc d).
Qed.


Lemma strip_ascii_head c l :
  JS.ws1 c = false -> JS.code c < 128 -> JS.strip false (c :: l) = c :: l.
Proof.
  intros Hws Hc. cbn [JS.strip]. rewrite Hws.
  assert (E1 : (JS.code c =? 194) = false) by (apply Z.eqb_neq; lia).
  assert (E2 : (JS.code c =? 225) = false) by (apply Z.eqb_neq; lia).
  assert (E3 : (JS.code c =? 226) = false) by (apply Z.eqb_neq; lia).
  assert (E4 : (JS.code c =? 227) = false) by (apply Z.eqb_neq; lia).
  assert (E5 : (JS.code c =? 239) = false) by (apply Z.eqb_neq; lia).
  destruct l as [|c2 [|c3 l]]; unfold JS.ws2, JS.ws3;
    rewrite ?E1, ?E2, ?E3, ?E4, ?E5; reflexivity.
Qed.

(** The printed digits of a number start with a digit. *)
Lemma uint_head d :
  d <> Decimal.Nil ->
  exists c rest,
    JS.bytes (DecimalString.NilEmpty.string_of_uint d) = c :: rest
    /\ 48 <= JS.code c <= 57.
Proof.
  intros Hnil. destruct d; [contradiction|..]; cbn;
    do 2 eexists; (split; [reflexivity | vm_compute; split; discriminate]).
Qed.

Lemma digits_first R c l :
  (exists d, JS.digit_value c = Some d /\ d < R) ->
  JS.digits R (c :: l) false 0 = JS.digits R (c :: l) true 0.
Proof.
  intros (d & Hd & Hlt). cbn [JS.digits]. rewrite Hd.
  apply Z.ltb_lt in Hlt. now rewrite Hlt.
Qed.

Lemma digit_value_decimal c :
  48 <= JS.code c <= 57 -> JS.digit_value c = Some (JS.code c - 48).
Proof.
  intros H. unfold JS.digit_value.
  replace ((48 <=? JS.code c) && (JS.code c <=? 57)) with true; [reflexivity|].
  symmetry. apply andb_true_iff. split; apply Z.leb_le; lia.
Qed.

(** Reading decimal digits that start with a digit. *)
Lemma parseInt_digits c rest :
  48 <= JS.code c <= 57 ->
  JS.parseInt (JS.unbytes (c :: rest)) (Some 10)
  = match JS.digits 10 (c :: rest) true 0 with
    | Some v => JS.Num v
    | None => JS.NaN
    end.
Proof.
  intros Hc. unfold JS.parseInt, JS.bytes, JS.unbytes.
  rewrite list_ascii_of_string_of_list_ascii.
  rewrite strip_ascii_head;
    [| unfold JS.ws1; apply orb_false_iff; split;
       [apply andb_false_iff; right; apply Z.leb_gt; lia | apply Z.eqb_neq; lia]
     | lia].
  replace (JS.code c =? 45) with false by (symmetry; apply Z.eqb_neq; lia).
  replace (JS.code c =? 43) with false by (symmetry; apply Z.eqb_neq; lia).
  change (negb (10 =? 0) && ((10 <? 2) || (36 <? 10))) with false.
  change ((10 =? 0) || (10 =? 16)) with false.
  change (if 10 =? 0 then 10 else 10) with 10.
  cbv iota.
  assert (E : JS.digits 10 (c :: rest) false 0 = JS.digits 10 (c :: rest) true 0).
  { apply digits_first. exists (JS.code c - 48).
    split; [now apply digit_value_decimal | lia]. }
  destruct rest as [|cx r]; cbn [andb]; cbv iota; rewrite E;
    (destruct (JS.digits 10 _ true 0) as [v|]; [f_equal; lia | reflexivity]).
Qed.

Lemma parseInt_positive p :
  JS.parseInt (DecimalString.NilEmpty.string_of_uint (Pos.to_uint p)) (Some 10)
  = JS.Num (Z.pos p).
Proof.
  destruct (uint_head (Pos.to_uint p) (DecimalPos.Unsigned.to_uint_nonnil p))
    as (c & rest & Hb & Hc).
  rewrite <- (string_of_list_ascii_of_string
                (DecimalString.NilEmpty.string_of_uint (Pos.to_uint p))).
  fold (JS.bytes (DecimalString.NilEmpty.string_of_uint (Pos.to_uint p))).
  rewrite Hb. fold (JS.unbytes (c :: rest)).
  rewrite parseInt_digits by assumption.
  rewrite <- Hb, digits_of_uint, DecimalPos.Unsigned.of_to. reflexivity.
Qed.

Lemma string_of_uint_nonnil d :
  d <> Decimal.Nil ->
  DecimalString.NilZero.string_of_uint d = DecimalString.NilEmpty.string_of_uint d.
Proof. destruct d; [contradiction | reflexivity..]. Qed.

(** Printing a Number and reading it back in radix 10 gives the Number. *)
Lemma parseInt_number_to_string z :
  JS.parseInt (JS.number_to_string (JS.Num z)) (Some 10) = JS.Num z.
Proof.
  destruct z as [|p|p]; cbn [JS.number_to_string N.to_uint].
  - reflexivity.
  - rewrite string_of_uint_nonnil by apply DecimalPos.Unsigned.to_uint_nonnil.
    apply parseInt_positive.
  - rewrite string_of_uint_nonnil by apply DecimalPos.Unsigned.to_uint_nonnil.
    pose proof (parseInt_positive p) as H.
    destruct (uint_head (Pos.to_uint p) (DecimalPos.Unsigned.to_uint_nonnil p))
      as (c & rest & Hb & Hc).
    unfold JS.parseInt in *. cbn [JS.bytes list_ascii_of_string].
    fold (JS.bytes (DecimalString.NilEmpty.string_of_uint (Pos.to_uint p))) in *.
    rewrite Hb in *.
    rewrite strip_ascii_head in H;
      [| unfold JS.ws1; apply orb_false_iff; split;
         [apply andb_false_iff; right; apply Z.leb_gt; lia | apply Z.eqb_neq; lia]
       | lia].
    rewrite strip_ascii_head by (vm_compute; reflexivity).
    change (JS.code "-" =? 45) with true. cbv iota.
    replace (JS.code c =? 45) with false in H by (symmetry; apply Z.eqb_neq; lia).
    replace (JS.code c =? 43) with false in H by (symmetry; apply Z.eqb_neq; lia).
    cbv iota in H.
    change (negb (10 =? 0) && ((10 <? 2) || (36 <? 10))) with false in *.
    change ((10 =? 0) || (10 =? 16)) with false in *.
    change (if 10 =? 0 then 10 else 10) with 10 in *.
    cbv iota in *.
    destruct rest as [|cx r]; cbn [andb] in *; cbv iota in *;
      revert H; (destruct (JS.digits 10 _ false 0) as [v|]; intros H; [|discriminate H]);
      assert (Hv : v = Z.pos p) by (destruct v; now inversion H);
      subst v; reflexivity.
Qed.


Lemma messageLimit_num z :
  Message.messageLimit (JS.Num z)
  = JS.Num (if z =? 0 then 50 else Z.max 1 (Z.min z 1000)).
Proof.
  unfold Message.messageLimit. rewrite parseInt_number_to_string.
  unfold JS.number_or, JS.number_truthy.
  destruct (z =? 0); reflexivity.
Qed.


(* ------------------------------------------------------------------ *)
(** ** Sorted lists *)

Section OrderBy.

Context {A : Type} (leb : A -> A -> bool).
Hypothesis leb_total : forall a b, leb a b = true \/ leb b a = true.
Hypothesis leb_trans : forall a b c, leb a b = true -> leb b c = true -> leb a c = true.

Let le (a b : A) : Prop := leb a b = true.

Lemma insert_sorted_perm x l : Permutation (x :: l) (insert_sorted leb x l).
Proof.
  induction l as [|y l IH]; simpl; [reflexivity|].
  destruct (leb x y); [reflexivity|].
  rewrite perm_swap. now constructor.
Qed.

Lemma order_by_perm l : Permutation l (order_by leb l).
Proof.
  induction l as [|x l IH]; simpl; [constructor|].
  rewrite <- insert_sorted_perm. now constructor.
Qed.

Lemma insert_sorted_sorted x l :
  StronglySorted le l -> StronglySorted le (insert_sorted leb x l).
Proof.
  induction 1 as [|y l Hl IH Hy]; simpl.
  - repeat constructor.
  - destruct (leb x y) eqn:E.
    + constructor; [now constructor|].
      constructor; [exact E|].
      eapply Forall_impl; [|exact Hy]. intros z Hz. now apply leb_trans with y.
    + constructor; [assumption|].
      assert (Hyx : le y x) by (destruct (leb_total x y); [congruence | assumption]).
      eapply Permutation_Forall; [apply insert_sorted_perm|].
      now constructor.
Qed.

Lemma order_by_sorted l : StronglySorted le (order_by leb l).
Proof.
  induction l as [|x l IH]; simpl; [constructor|].
  now apply insert_sorted_sorted.
Qed.

End OrderBy.

Lemma in_firstn {A} (x : A) n l : In x (firstn n l) -> In x l.
Proof.
  intros H. rewrite <- (firstn_skipn n l). apply in_or_app. now left.
Qed.

Lemma StronglySorted_firstn {A} (R : A -> A -> Prop) n l :
  StronglySorted R l -> StronglySorted R (firstn n l).
Proof.
  intros H. revert n. induction H as [|x l Hl IH Hx]; intros [|n]; simpl;
    try constructor; auto.
  apply Forall_forall. intros y Hy. apply in_firstn in Hy.
  rewrite Forall_forall in Hx. auto.
Qed.

Lemma StronglySorted_app_inv {A} (R : A -> A -> Prop) l1 l2 :
  StronglySorted R l1 -> StronglySorted R l2 ->
  (forall a b, In a l1 -> In b l2 -> R a b) ->
  StronglySorted R (l1 ++ l2).
Proof.
  induction 1 as [|x l Hl IH Hx]; intros H2 H; simpl; [assumption|].
  constructor.
  - apply IH; [assumption|]. intros a b Ha Hb. apply H; [now right | assumption].
  - apply Forall_app. split; [assumption|].
    apply Forall_forall. intros b Hb. apply H; [now left | assumption].
Qed.

Lemma StronglySorted_rev {A} (R : A -> A -> Prop) l :
  StronglySorted R l -> StronglySorted (fun a b => R b a) (rev l).
Proof.
  induction 1 as [|x l Hl IH Hx]; simpl; [constructor|].
  apply StronglySorted_app_inv; [assumption | repeat constructor |].
  intros a b Ha [<-|[]]. apply in_rev in Ha.
  rewrite Forall_forall in Hx. auto.
Qed.

Lemma StronglySorted_map {A B} (f : A -> B) (R : B -> B -> Prop) l :
  StronglySorted (fun a b => R (f a) (f b)) l -> StronglySorted R (map f l).
Proof.
  induction 1 as [|x l Hl IH Hx]; simpl; constructor; [assumption|].
  apply Forall_map. exact Hx.
Qed.

Lemma StronglySorted_app_cross {A} (R : A -> A -> Prop) l1 l2 :
  StronglySorted R (l1 ++ l2) -> forall a b, In a l1 -> In b l2 -> R a b.
Proof.
  induction l1 as [|x l1 IH]; simpl; intros H a b Ha Hb; [tauto|].
  inversion H as [|? ? Hl Hx]; subst.
  destruct Ha as [<-|Ha].
  - rewrite Forall_forall in Hx. apply Hx. apply in_or_app. now right.
  - now apply IH.
Qed.


(* ------------------------------------------------------------------ *)
(** ** Running alone *)

Lemma calm_settle w : calm w -> calm (settle w).
Proof.
  intros [Hf Hu]. unfold calm, settle, faultless, undisturbed in *. simpl.
  destruct (sched w); simpl; [split; constructor|].
  inversion Hf; inversion Hu; subst. now split.
Qed.

Lemma calm_with_db d w : calm w -> calm (with_db d w).
Proof. intros H. exact H. Qed.

Lemma resume_calm w : calm w -> resume w = settle w.
Proof.
  intros [Hf Hu]. unfold resume, settle.
  destruct (sched w) as [|t l]; [reflexivity|].
  inversion Hu as [|? ? Ht Hl]; subst. simpl. now rewrite Ht.
Qed.

Lemma await_calm {A} (stmt : Db.statement A) w :
  calm w ->
  await stmt w
  = (match fst (stmt (db w)) with inl a => Ok a | inr e => Thrown e end,
     with_db (snd (stmt (db w))) (settle w)).
Proof.
  intros H. unfold await. rewrite (resume_calm w H).
  destruct H as [Hf Hu].
  replace (tick_fault (hd quiet (sched w))) with (@None error).
  - change (db (settle w)) with (db w).
    destruct (stmt (db w)) as [[a|e] d]; reflexivity.
  - destruct (sched w); [reflexivity|]. inversion Hf; subst. simpl. congruence.
Qed.

Lemma served_limit_range limit : 1 <= served_limit limit <= 1000.
Proof.
  unfold served_limit. destruct (JS.parseInt _ _) as [|n]; [lia|].
  destruct (n =? 0); lia.
Qed.

Lemma messageLimit_query limit :
  Message.messageLimit (query_limit limit) = JS.Num (served_limit limit).
Proof.
  unfold query_limit, served_limit, query_text, JS.number_or, JS.number_truthy.
  destruct (JS.parseInt _ None) as [|n]; [reflexivity|].
  destruct (n =? 0) eqn:E; cbn [negb]; [reflexivity|].
  rewrite messageLimit_num, E. reflexivity.
Qed.

Lemma newest_first_total a b :
  Db.newest_first a b = true \/ Db.newest_first b a = true.
Proof. unfold Db.newest_first. rewrite !Z.leb_le. lia. Qed.

Lemma newest_first_trans a b c :
  Db.newest_first a b = true -> Db.newest_first b c = true -> Db.newest_first a c = true.
Proof. unfold Db.newest_first. rewrite !Z.leb_le. lia. Qed.

Lemma history_rows_time room d h :
  In h (Db.history_rows room d) -> Db.h_local_time h = Db.h_timestamp h.
Proof.
  unfold Db.history_rows. rewrite in_flat_map. intros (m & _ & H).
  rewrite in_flat_map in H. destruct H as (u & _ & H).
  rewrite in_flat_map in H. destruct H as (r & _ & H).
  destruct (_ && _) in H; [|contradiction].
  destruct H as [<-|[]]. reflexivity.
Qed.

Lemma StronglySorted_weaken {A} (R R' : A -> A -> Prop) l :
  (forall a b, In a l -> In b l -> R a b -> R' a b) ->
  StronglySorted R l -> StronglySorted R' l.
Proof.
  intros H HS. induction HS as [|x l Hl IH Hx]; constructor.
  - apply IH. intros a b Ha Hb. apply H; now right.
  - rewrite Forall_forall in *. intros y Hy. apply H; [now left | now right | auto].
Qed.

Lemma newest_in n room d h : In h (newest n room d) -> In h (Db.history_rows room d).
Proof.
  intros H. apply in_firstn in H.
  eapply Permutation_in; [symmetry; apply order_by_perm | exact H].
Qed.

Lemma newest_length n room d : 0 <= n -> (length (newest n room d) <= Z.to_nat n)%nat.
Proof. intros _. apply firstn_le_length. Qed.

Lemma rev_newest_chronological n room d :
  chronological (map formatDbMessage (rev (newest n room d))).
Proof.
  unfold chronological. apply StronglySorted_map.
  apply StronglySorted_weaken
    with (R := fun a b => Db.newest_first b a = true).
  - intros a b Ha Hb. apply in_rev in Ha, Hb. apply newest_in in Ha, Hb.
    cbn [formatDbMessage cm_time].
    rewrite (history_rows_time _ _ _ Ha), (history_rows_time _ _ _ Hb).
    unfold Db.newest_first. now rewrite Z.leb_le.
  - apply StronglySorted_rev with (R := fun a b => Db.newest_first a b = true).
    apply StronglySorted_firstn.
    apply order_by_sorted; [apply newest_first_total | apply newest_first_trans].
Qed.

(** The rows of the room are the newest ones and the older ones, and no
    older one is newer than a newest one. *)
Lemma newest_older n room d :
  Permutation (newest n room d ++ older n room d) (Db.history_rows room d)
  /\ forall a b, In a (newest n room d) -> In b (older n room d) ->
                 Db.h_timestamp b <= Db.h_timestamp a.
Proof.
  unfold newest, older. split.
  - rewrite firstn_skipn. symmetry. apply order_by_perm.
  - intros a b Ha Hb.
    pose proof (order_by_sorted Db.newest_first newest_first_total newest_first_trans
                  (Db.history_rows room d)) as HS.
    rewrite <- (firstn_skipn (Z.to_nat n)) in HS.
    pose proof (StronglySorted_app_cross _ _ _ HS a b Ha Hb) as H.
    unfold Db.newest_first in H. now apply Z.leb_le.
Qed.

Lemma getRecentMessages_rows room limit l w :
  Message.messageLimit (match limit with Some n => n | None => JS.Num 50 end) = JS.Num l ->
  0 <= l ->
  exists rows,
    Message.getRecentMessages room limit w
    = (Ok rows, exec (Message.getRecentMessages room limit) w)
    /\ (rows = [] \/
        rows = rev (newest l room (db (exec (Message.getRecentMessages room limit) w)))).
Proof.
  intros Hl Hpos.
  assert (Hneg : (l <? 0) = false) by (apply Z.ltb_ge; lia).
  unfold exec, Message.getRecentMessages, Message.ensureRoom.
  rewrite Hl.
  unfold try, bind, await, ret, throw, Db.select_recent_messages, Db.select_room_ids,
    Db.insert_room.
  rewrite Hneg.
  repeat match goal with
         | |- context [match tick_fault ?t with _ => _ end] =>
             destruct (tick_fault t); cbn [fst snd]
         | |- context [match ?x with [] => _ | _ :: _ => _ end] =>
             destruct x; cbn [fst snd]
         | |- context [if Db.has_room ?r ?d then _ else _] =>
             destruct (Db.has_room r d); cbn [fst snd]
         end;
    eexists; (split; [reflexivity|]); cbn [db with_db]; auto.
Qed.

(** The room is in the table or it is not, and a select finds its rows. *)
Lemma has_room_select name d :
  Db.has_room name d = false ->
  filter (fun r => String.eqb (Db.r_name r) name) (Db.rooms d) = [].
Proof.
  unfold Db.has_room, Db.room_names. intros H.
  induction (Db.rooms d) as [|r l IH]; simpl in *; [reflexivity|].
  apply orb_false_iff in H. destruct H as [H1 H2].
  rewrite String.eqb_sym, H1. auto.
Qed.


Lemma has_room_rows name d :
  Db.has_room name d = true ->
  map Db.r_id (filter (fun r => String.eqb (Db.r_name r) name) (Db.rooms d)) <> [].
Proof.
  unfold Db.has_room, Db.room_names.
  induction (Db.rooms d) as [|r l IH]; simpl; [discriminate|].
  rewrite String.eqb_sym.
  destruct (String.eqb (Db.r_name r) name); simpl; [discriminate | auto].
Qed.

Lemma with_db_db w : with_db (db w) w = w.
Proof. now destruct w. Qed.

Lemma getRecentMessages_calm room limit l w :
  Message.messageLimit (match limit with Some n => n | None => JS.Num 50 end) = JS.Num l ->
  0 <= l ->
  calm w ->
  exists w',
    Message.getRecentMessages room limit w
    = (Ok (rev (newest l room (with_room room (db w)))), w')
    /\ db w' = with_room room (db w).
Proof.
  intros Hl Hpos Hc.
  assert (Hneg : (l <? 0) = false) by (apply Z.ltb_ge; lia).
  unfold Message.getRecentMessages, Message.ensureRoom.
  rewrite Hl.
  unfold try at 1. unfold bind at 1. unfold try at 1. unfold bind at 1.
  rewrite (await_calm _ w Hc).
  unfold Db.select_room_ids at 1 2. cbn [fst snd].
  unfold with_room.
  destruct (Db.has_room room (db w)) eqn:Hr.
  - pose proof (has_room_rows _ _ Hr) as Hrows.
    destruct (map Db.r_id _) as [|rid rids]; [contradiction|].
    unfold ret at 1. unfold bind at 1.
    rewrite await_calm by (repeat first [apply calm_with_db | apply calm_settle]; exact Hc).
    unfold Db.select_recent_messages. rewrite Hneg. cbn [fst snd].
    eexists. split; reflexivity.
  - rewrite (has_room_select _ _ Hr). cbn [map].
    rewrite await_calm by (apply calm_with_db, calm_settle, Hc).
    unfold Db.insert_room. cbn [db with_db settle].
    rewrite Hr. cbn [fst snd]. unfold bind at 1.
    rewrite await_calm by (repeat first [apply calm_with_db | apply calm_settle]; exact Hc).
    unfold Db.select_recent_messages. rewrite Hneg. cbn [fst snd].
    eexists. split; reflexivity.
Qed.

(** C3, as amended.  For every room and every requested limit (a safe
    integer when it is a number), the handler of GET /api/messages/:room of
    a logged-in user answers with at most L messages, oldest first, where L
    is the limit the code computes: the requested number when it lies in
    1..1000, 1000 above that, 1 below zero, and 50 when the request has no
    number or asks for 0; L always lies in 1..1000.  The messages are the L
    newest rows of the room at the time of the query, turned around (or
    none, when a statement failed); they are exactly those when nothing
    fails and nothing else runs. *)
Theorem history_limited_and_chronological :
  forall (w : World) (room : string) (limit : option string) (session : HttpSession),
    hs_userId session <> None ->
    JS.safe (JS.parseInt (query_text limit) None) ->
    let L := served_limit limit in
    let w' := exec (get_messages room limit session) w in
    Message.messageLimit (query_limit limit) = JS.Num L
    /\ 1 <= L <= 1000
    /\ (exists rows,
           get_messages room limit session w
           = (Ok (mkResponse 200 (BMessages (map formatDbMessage rows))), w')
           /\ (length (map formatDbMessage rows) <= Z.to_nat L)%nat
           /\ chronological (map formatDbMessage rows)
           /\ (rows = [] \/ rows = rev (newest L room (db w')))
           /\ (calm w -> rows = rev (newest L room (db w'))))
    /\ (forall d,
           Permutation (newest L room d ++ older L room d) (Db.history_rows room d)
           /\ forall a b, In a (newest L room d) -> In b (older L room d) ->
                          Db.h_timestamp b <= Db.h_timestamp a).
Proof.
  intros w room limit session Hauth _ L w'.
  pose proof (served_limit_range limit) as HL. fold L in HL.
  pose proof (messageLimit_query limit) as HmL. fold L in HmL.
  split; [exact HmL|]. split; [exact HL|]. split; [|intros d; apply newest_older].
  destruct (getRecentMessages_rows room (Some (query_limit limit)) L w HmL ltac:(lia))
    as (rows & Erun & Hrows).
  assert (Eget : get_messages room limit session w
                 = (Ok (mkResponse 200 (BMessages (map formatDbMessage rows))),
                    exec (Message.getRecentMessages room (Some (query_limit limit))) w)).
  { unfold get_messages. destruct (hs_userId session) as [uid|]; [|congruence].
    unfold try, bind. rewrite Erun. reflexivity. }
  assert (Ew : w' = exec (Message.getRecentMessages room (Some (query_limit limit))) w).
  { unfold w', exec at 1. now rewrite Eget. }
  exists rows. rewrite Ew. split; [exact Eget|].
  assert (Hlen : (length (map formatDbMessage rows) <= Z.to_nat L)%nat).
  { rewrite length_map. destruct Hrows as [-> | ->]; simpl; [lia|].
    rewrite length_rev. apply newest_length. lia. }
  assert (Hchrono : chronological (map formatDbMessage rows)).
  { destruct Hrows as [-> | ->]; [constructor | apply rev_newest_chronological]. }
  repeat split; try assumption.
  intros Hcalm.
  destruct (getRecentMessages_calm room (Some (query_limit limit)) L w HmL ltac:(lia) Hcalm)
    as (w1 & E1 & Hdb).
  unfold exec. rewrite E1 in *. cbn [snd]. rewrite Hdb.
  now injection Erun as ->.
Qed.

Lemma history_limited_and_chronological_witness :
  exists rows,
    get_messages "general" (Some "2") Sample.alice_session
      (Sample.world Sample.db1 [])
    = (Ok (mkResponse 200 (BMessages (map formatDbMessage rows))),
       exec (get_messages "general" (Some "2") Sample.alice_session)
         (Sample.world Sample.db1 []))
    /\ (length (map formatDbMessage rows) <= 2)%nat.
Proof.
  destruct (history_limited_and_chronological
              (Sample.world Sample.db1 []) "general" (Some "2")
              Sample.alice_session)
    as (_ & _ & (rows & E & Hlen & _) & _).
  - discriminate.
  - cbn. lia.
  - exists rows. split; [exact E | exact Hlen].
Defined.

(** C3 as stated fails for a requested limit of 0: clamped to 1..1000 it
    would be 1, and the handler answers with the three messages of the
    room. *)
Lemma history_limit_zero_counterexample :
  exists ms,
    result (get_messages "general" (Some "0") Sample.alice_session)
      (Sample.world Sample.db1 [])
    = Ok (mkResponse 200 (BMessages ms))
    /\ claimed_limit (Some "0") = 1
    /\ length ms = 3%nat
    /\ ~ (length ms <= Z.to_nat (claimed_limit (Some "0")))%nat.
Proof.
  eexists. split; [vm_compute; reflexivity|].
  split; [reflexivity|]. split; [reflexivity|].
  vm_compute. lia.
Qed.

(* ------------------------------------------------------------------ *)
(** ** Computations that always return, and what they send *)

Section Total.

Lemma total_ret {A} (a : A) : total (ret a).
Proof. intros w. now exists a. Qed.

Lemma total_gets {A} (f : World -> A) : total (gets f).
Proof. intros w. now exists (f w). Qed.

Lemma total_modify f : total (modify f).
Proof. intros w. now exists tt. Qed.

Lemma total_emit t event p : total (emit t event p).
Proof. apply total_modify. Qed.

Lemma total_bind {A B} (m : M A) (f : A -> M B) :
  total m -> (forall a, total (f a)) -> total (bind m f).
Proof.
  intros Hm Hf w. unfold bind. destruct (Hm w) as [a Ha].
  destruct (m w) as [[a'|e] w']; cbn in Ha; [|discriminate]. apply Hf.
Qed.

Lemma total_try {A} (m : M A) (h : error -> M A) :
  (forall e, total (h e)) -> total (try m h).
Proof.
  intros Hh w. unfold try. destruct (m w) as [[a|e] w']; [now exists a | apply Hh].
Qed.

End Total.

Ltac total_steps :=
  repeat first
    [ simple apply @total_ret | simple apply @total_gets | simple apply @total_modify
    | simple apply @total_emit | simple apply @total_try
    | simple apply @total_bind
    | match goal with
      | |- forall _, _ => intro
      | |- total (let _ := _ in _) => cbv zeta
      end ].

Lemma userJoin_total a b c d e f g : total (userJoin a b c d e f g).
Proof. unfold userJoin, clock. total_steps. Qed.

Lemma getRecentMessages_total room limit : total (Message.getRecentMessages room limit).
Proof. unfold Message.getRecentMessages. total_steps. Qed.

Lemma getRoomUsers_total room : total (getRoomUsers room).
Proof. unfold getRoomUsers. total_steps. Qed.

Lemma join_greet_total socket userId username room :
  total (join_greet socket userId username room).
Proof.
  unfold join_greet, formatMessage, clock. total_steps.
  apply getRoomUsers_total.
Qed.

#[global] Instance emits_only_frame P : Frame (emits_only P).
Proof.
  split; unfold emits_only.
  - intros w. exists []. split; [now rewrite app_nil_r | constructor].
  - intros a b c (n1 & E1 & H1) (n2 & E2 & H2). exists (n1 ++ n2)%list. split.
    + now rewrite E2, E1, app_assoc.
    + now apply Forall_app.
  - intros w. exists []. split; [now rewrite app_nil_r, outbox_resume | constructor].
Qed.

#[global] Instance emits_only_blind P : DbBlind (emits_only P).
Proof. intros w d. exists []. split; [now rewrite app_nil_r | constructor]. Qed.

Lemma emits_only_send (P : Emit -> Prop) t event p w :
  P (mkEmit t event p) -> emits_only P w (send w t event p).
Proof. intros H. exists [mkEmit t event p]. split; [reflexivity | now constructor]. Qed.

#[global] Instance keeps_faultless_frame : Frame keeps_faultless.
Proof.
  split; unfold keeps_faultless.
  - auto.
  - auto.
  - intros w H. rewrite sched_resume. unfold faultless in *.
    destruct (sched w); [constructor | now inversion H].
Qed.

#[global] Instance keeps_faultless_blind : DbBlind keeps_faultless.
Proof. intros w d H. exact H. Qed.

Lemma userJoin_keeps_faultless a b c d e f g :
  frames keeps_faultless (userJoin a b c d e f g).
Proof. unfold userJoin. frame_walk blind_leaf. Qed.

Lemma userJoin_silent a b c d e f g : frames silent (userJoin a b c d e f g).
Proof. unfold userJoin. frame_walk blind_leaf. Qed.

Ltac emit_leaf :=
  first
    [ simple apply @frames_await_blind; frame_class
    | simple apply @frames_emit; intros ?; apply emits_only_send; cbn; discriminate ].

Lemma join_greet_emits socket userId username room :
  frames (emits_only not_join_error) (join_greet socket userId username room).
Proof.
  unfold join_greet, getRoomUsers. frame_walk emit_leaf.
Qed.

(* ------------------------------------------------------------------ *)
(** ** Rooms *)

Lemma has_room_in name d : Db.has_room name d = true <-> In name (Db.room_names d).
Proof.
  unfold Db.has_room. rewrite existsb_exists. split.
  - intros (x & Hx & E). apply String.eqb_eq in E. now subst.
  - intros H. exists name. split; [assumption | apply String.eqb_refl].
Qed.

Lemma has_room_insert name d :
  Db.has_room name (snd (Db.insert_room name d)) = true.
Proof.
  unfold Db.insert_room. destruct (Db.has_room name d) eqn:E; cbn [snd]; [exact E|].
  apply has_room_in. unfold Db.room_names. cbn. rewrite map_app. apply in_or_app.
  right. now left.
Qed.

Lemma room_names_apply x d :
  incl (Db.room_names d) (Db.room_names (Db.apply x d)).
Proof.
  destruct x; cbn; try apply incl_refl.
  - unfold Db.insert_user. destruct (Db.has_username _ _); [apply incl_refl|].
    destruct (Db.has_email _ _); apply incl_refl.
  - unfold Db.insert_room. destruct (Db.has_room _ _); [apply incl_refl|].
    cbn. unfold Db.room_names. cbn. rewrite map_app. now apply incl_appl, incl_refl.
Qed.

#[global] Instance room_stays_frame name : Frame (room_stays name).
Proof.
  split; unfold room_stays.
  - auto.
  - auto.
  - intros w H. unfold resume.
    apply fold_env_invariant; [|exact H].
    intros x [wr| | |]; cbn; auto.
    rewrite !has_room_in. apply room_names_apply.
Qed.

Lemma room_stays_statement name {A} (stmt : Db.statement A) :
  (forall d, incl (Db.room_names d) (Db.room_names (snd (stmt d)))) ->
  forall w, room_stays name w (with_db (snd (stmt (db w))) w).
Proof.
  intros H w. unfold room_stays. cbn. rewrite !has_room_in. apply H.
Qed.

Lemma history_query_keeps_room name room limit :
  frames (room_stays name)
    (rows <- await (Db.select_recent_messages room limit) ;; ret (rev rows)).
Proof.
  apply frames_bind; [exact _ | | intros; apply frames_ret; exact _].
  apply frames_await; [exact _|]. apply room_stays_statement.
  intros d. unfold Db.select_recent_messages.
  destruct limit as [|n]; [apply incl_refl|]. destruct (n <? 0); apply incl_refl.
Qed.

Lemma filter_room_nonempty name d r l :
  filter (fun r => String.eqb (Db.r_name r) name) (Db.rooms d) = r :: l ->
  Db.has_room name d = true.
Proof.
  intros E. apply has_room_in. unfold Db.room_names.
  assert (Hin : In r (filter (fun r => String.eqb (Db.r_name r) name) (Db.rooms d)))
    by (rewrite E; now left).
  apply filter_In in Hin. destruct Hin as [Hin Hn]. apply String.eqb_eq in Hn.
  subst name. now apply in_map.
Qed.

Lemma ensureRoom_creates room w :
  tick_fault (hd quiet (sched w)) = None ->
  tick_fault (hd quiet (tl (sched w))) = None ->
  Db.has_room room (db (exec (Message.ensureRoom room) w)) = true.
Proof.
  intros F1 F2.
  unfold exec, Message.ensureRoom. rewrite try_rethrow.
  unfold bind, await at 1. rewrite F1.
  unfold Db.select_room_ids. cbn [fst snd].
  destruct (filter _ (Db.rooms (db (resume w)))) as [|r l] eqn:E; cbn [map].
  - unfold await. cbn [sched with_db]. rewrite sched_resume, F2.
    set (w2 := resume (with_db (db (resume w)) (resume w))).
    pose proof (has_room_insert room (db w2)) as H.
    destruct (Db.insert_room room (db w2)) as [[i|e] d]; exact H.
  - unfold ret. cbn [snd db with_db]. eapply filter_room_nonempty, E.
Qed.

Lemma getRecentMessages_creates room limit w :
  tick_fault (hd quiet (sched w)) = None ->
  tick_fault (hd quiet (tl (sched w))) = None ->
  Db.has_room room (db (exec (Message.getRecentMessages room limit) w)) = true.
Proof.
  intros F1 F2.
  pose proof (ensureRoom_creates room w F1 F2) as H.
  unfold exec in *. unfold Message.getRecentMessages, try. unfold bind at 1.
  destruct (Message.ensureRoom room w) as [[i|e] w1]; cbn [snd] in *.
  - pose proof (history_query_keeps_room room room
                  (Message.messageLimit
                     match limit with Some n => n | None => JS.Num 50 end) w1 H) as H2.
    unfold exec in H2.
    destruct ((rows <- await _ ;; ret (rev rows)) w1) as [[rows|e] w2]; exact H2.
  - exact H.
Qed.

Lemma get_messages_creates room limit session w :
  hs_userId session <> None ->
  tick_fault (hd quiet (sched w)) = None ->
  tick_fault (hd quiet (tl (sched w))) = None ->
  Db.has_room room (db (exec (get_messages room limit session) w)) = true.
Proof.
  intros Hauth F1 F2.
  pose proof (getRecentMessages_creates room (Some (query_limit limit)) w F1 F2) as H.
  unfold exec in *. unfold get_messages.
  destruct (hs_userId session); [|congruence].
  unfold try, bind.
  destruct (Message.getRecentMessages room (Some (query_limit limit)) w) as [[rows|e] w1];
    exact H.
Qed.

Lemma with_room_absent name d :
  Db.has_room name d = false ->
  with_room name d
  = Db.with_rooms
      (Db.rooms d ++ [Db.mkRoom (Db.fresh_id (map Db.r_id (Db.rooms d))) name 1]) d.
Proof. unfold with_room. now intros ->. Qed.

Lemma exec_bind {A B} (m : M A) (f : A -> M B) w :
  exec (bind m f) w
  = match m w with
    | (Ok a, w1) => exec (f a) w1
    | (Thrown e, w1) => w1
    end.
Proof. unfold exec, bind. destruct (m w) as [[a|e] w1]; reflexivity. Qed.

Ltac room_statement :=
  unfold Db.select_room_ids, Db.insert_room, Db.insert_message, Db.select_users_in_room,
    Db.select_recent_messages, Db.update_user_online, Db.select_sessions,
    Db.update_session, Db.insert_session, Db.insert_user, Db.select_users_by_username;
  repeat match goal with
         | |- context [if ?b then _ else _] => destruct b
         | |- context [match ?n with JS.NaN => _ | JS.Num _ => _ end] => destruct n
         end;
  cbn [fst snd]; try apply incl_refl;
  unfold Db.room_names; cbn; rewrite map_app; apply incl_appl, incl_refl.

Ltac room_leaf :=
  first
    [ simple apply @frames_await; frame_class; apply room_stays_statement;
      intros ?; room_statement
    | simple apply @frames_modify; frame_class; intros ?; red; cbn; solve [auto]
    | simple apply @frames_emit; intros ?; red; cbn; solve [auto] ].

Lemma faultless_hd l : faultless l -> tick_fault (hd quiet l) = None.
Proof. intros H. destruct l; [reflexivity | now inversion H]. Qed.

Lemma faultless_tl l : faultless l -> faultless (tl l).
Proof. intros H. destruct l; [constructor | now inversion H]. Qed.

Lemma join_greet_creates socket userId username room w :
  tick_fault (hd quiet (sched w)) = None ->
  tick_fault (hd quiet (tl (sched w))) = None ->
  Db.has_room room (db (exec (join_greet socket userId username room) w)) = true.
Proof.
  intros F1 F2. unfold join_greet. rewrite exec_bind.
  pose proof (getRecentMessages_creates room (Some (JS.Num 20)) w F1 F2) as H.
  unfold exec in H.
  unfold try at 1. unfold bind at 1.
  destruct (getRecentMessages_total room (Some (JS.Num 20)) w) as [rows Hrows].
  destruct (Message.getRecentMessages room (Some (JS.Num 20)) w) as [[rows'|e] w1];
    cbn in Hrows; [|discriminate]. cbn [snd] in H.
  cbv zeta. unfold emit at 1, modify at 1.
  match goal with
  | |- Db.has_room room (db (exec ?rest ?w2)) = true =>
      assert (F : frames (room_stays room) rest)
  end.
  { unfold getRoomUsers. frame_walk room_leaf. }
  apply F. exact H.
Qed.

Lemma join_resolved_creates socket u username room w :
  faultless (sched w) ->
  Db.has_room room (db (exec (join_resolved socket (Some u) username room) w)) = true.
Proof.
  intros F. unfold join_resolved. cbv zeta. unfold user_id_of.
  rewrite exec_bind. unfold ret at 1. rewrite exec_bind.
  match goal with
  | |- context [userJoin ?a ?b ?c ?d ?e ?f ?g w] =>
      pose proof (userJoin_keeps_faultless a b c d e f g w F) as F1;
      destruct (userJoin_total a b c d e f g w) as [p Hp];
      unfold exec in F1;
      destruct (userJoin a b c d e f g w) as [[p'|err] w1]; cbn in Hp; [|discriminate]
  end.
  cbn [snd] in F1.
  rewrite exec_bind. unfold socket_join at 1, modify at 1.
  rewrite exec_bind. unfold emit at 1, modify at 1.
  apply join_greet_creates; cbn [sched with_outbox];
    destruct (existsb _ (memberships w1)); cbn [sched with_memberships];
    auto using faultless_hd, faultless_tl.
Qed.

Lemma join_resolved_total socket u username room :
  total (join_resolved socket (Some u) username room).
Proof.
  unfold join_resolved, user_id_of, socket_join. cbv zeta. total_steps.
  - apply userJoin_total.
  - apply join_greet_total.
Qed.

Lemma has_username_in name d : Db.has_username name d = true <-> In name (Db.usernames d).
Proof.
  unfold Db.has_username. rewrite existsb_exists. split.
  - intros (x & Hx & E). apply String.eqb_eq in E. now subst.
  - intros H. exists name. split; [assumption | apply String.eqb_refl].
Qed.

Lemma usernames_apply x d :
  incl (Db.usernames d) (Db.usernames (Db.apply x d)).
Proof.
  destruct x; cbn; try apply incl_refl.
  - unfold Db.insert_user. destruct (Db.has_username _ _); [apply incl_refl|].
    destruct (Db.has_email _ _); [apply incl_refl|].
    cbn. unfold Db.usernames. cbn. rewrite map_app. now apply incl_appl, incl_refl.
  - unfold Db.usernames. cbn. rewrite map_map.
    erewrite map_ext; [apply incl_refl|].
    intros u. cbn. now destruct (Db.u_id u =? userId).
  - unfold Db.insert_room. destruct (Db.has_room _ _); apply incl_refl.
Qed.

Lemma has_username_resume name w :
  Db.has_username name (db w) = true -> Db.has_username name (db (resume w)) = true.
Proof.
  intros H. unfold resume.
  apply (fold_env_invariant (fun x => Db.has_username name (db x) = true)); [|exact H].
  intros x [wr| | |]; cbn; auto.
  rewrite !has_username_in. apply usernames_apply.
Qed.

Lemma has_username_select name d :
  Db.has_username name d = true ->
  exists row,
    hd_error (filter (fun u => String.eqb (Db.u_username u) name) (Db.users d)) = Some row.
Proof.
  unfold Db.has_username, Db.usernames.
  induction (Db.users d) as [|u l IH]; cbn; [discriminate|].
  rewrite String.eqb_sym.
  destruct (String.eqb (Db.u_username u) name); cbn; [now exists u | exact IH].
Qed.

Lemma no_username_select name d :
  Db.has_username name d = false ->
  filter (fun u => String.eqb (Db.u_username u) name) (Db.users d) = [].
Proof.
  unfold Db.has_username, Db.usernames.
  induction (Db.users d) as [|u l IH]; cbn; [reflexivity|].
  rewrite String.eqb_sym.
  destruct (String.eqb (Db.u_username u) name); cbn; [discriminate | exact IH].
Qed.

Lemma joinRoom_found socket username room w row :
  JS.string_truthy username = true ->
  JS.string_truthy room = true ->
  tick_fault (hd quiet (sched w)) = None ->
  hd_error (filter (fun u => String.eqb (Db.u_username u) username)
              (Db.users (db (resume w)))) = Some row ->
  joinRoom socket (Some username) (Some room) w
  = join_resolved socket (Some (user_ref row)) username room (resume w).
Proof.
  intros Hu Hr F Hrow. unfold joinRoom, present. rewrite Hu, Hr. cbn [negb orb].
  unfold try at 1. unfold bind at 1. unfold User.findByUsername.
  rewrite try_rethrow. unfold bind at 1. unfold await. rewrite F.
  unfold Db.select_users_by_username. cbn [fst snd]. unfold ret at 1.
  rewrite Hrow, with_db_db.
  destruct (join_resolved_total socket (user_ref row) username room (resume w)) as [a Ha].
  destruct (join_resolved _ _ _ _ (resume w)) as [[a'|e] w1]; cbn in Ha;
    [reflexivity | discriminate].
Qed.

(** C10.  Reading the history of a room that is not in the rooms table
    creates the row: after Message.getRecentMessages, called by GET
    /api/messages/:room for a logged-in user and by the join of a known
    user, a room of that name is in the table, whatever else runs, as long
    as the statements reach the database; and when the handler runs alone
    the database differs from the one before by exactly that row. *)
Theorem history_creates_room :
  forall (w : World) (room : string),
    Db.has_room room (db w) = false ->
    (tick_fault (hd quiet (sched w)) = None ->
     tick_fault (hd quiet (tl (sched w))) = None ->
     (forall limit,
         Db.has_room room (db (exec (Message.getRecentMessages room limit) w)) = true)
     /\ (forall limit session,
            hs_userId session <> None ->
            Db.has_room room (db (exec (get_messages room limit session) w)) = true))
    /\ (faultless (sched w) ->
        forall socket username,
          JS.string_truthy username = true ->
          JS.string_truthy room = true ->
          Db.has_username username (db w) = true ->
          Db.has_room room
            (db (exec (joinRoom socket (Some username) (Some room)) w)) = true)
    /\ (calm w ->
        forall limit session,
          hs_userId session <> None ->
          db (exec (get_messages room limit session) w)
          = Db.with_rooms
              (Db.rooms (db w)
               ++ [Db.mkRoom (Db.fresh_id (map Db.r_id (Db.rooms (db w)))) room 1])
              (db w)).
Proof.
  intros w room Habsent. split; [|split].
  - intros F1 F2. split.
    + intros limit. now apply getRecentMessages_creates.
    + intros limit session Hauth. now apply get_messages_creates.
  - intros F socket username Hu Hr Hknown.
    apply has_username_resume in Hknown.
    destruct (has_username_select _ _ Hknown) as [row Hrow].
    unfold exec.
    rewrite (joinRoom_found socket username room w row Hu Hr (faultless_hd _ F) Hrow).
    apply join_resolved_creates. rewrite sched_resume. now apply faultless_tl.
  - intros Hcalm limit session Hauth.
    pose proof (messageLimit_query limit) as HmL.
    pose proof (served_limit_range limit) as HL.
    destruct (getRecentMessages_calm room (Some (query_limit limit)) (served_limit limit) w
                HmL ltac:(lia) Hcalm) as (w1 & E1 & Hdb).
    unfold exec, get_messages. destruct (hs_userId session); [|congruence].
    unfold try, bind. rewrite E1. cbn [snd ret]. rewrite Hdb.
    now apply with_room_absent.
Qed.

Lemma history_creates_room_witness :
  Db.has_room "general"
    (db (exec (get_messages "general" None Sample.alice_session)
           (Sample.world Sample.db0 []))) = true
  /\ Db.rooms (db (exec (get_messages "general" None Sample.alice_session)
                     (Sample.world Sample.db0 [])))
     = [Db.mkRoom 1 "general" 1].
Proof.
  destruct (history_creates_room (Sample.world Sample.db0 []) "general" eq_refl)
    as (H1 & _ & H3).
  split.
  - apply (proj2 (H1 eq_refl eq_refl)). discriminate.
  - rewrite H3; [reflexivity | split; constructor | discriminate].
Defined.

(* ------------------------------------------------------------------ *)
(** ** The roster *)

Lemma ascii_compare_lt_trans a b c :
  Ascii.compare a b = Lt -> Ascii.compare b c = Lt -> Ascii.compare a c = Lt.
Proof.
  unfold Ascii.compare. rewrite !N.compare_lt_iff. lia.
Qed.

Lemma string_compare_lt_trans s1 :
  forall s2 s3,
    String.compare s1 s2 = Lt -> String.compare s2 s3 = Lt -> String.compare s1 s3 = Lt.
Proof.
  induction s1 as [|c1 s1 IH]; intros [|c2 s2] [|c3 s3]; cbn; try congruence.
  destruct (Ascii.compare c1 c2) eqn:E12; try discriminate;
    destruct (Ascii.compare c2 c3) eqn:E23; try discriminate; intros H1 H2.
  - apply Ascii.compare_eq_iff in E12, E23. subst.
    replace (Ascii.compare c3 c3) with Eq; [eauto|].
    symmetry. unfold Ascii.compare. apply N.compare_refl.
  - apply Ascii.compare_eq_iff in E12. subst. now rewrite E23.
  - apply Ascii.compare_eq_iff in E23. subst. now rewrite E12.
  - now rewrite (ascii_compare_lt_trans _ _ _ E12 E23).
Qed.

Lemma string_leb_trans s1 s2 s3 :
  String.leb s1 s2 = true -> String.leb s2 s3 = true -> String.leb s1 s3 = true.
Proof.
  unfold String.leb.
  destruct (String.compare s1 s2) eqn:E12; try discriminate;
    destruct (String.compare s2 s3) eqn:E23; try discriminate; intros _ _.
  - apply String.compare_eq_iff in E12, E23. subst.
    destruct (String.compare s3 s3) eqn:E; try reflexivity.
    pose proof (String.compare_antisym s3 s3) as A. rewrite E in A. discriminate.
  - apply String.compare_eq_iff in E12. subst. now rewrite E23.
  - apply String.compare_eq_iff in E23. subst. now rewrite E12.
  - now rewrite (string_compare_lt_trans _ _ _ E12 E23).
Qed.

Lemma roster_rows_in room d r :
  In r (Db.roster_rows room d) <->
  exists u s,
    In u (Db.users d) /\ In s (Db.active_sessions d)
    /\ Db.u_id u = Db.s_user_id s
    /\ Db.s_room_name s = Some room
    /\ Db.now d - 3600 < Db.s_last_activity s
    /\ r = Db.roster_row u s.
Proof.
  unfold Db.roster_rows.
  assert (P : forall l, In r (order_by Db.by_username l) <-> In r l).
  { intros l. split; apply Permutation_in;
      [symmetry; apply order_by_perm | apply order_by_perm]. }
  rewrite P, nodup_In, in_flat_map. split.
  - intros (u & Hu & H). rewrite in_map_iff in H. destruct H as (s & <- & Hs).
    rewrite filter_In in Hs. destruct Hs as [Hs Hc].
    rewrite !andb_true_iff in Hc. destruct Hc as [[H1 H2] H3].
    exists u, s. repeat split; auto.
    + now apply Z.eqb_eq.
    + unfold Db.in_room in H2. destruct (Db.s_room_name s) as [r0|]; [|discriminate].
      apply String.eqb_eq in H2. now subst.
    + unfold Db.active_within_hour in H3. now apply Z.ltb_lt.
  - intros (u & s & Hu & Hs & H1 & H2 & H3 & ->).
    exists u. split; [assumption|]. apply in_map, filter_In. split; [assumption|].
    rewrite !andb_true_iff. repeat split.
    + now apply Z.eqb_eq.
    + unfold Db.in_room. rewrite H2. apply String.eqb_refl.
    + unfold Db.active_within_hour. now apply Z.ltb_lt.
Qed.

Lemma roster_rows_distinct room d : NoDup (Db.roster_rows room d).
Proof.
  unfold Db.roster_rows.
  eapply Permutation_NoDup; [apply order_by_perm | apply NoDup_nodup].
Qed.

Lemma roster_rows_sorted room d :
  StronglySorted (fun a b => String.leb (Db.rr_username a) (Db.rr_username b) = true)
    (Db.roster_rows room d).
Proof.
  unfold Db.roster_rows.
  apply (order_by_sorted Db.by_username).
  - intros a b. apply String.leb_total.
  - intros a b c. apply string_leb_trans.
Qed.

Lemma in_memory_users_in room (m : StrMap.t Presence) e :
  In e (in_memory_users room m) <->
  exists k p,
    In (k, p) m /\ p_room p = room
    /\ e = mkRosterEntry (Some (p_id p)) (p_username p) true None.
Proof.
  unfold in_memory_users, StrMap.values. rewrite in_map_iff. split.
  - intros (p & <- & Hp). rewrite filter_In, in_map_iff in Hp.
    destruct Hp as [([k p'] & E & Hin) Hr]. cbn in E. subst p'.
    apply String.eqb_eq in Hr. now exists k, p.
  - intros (k & p & Hin & Hr & ->). exists p. split; [reflexivity|].
    rewrite filter_In. split.
    + apply in_map_iff. now exists (k, p).
    + now apply String.eqb_eq.
Qed.

(** What getRoomUsers returns, by the outcome of the query. *)
Lemma getRoomUsers_cases room w :
  getRoomUsers room w
  = if JS.string_truthy room then
      match tick_fault (hd quiet (sched w)), Db.roster_rows room (db (resume w)) with
      | None, r :: rows =>
          (Ok (map roster_entry_of_row (r :: rows)), resume w)
      | _, _ => (Ok (in_memory_users room (connectedUsers (resume w))), resume w)
      end
    else (Ok (in_memory_users room (connectedUsers w)), w).
Proof.
  unfold getRoomUsers, Session.getUsersInRoom.
  destruct (JS.string_truthy room); cbn [negb].
  - unfold try, bind, await, Db.select_users_in_room, throw, gets, ret.
    destruct (tick_fault (hd quiet (sched w))); [reflexivity|].
    cbn [fst snd]. rewrite with_db_db.
    destruct (Db.roster_rows room (db (resume w))); reflexivity.
  - reflexivity.
Qed.

Lemma getRoomUsers_answer room w :
  exists roster w',
    getRoomUsers room w = (Ok roster, w') /\ outbox w' = outbox w.
Proof.
  rewrite getRoomUsers_cases.
  destruct (JS.string_truthy room); [|now eexists _, _].
  destruct (tick_fault (hd quiet (sched w))), (Db.roster_rows room (db (resume w)));
    eexists _, _; (split; [reflexivity | apply outbox_resume]).
Qed.

(** C8.  getRoomUsers answers from the database whenever the query runs
    and gives at least one row: one entry per row, in the order of the
    rows, and the rows are the pairs of a user and one of its sessions in
    that room with activity within the last hour, without repeats, ordered
    by username.  It answers from the presence map, filtered by room, every
    entry online, exactly when the query fails or gives no row (as it does,
    without a query, for an empty room name). *)
Theorem roster_primary_then_fallback :
  forall (w : World) (room : string),
    let at_query := resume w in
    let rows := Db.roster_rows room (db at_query) in
    (JS.string_truthy room = true ->
     (tick_fault (hd quiet (sched w)) = None /\ rows <> [] ->
      getRoomUsers room w = (Ok (map roster_entry_of_row rows), at_query))
     /\ (tick_fault (hd quiet (sched w)) <> None \/ rows = [] ->
         getRoomUsers room w
         = (Ok (in_memory_users room (connectedUsers at_query)), at_query)))
    /\ (JS.string_truthy room = false ->
        getRoomUsers room w = (Ok (in_memory_users room (connectedUsers w)), w))
    /\ (forall r,
           In r rows <->
           exists u s,
             In u (Db.users (db at_query)) /\ In s (Db.active_sessions (db at_query))
             /\ Db.u_id u = Db.s_user_id s
             /\ Db.s_room_name s = Some room
             /\ Db.now (db at_query) - 3600 < Db.s_last_activity s
             /\ r = Db.roster_row u s)
    /\ StronglySorted
         (fun a b => String.leb (Db.rr_username a) (Db.rr_username b) = true) rows
    /\ NoDup rows
    /\ (forall r, roster_entry_of_row r
                  = mkRosterEntry None (Db.rr_username r) true (Some (Db.rr_avatar_url r)))
    /\ (forall (m : StrMap.t Presence) e,
           In e (in_memory_users room m) <->
           exists k p,
             In (k, p) m /\ p_room p = room
             /\ e = mkRosterEntry (Some (p_id p)) (p_username p) true None).
Proof.
  intros w room at_query rows.
  pose proof (getRoomUsers_cases room w) as E. fold at_query in E. fold rows in E.
  split; [intros Hroom; rewrite Hroom in E; split|].
  - intros [F Hrows]. rewrite F in E. destruct rows; [contradiction | exact E].
  - intros Hfail.
    destruct (tick_fault (hd quiet (sched w))); [exact E|].
    destruct Hfail as [Hf | Hr]; [contradiction|]. now rewrite Hr in E.
  - split; [intros Hempty; now rewrite Hempty in E|].
    split; [intros r; apply roster_rows_in|].
    split; [apply roster_rows_sorted|].
    split; [apply roster_rows_distinct|].
    split; [reflexivity|].
    intros m e. apply in_memory_users_in.
Qed.

Lemma roster_primary_then_fallback_witness :
  result (getRoomUsers "general")
    (mkWorld Sample.db2 Sample.registry [] [] [])
  = Ok [mkRosterEntry None "alice" true (Some None);
        mkRosterEntry None "bob" true (Some None)]
  /\ result (getRoomUsers "general")
       (mkWorld Sample.db2 Sample.registry [] []
          [mkTick [] (Some (SqlError "ECONNRESET" "connection lost"))])
     = Ok [mkRosterEntry (Some 7) "zoe" true None].
Proof.
  split.
  - destruct (roster_primary_then_fallback
                (mkWorld Sample.db2 Sample.registry [] [] []) "general")
      as (H & _).
    unfold result. rewrite (proj1 (H eq_refl)); [reflexivity|].
    split; [reflexivity | discriminate].
  - destruct (roster_primary_then_fallback
                (mkWorld Sample.db2 Sample.registry [] []
                   [mkTick [] (Some (SqlError "ECONNRESET" "connection lost"))])
                "general") as (H & _).
    unfold result. rewrite (proj2 (H eq_refl)); [reflexivity|].
    left. discriminate.
Defined.

(* ------------------------------------------------------------------ *)
(** ** The join *)

(** userJoin writes the record, then waits for the database. *)
Lemma userJoin_exec socketId sessionId userId username room ipAddress userAgent w :
  exec (userJoin socketId sessionId userId username room ipAddress userAgent) w
  = exec (try (User.setOnlineStatus userId true ;;
               Session.create sessionId userId socketId room ipAddress userAgent)
            (fun _ => ret tt))
      (with_connectedUsers
         (StrMap.set socketId
            (mkPresence userId socketId sessionId username room (Db.now (db w)))
            (connectedUsers w)) w).
Proof.
  unfold userJoin, clock, gets, modify, exec, bind at 1 2. cbn [fst snd].
  unfold bind at 1.
  match goal with |- context [try ?m ?h ?x] => destruct (try m h x) as [[[]|e] w1] end;
    reflexivity.
Qed.

Lemma userJoin_presence socketId sessionId userId username room ipAddress userAgent w :
  sparing socketId (sched w) ->
  StrMap.get socketId
    (connectedUsers
       (exec (userJoin socketId sessionId userId username room ipAddress userAgent) w))
  = Some (mkPresence userId socketId sessionId username room (Db.now (db w)))
  /\ sparing socketId
       (sched (exec (userJoin socketId sessionId userId username room
                       ipAddress userAgent) w)).
Proof.
  intros Hs. rewrite userJoin_exec.
  set (w1 := with_connectedUsers _ w).
  assert (F : frames (keeps_presence socketId)
                (try (User.setOnlineStatus userId true ;;
                      Session.create sessionId userId socketId room ipAddress userAgent)
                   (fun _ => ret tt))).
  { frame_steps. }
  destruct (F w1 Hs) as [E Hs']. split; [|exact Hs'].
  rewrite E. subst w1. cbn. apply get_set_same.
Qed.

Lemma join_greet_keeps_presence socketId socket userId username room :
  frames (keeps_presence socketId) (join_greet socket userId username room).
Proof. unfold join_greet, getRoomUsers. frame_walk blind_leaf. Qed.

(** The world in which the end of the join runs. *)
Lemma join_resolved_exec socket u username room w :
  exec (join_resolved socket (Some u) username room) w
  = exec (join_greet socket (ur_id u) username room)
      (send
         (exec (socket_join socket room)
            (exec (userJoin (id socket) (session_of socket) (ur_id u) username room
                     (handshake_address socket) (handshake_user_agent socket)) w))
         (ToSocket (id socket)) "roomJoined" (PRoomJoined room (ur_id u) username)).
Proof.
  unfold join_resolved. cbv zeta. unfold user_id_of.
  rewrite exec_bind. unfold ret at 1. rewrite exec_bind.
  destruct (userJoin_total (id socket) (session_of socket) (ur_id u) username room
              (handshake_address socket) (handshake_user_agent socket) w) as [p Hok].
  change (exec (userJoin (id socket) (session_of socket) (ur_id u) username room
                  (handshake_address socket) (handshake_user_agent socket)) w)
    with (snd (userJoin (id socket) (session_of socket) (ur_id u) username room
                 (handshake_address socket) (handshake_user_agent socket) w)).
  destruct (userJoin _ _ _ _ _ _ _ w) as [[p'|err] w1]; cbn in Hok; [|discriminate].
  cbn [snd]. rewrite exec_bind. unfold socket_join at 1, modify at 1.
  rewrite exec_bind. unfold emit at 1, modify at 1.
  reflexivity.
Qed.

Lemma socket_join_exec socket room w :
  outbox (exec (socket_join socket room) w) = outbox w
  /\ connectedUsers (exec (socket_join socket room) w) = connectedUsers w
  /\ sched (exec (socket_join socket room) w) = sched w
  /\ db (exec (socket_join socket room) w) = db w.
Proof.
  unfold socket_join, modify, exec. cbn [snd].
  destruct (existsb _ (memberships w)); repeat split.
Qed.

(** Once the user is resolved the join goes through, whatever fails. *)
Lemma join_resolved_proceeds socket u username room w :
  let w' := exec (join_resolved socket (Some u) username room) w in
  exists news,
    join_resolved socket (Some u) username room w = (Ok tt, w')
    /\ outbox w' = (outbox w ++ roomJoined socket room (ur_id u) username :: news)%list
    /\ Forall not_join_error news
    /\ (sparing (id socket) (sched w) ->
        exists p,
          StrMap.get (id socket) (connectedUsers w') = Some p
          /\ p_id p = ur_id u /\ p_username p = username /\ p_room p = room).
Proof.
  intros w'.
  assert (E : join_resolved socket (Some u) username room w = (Ok tt, w')).
  { subst w'. unfold exec.
    destruct (join_resolved_total socket u username room w) as [[] Ha].
    destruct (join_resolved _ _ _ _ w) as [[[]|e] w1]; cbn in Ha;
      [reflexivity | discriminate]. }
  subst w'. rewrite join_resolved_exec in *.
  set (wj := exec (userJoin _ _ _ _ _ _ _) w) in *.
  pose proof (userJoin_silent (id socket) (session_of socket) (ur_id u) username room
                (handshake_address socket) (handshake_user_agent socket) w) as [Hout _].
  pose proof (userJoin_presence (id socket) (session_of socket) (ur_id u) username room
                (handshake_address socket) (handshake_user_agent socket) w) as Hp.
  fold wj in Hout, Hp.
  destruct (socket_join_exec socket room wj) as (Ho2 & Hc2 & Hs2 & _).
  set (w2 := exec (socket_join socket room) wj) in *.
  set (w3 := send w2 _ _ _) in *.
  destruct (join_greet_emits socket (ur_id u) username room w3) as (news & En & Hn).
  exists news. split; [exact E|]. split; [|split; [exact Hn|]].
  - rewrite En. unfold w3, send. cbn [outbox with_outbox]. rewrite Ho2, Hout.
    unfold roomJoined. now rewrite <- app_assoc.
  - intros Hs. destruct (Hp Hs) as [Hget Hs1].
    assert (Hs3 : sparing (id socket) (sched w3)).
    { unfold w3, send. cbn [sched with_outbox]. rewrite Hs2. exact Hs1. }
    destruct (join_greet_keeps_presence (id socket) socket (ur_id u) username room w3 Hs3)
      as [Eg _].
    eexists. split.
    + rewrite Eg. unfold w3, send. cbn [connectedUsers with_outbox]. rewrite Hc2.
      exact Hget.
    + repeat split.
Qed.

(** The history goes to the socket also when it could not be read. *)
Lemma history_load_sends socket room v :
  exists history v1,
    try (recentMessages <- Message.getRecentMessages room (Some (JS.Num 20)) ;;
         let formattedMessages := map formatDbMessage recentMessages in
         emit (ToSocket (id socket)) "loadMessages" (PMessages formattedMessages))
      (fun messageError => emit (ToSocket (id socket)) "loadMessages" (PMessages [])) v
    = (Ok tt, v1)
    /\ outbox v1
       = (outbox v ++ [mkEmit (ToSocket (id socket)) "loadMessages" (PMessages history)])%list.
Proof.
  destruct (getRecentMessages_rows room (Some (JS.Num 20)) 20 v eq_refl ltac:(lia))
    as (rows & E & _).
  assert (F : frames silent (Message.getRecentMessages room (Some (JS.Num 20))))
    by (unfold Message.getRecentMessages; frame_walk blind_leaf).
  destruct (F v) as [Ho _].
  unfold try, bind. rewrite E. cbv zeta. unfold emit, modify.
  eexists _, _. split; [reflexivity|]. cbn [outbox with_outbox]. now rewrite Ho.
Qed.

(** What the end of a join sends, whatever the database does. *)
Lemma join_greet_sends socket userId username room v :
  exists time history roster,
    outbox (exec (join_greet socket userId username room) v)
    = (outbox v ++ tl (join_emits socket userId username room time history roster))%list.
Proof.
  destruct (history_load_sends socket room v) as (history & v1 & E1 & O1).
  cbv zeta in E1. unfold join_greet. rewrite exec_bind, E1.
  unfold formatMessage at 1, clock at 1, gets at 1.
  rewrite exec_bind. unfold bind at 1. unfold ret at 1.
  rewrite exec_bind. unfold emit at 1, modify at 1.
  set (v2 := with_outbox _ v1).
  unfold formatMessage at 1, clock at 1, gets at 1.
  rewrite exec_bind. unfold bind at 1. unfold ret at 1.
  rewrite exec_bind. unfold emit at 1, modify at 1.
  set (v3 := with_outbox _ v2).
  rewrite exec_bind.
  set (save := try (Message.create userId room (username ++ " has joined the chat!")
                      (Some "system") ;; ret tt) (fun _ => ret tt)).
  assert (Fs : frames silent save) by (unfold save; frame_walk blind_leaf).
  pose proof (catch_all (Message.create userId room (username ++ " has joined the chat!")
                           (Some "system") ;; ret tt) v3) as Hs.
  fold save in Hs. destruct (Fs v3) as [O4 _]. unfold exec in O4.
  destruct (save v3) as [[[]|e] v4]; cbn in Hs; [|discriminate]. cbn [snd] in O4.
  rewrite exec_bind.
  destruct (getRoomUsers_answer room v4) as (roster & v5 & E5 & O5). rewrite E5.
  unfold emit, modify, exec. cbn [snd outbox with_outbox].
  exists (Db.now (db v1)), history, roster.
  rewrite O5, O4. unfold v3, v2. cbn [outbox with_outbox db]. rewrite O1.
  unfold join_emits, roster_emit. cbn [tl]. rewrite <- !app_assoc. reflexivity.
Qed.

Lemma join_resolved_sends socket u username room w :
  exists time history roster,
    outbox (exec (join_resolved socket (Some u) username room) w)
    = (outbox w ++ join_emits socket (ur_id u) username room time history roster)%list.
Proof.
  rewrite join_resolved_exec.
  set (wj := exec (userJoin _ _ _ _ _ _ _) w).
  pose proof (userJoin_silent (id socket) (session_of socket) (ur_id u) username room
                (handshake_address socket) (handshake_user_agent socket) w) as [Hout _].
  fold wj in Hout.
  destruct (socket_join_exec socket room wj) as (Ho2 & _).
  set (w2 := exec (socket_join socket room) wj) in *.
  set (w3 := send w2 _ _ _).
  destruct (join_greet_sends socket (ur_id u) username room w3)
    as (time & history & roster & E).
  exists time, history, roster. rewrite E. unfold w3, send. cbn [outbox with_outbox].
  rewrite Ho2, Hout. unfold join_emits at 2. cbn [tl]. unfold roomJoined.
  now rewrite <- app_assoc.
Qed.

Lemma join_emits_no_error socket userId username room time history roster :
  Forall not_join_error (join_emits socket userId username room time history roster).
Proof. unfold join_emits, roomJoined, roster_emit. repeat constructor; discriminate. Qed.

Lemma joinRoom_lookup_fails socket username room w e :
  JS.string_truthy username = true ->
  JS.string_truthy room = true ->
  tick_fault (hd quiet (sched w)) = Some e ->
  joinRoom socket (Some username) (Some room) w
  = (Ok tt, send (resume w) (ToSocket (id socket)) "roomJoinError" join_failed).
Proof.
  intros Hu Hr F. unfold joinRoom, present. rewrite Hu, Hr. cbn [negb orb].
  unfold try at 1. unfold bind at 1. unfold User.findByUsername.
  rewrite try_rethrow. unfold bind at 1. unfold await. rewrite F. reflexivity.
Qed.

Lemma joinRoom_unknown socket username room w :
  JS.string_truthy username = true ->
  JS.string_truthy room = true ->
  tick_fault (hd quiet (sched w)) = None ->
  Db.has_username username (db (resume w)) = false ->
  joinRoom socket (Some username) (Some room) w
  = try (join_as_guest socket username room) (join_catch socket) (resume w).
Proof.
  intros Hu Hr F Hno. unfold joinRoom, present. rewrite Hu, Hr. cbn [negb orb].
  unfold try at 1. unfold bind at 1. unfold User.findByUsername at 1.
  rewrite try_rethrow. unfold bind at 1. unfold await at 1. rewrite F.
  unfold Db.select_users_by_username at 1. cbn [fst snd]. unfold ret at 1.
  rewrite (no_username_select _ _ Hno), with_db_db. reflexivity.
Qed.

Lemma join_insert_fails socket username room w e :
  tick_fault (hd quiet (sched w)) = Some e ->
  is_dup_entry e = false ->
  try (join_as_guest socket username room) (join_catch socket) w
  = (Ok tt, send (resume w) (ToSocket (id socket)) "roomJoinError"
              (PText "Error creating user account")).
Proof.
  intros F Hdup. unfold join_as_guest, User.create. cbv zeta.
  unfold try at 1. unfold bind at 1. unfold try at 1. unfold bind at 1.
  rewrite try_rethrow. unfold await. rewrite F, Hdup. reflexivity.
Qed.

Lemma dup_entry_is_dup v key : is_dup_entry (Db.dup_entry v key) = true.
Proof. reflexivity. Qed.

(** The insert meets a row of that name, the re-fetch finds it. *)
Lemma join_insert_duplicate socket username room w :
  tick_fault (hd quiet (sched w)) = None ->
  Db.has_username username (db (resume w)) = true ->
  tick_fault (hd quiet (tl (sched w))) = None ->
  exists row,
    hd_error (filter (fun u => String.eqb (Db.u_username u) username)
                (Db.users (db (resume (resume w))))) = Some row
    /\ try (join_as_guest socket username room) (join_catch socket) w
       = join_resolved socket (Some (user_ref row)) username room (resume (resume w)).
Proof.
  intros F1 Hhas F2.
  destruct (has_username_select _ _ (has_username_resume _ _ Hhas)) as [row Hrow].
  exists row. split; [exact Hrow|].
  unfold join_as_guest, User.create. cbv zeta.
  unfold try at 1. unfold bind at 1. unfold try at 1. unfold bind at 1.
  rewrite try_rethrow. unfold await at 1. rewrite F1.
  unfold Db.insert_user at 1. rewrite Hhas. rewrite dup_entry_is_dup.
  unfold bind at 1. unfold User.findByUsername. rewrite try_rethrow.
  unfold bind at 1. unfold await at 1.
  rewrite with_db_db.
  rewrite sched_resume, F2.
  unfold Db.select_users_by_username at 1. cbn [fst snd]. unfold ret at 1 2.
  rewrite Hrow, with_db_db. cbn [option_map].
  destruct (join_resolved_total socket (user_ref row) username room (resume (resume w)))
    as [[] Ha].
  destruct (join_resolved _ _ _ _ (resume (resume w))) as [[[]|e] w1]; cbn in Ha;
    [reflexivity | discriminate].
Qed.

(** The insert goes through: the guest is the user of the join. *)
Lemma join_insert_ok socket username room w :
  tick_fault (hd quiet (sched w)) = None ->
  Db.has_username username (db (resume w)) = false ->
  Db.has_email (tempEmail username) (db (resume w)) = false ->
  try (join_as_guest socket username room) (join_catch socket) w
  = join_resolved socket
      (Some (mkUserRef (Db.fresh_id (map Db.u_id (Db.users (db (resume w))))) username))
      username room
      (with_db (snd (Db.insert_user username (tempEmail username)
                       (bcrypt_hash "temporary123") (db (resume w))))
         (resume w)).
Proof.
  intros F Hname Hmail.
  unfold join_as_guest, User.create. cbv zeta.
  unfold try at 1. unfold bind at 1. unfold try at 1. unfold bind at 1.
  rewrite try_rethrow. unfold await at 1. rewrite F.
  unfold Db.insert_user. rewrite Hname, Hmail. cbn [fst snd]. unfold ret at 1.
  set (u := mkUserRef _ username).
  set (w1 := with_db _ (resume w)).
  destruct (join_resolved_total socket u username room w1) as [[] Ha].
  destruct (join_resolved socket (Some u) username room w1) as [[[]|e] w2]; cbn in Ha;
    [reflexivity | discriminate].
Qed.

Lemma faultless_firstn n l :
  faultless (firstn (S n) l) ->
  tick_fault (hd quiet l) = None /\ faultless (firstn n (tl l)).
Proof.
  destruct l as [|t l]; cbn.
  - intros _. split; [reflexivity|]. destruct n; constructor.
  - intros H. inversion H; subst. now split.
Qed.

Lemma sparing_resume socketId w :
  sparing socketId (sched w) -> sparing socketId (sched (resume w)).
Proof. intros H. rewrite sched_resume. now apply sparing_tl. Qed.

(** C6.  A join with a username that nobody has at the lookup, while a
    concurrent connection creates a user of that name before the insert of
    the guest account is sent: the insert fails on the duplicate, the
    handler fetches the row again and goes on with it.  The socket gets
    roomJoined with the id of the existing row, no roomJoinError is sent,
    and the presence record carries that id. *)
Theorem guest_race_refetches :
  forall (w : World) (socket : Socket) (username room : string),
    JS.string_truthy username = true ->
    JS.string_truthy room = true ->
    faultless (firstn 3 (sched w)) ->
    Db.has_username username (db (resume w)) = false ->
    Db.has_username username (db (resume (resume w))) = true ->
    let at_refetch := resume (resume (resume w)) in
    let w' := exec (joinRoom socket (Some username) (Some room)) w in
    exists row news,
      hd_error (filter (fun u => String.eqb (Db.u_username u) username)
                  (Db.users (db at_refetch))) = Some row
      /\ joinRoom socket (Some username) (Some room) w = (Ok tt, w')
      /\ outbox w'
         = (outbox w ++ roomJoined socket room (Db.u_id row) username :: news)%list
      /\ Forall not_join_error news
      /\ (sparing (id socket) (sched w) ->
          exists p,
            StrMap.get (id socket) (connectedUsers w') = Some p
            /\ p_id p = Db.u_id row /\ p_username p = username /\ p_room p = room).
Proof.
  intros w socket username room Hu Hr F Hno Hhas at_refetch w'.
  destruct (faultless_firstn _ _ F) as [F1 F'].
  destruct (faultless_firstn _ _ F') as [F2 F''].
  destruct (faultless_firstn _ _ F'') as [F3 _].
  assert (E : joinRoom socket (Some username) (Some room) w
              = try (join_as_guest socket username room) (join_catch socket) (resume w))
    by now apply joinRoom_unknown.
  destruct (join_insert_duplicate socket username room (resume w)) as (row & Hrow & E2).
  { now rewrite sched_resume. }
  { exact Hhas. }
  { now rewrite sched_resume. }
  fold at_refetch in Hrow, E2.
  destruct (join_resolved_proceeds socket (user_ref row) username room at_refetch)
    as (news & E3 & Hout & Hn & Hp).
  assert (Ew : w' = exec (join_resolved socket (Some (user_ref row)) username room)
                      at_refetch).
  { unfold w', exec. now rewrite E, E2. }
  exists row, news. rewrite Ew. split; [exact Hrow|].
  split; [now rewrite E, E2|].
  split; [|split; [exact Hn|]].
  - rewrite Hout. unfold at_refetch. now rewrite !outbox_resume.
  - intros Hs. apply Hp. unfold at_refetch. now repeat apply sparing_resume.
Qed.

Lemma guest_race_refetches_witness :
  exists row news,
    hd_error (filter (fun u => String.eqb (Db.u_username u) "carol")
                (Db.users (db (resume (resume (resume Sample.w_race)))))) = Some row
    /\ outbox (exec (joinRoom Sample.s1 (Some "carol") (Some "general")) Sample.w_race)
       = (outbox Sample.w_race
          ++ roomJoined Sample.s1 "general" (Db.u_id row) "carol" :: news)%list.
Proof.
  destruct (guest_race_refetches Sample.w_race Sample.s1 "carol" "general")
    as (row & news & Hrow & _ & Hout & _).
  - reflexivity.
  - reflexivity.
  - repeat constructor.
  - reflexivity.
  - reflexivity.
  - exists row, news. split; [exact Hrow | exact Hout].
Defined.

(** C2, as amended.  A join whose lookup of the user fails, or whose
    insert of the guest account fails on anything but a duplicate, is
    turned away: the handler sends one roomJoinError to the joining socket
    and does nothing else (the world after it is the world the environment
    left, with that one message added: no presence record, no roomJoined,
    nothing for the room).  Once the user is resolved, found by the lookup
    or inserted as a guest, the join goes through whatever fails after
    that, the statements of userJoin included: the socket gets roomJoined,
    the history and the welcome, the others in the room get the notice that
    the user has joined, the room gets its roster, in this order and
    nothing else; no roomJoinError is sent, and the presence record is
    registered. *)
Theorem join_failure_handling :
  forall (w : World) (socket : Socket) (username room : string),
    JS.string_truthy username = true ->
    JS.string_truthy room = true ->
    (forall e,
        tick_fault (hd quiet (sched w)) = Some e ->
        joinRoom socket (Some username) (Some room) w
        = (Ok tt, send (resume w) (ToSocket (id socket)) "roomJoinError" join_failed))
    /\ (forall e,
           tick_fault (hd quiet (sched w)) = None ->
           Db.has_username username (db (resume w)) = false ->
           tick_fault (hd quiet (tl (sched w))) = Some e ->
           is_dup_entry e = false ->
           joinRoom socket (Some username) (Some room) w
           = (Ok tt, send (resume (resume w)) (ToSocket (id socket)) "roomJoinError"
                       (PText "Error creating user account")))
    /\ (forall row,
           tick_fault (hd quiet (sched w)) = None ->
           hd_error (filter (fun u => String.eqb (Db.u_username u) username)
                       (Db.users (db (resume w)))) = Some row ->
           let w' := exec (joinRoom socket (Some username) (Some room)) w in
           exists time history roster,
             joinRoom socket (Some username) (Some room) w = (Ok tt, w')
             /\ outbox w'
                = (outbox w
                   ++ join_emits socket (Db.u_id row) username room time history roster)%list
             /\ Forall not_join_error
                  (join_emits socket (Db.u_id row) username room time history roster)
             /\ (sparing (id socket) (sched w) ->
                 exists p,
                   StrMap.get (id socket) (connectedUsers w') = Some p
                   /\ p_id p = Db.u_id row /\ p_username p = username
                   /\ p_room p = room))
    /\ (tick_fault (hd quiet (sched w)) = None ->
        Db.has_username username (db (resume w)) = false ->
        tick_fault (hd quiet (tl (sched w))) = None ->
        Db.has_username username (db (resume (resume w))) = false ->
        Db.has_email (tempEmail username) (db (resume (resume w))) = false ->
        let userId := Db.fresh_id (map Db.u_id (Db.users (db (resume (resume w))))) in
        let w' := exec (joinRoom socket (Some username) (Some room)) w in
        exists time history roster,
          joinRoom socket (Some username) (Some room) w = (Ok tt, w')
          /\ outbox w'
             = (outbox w ++ join_emits socket userId username room time history roster)%list
          /\ Forall not_join_error
               (join_emits socket userId username room time history roster)
          /\ (sparing (id socket) (sched w) ->
              exists p,
                StrMap.get (id socket) (connectedUsers w') = Some p
                /\ p_id p = userId /\ p_username p = username /\ p_room p = room)).
Proof.
  intros w socket username room Hu Hr. split; [|split; [|split]].
  - intros e F. now apply joinRoom_lookup_fails with (e := e).
  - intros e F1 Hno F2 Hdup.
    rewrite joinRoom_unknown by assumption.
    apply join_insert_fails with (e := e); [now rewrite sched_resume | exact Hdup].
  - intros row F Hrow w'.
    pose proof (joinRoom_found socket username room w row Hu Hr F Hrow) as E.
    destruct (join_resolved_proceeds socket (user_ref row) username room (resume w))
      as (news & E3 & _ & _ & Hp).
    destruct (join_resolved_sends socket (user_ref row) username room (resume w))
      as (time & history & roster & Hout).
    assert (Ew : w' = exec (join_resolved socket (Some (user_ref row)) username room)
                        (resume w)).
    { unfold w', exec. now rewrite E. }
    exists time, history, roster. rewrite Ew. split; [now rewrite E|].
    split; [|split; [apply join_emits_no_error|]].
    + rewrite Hout. now rewrite outbox_resume.
    + intros Hs. apply Hp. now apply sparing_resume.
  - intros F1 Hno F2 Hname Hmail userId w'.
    assert (E : joinRoom socket (Some username) (Some room) w
                = try (join_as_guest socket username room) (join_catch socket) (resume w))
      by now apply joinRoom_unknown.
    rewrite (join_insert_ok socket username room (resume w)) in E;
      [| now rewrite sched_resume | exact Hname | exact Hmail].
    fold userId in E.
    set (w2 := with_db _ (resume (resume w))) in E.
    destruct (join_resolved_proceeds socket (mkUserRef userId username) username room w2)
      as (news & E3 & _ & _ & Hp).
    destruct (join_resolved_sends socket (mkUserRef userId username) username room w2)
      as (time & history & roster & Hout).
    assert (Ew : w' = exec (join_resolved socket (Some (mkUserRef userId username))
                              username room) w2).
    { unfold w', exec. now rewrite E. }
    exists time, history, roster. rewrite Ew. split; [now rewrite E|].
    split; [|split; [apply join_emits_no_error|]].
    + rewrite Hout. unfold w2. cbn [outbox with_db ur_id]. now rewrite !outbox_resume.
    + intros Hs. apply Hp. unfold w2. cbn [sched with_db].
      now repeat apply sparing_resume.
Qed.

(** The lookup is lost: the join is turned away.  The first statement
    of Session.create is lost: the join goes through, broadcasts
    included. *)
Lemma join_failure_handling_witness :
  joinRoom Sample.s1 (Some "alice") (Some "general") Sample.w_lookup
  = (Ok tt,
     send (resume Sample.w_lookup) (ToSocket "sock-1") "roomJoinError" join_failed)
  /\ (exists time history roster,
         joinRoom Sample.s1 (Some "alice") (Some "general") Sample.w_session
         = (Ok tt, exec (joinRoom Sample.s1 (Some "alice") (Some "general")) Sample.w_session)
         /\ outbox (exec (joinRoom Sample.s1 (Some "alice") (Some "general"))
                      Sample.w_session)
            = join_emits Sample.s1 1 "alice" "general" time history roster).
Proof.
  split.
  - refine (proj1 (join_failure_handling Sample.w_lookup Sample.s1 "alice" "general"
                     eq_refl eq_refl) Sample.lost eq_refl).
  - destruct (proj1 (proj2 (proj2
                (join_failure_handling Sample.w_session Sample.s1 "alice" "general"
                   eq_refl eq_refl))) Sample.alice eq_refl eq_refl)
      as (time & history & roster & E & Hout & _).
    exists time, history, roster. split; [exact E | exact Hout].
Defined.

(** C2 as stated fails when the failure is in the creation of the
    session: Session.create throws, userJoin catches it and no session row
    is written, yet the join is confirmed, the presence record is there,
    the room is told, and no roomJoinError is sent. *)
Lemma session_failure_counterexample :
  Db.active_sessions
    (db (exec (joinRoom Sample.s1 (Some "alice") (Some "general")) Sample.w_session))
  = []
  /\ map (fun e => (e_target e, e_event e))
       (outbox (exec (joinRoom Sample.s1 (Some "alice") (Some "general"))
                  Sample.w_session))
     = [(ToSocket "sock-1", "roomJoined");
        (ToSocket "sock-1", "loadMessages");
        (ToSocket "sock-1", "message");
        (ToRoomExcept "general" "sock-1", "message");
        (ToRoom "general", "roomUsers")]
  /\ StrMap.get "sock-1"
       (connectedUsers (exec (joinRoom Sample.s1 (Some "alice") (Some "general"))
                          Sample.w_session))
     = Some (mkPresence 1 "sock-1" "sock-1" "alice" "general" 1000).
Proof. repeat split; vm_compute; reflexivity. Qed.

(* ------------------------------------------------------------------ *)
(** ** Usernames *)

Lemma usernames_update_online b i d :
  Db.usernames (snd (Db.update_user_online b i d)) = Db.usernames d.
Proof.
  unfold Db.usernames. cbn. rewrite map_map. apply map_ext.
  intros u. cbn. now destruct (Db.u_id u =? i).
Qed.

Lemma usernames_insert_user u e h d :
  Db.usernames (snd (Db.insert_user u e h d)) = Db.usernames d
  \/ (Db.has_username u d = false
      /\ Db.usernames (snd (Db.insert_user u e h d)) = (Db.usernames d ++ [u])%list).
Proof.
  unfold Db.insert_user. destruct (Db.has_username u d) eqn:E; [now left|].
  destruct (Db.has_email e d); [now left|]. right. split; [reflexivity|].
  unfold Db.usernames. cbn. now rewrite map_app.
Qed.

Lemma usernames_apply_cases x d :
  Db.usernames (Db.apply x d) = Db.usernames d
  \/ exists u, inserted_name (EnvWrite x) = [u]
               /\ Db.has_username u d = false
               /\ Db.usernames (Db.apply x d) = (Db.usernames d ++ [u])%list.
Proof.
  destruct x; cbn [Db.apply]; try (left; reflexivity).
  - destruct (usernames_insert_user username email hash d) as [E | [Hno E]];
      [now left | right]. exists username. now repeat split.
  - left. apply usernames_update_online.
  - left. unfold Db.insert_room. now destruct (Db.has_room _ _).
Qed.

Lemma fold_env_usernames l :
  forall w name,
    In name (Db.usernames (db (fold_left run_env l w))) ->
    In name (Db.usernames (db w)) \/ In name (flat_map inserted_name l).
Proof.
  induction l as [|a l IH]; intros w name H; cbn in *; [now left|].
  destruct (IH _ _ H) as [H1 | H1]; [|right; apply in_or_app; now right].
  destruct a as [x| | |]; cbn in H1; try (now left).
  destruct (usernames_apply_cases x (db w)) as [E | (u & Eu & _ & E)].
  - rewrite E in H1. now left.
  - rewrite E in H1. apply in_app_or in H1. destruct H1 as [H1 | [<- | []]]; [now left|].
    right. apply in_or_app. left. rewrite Eu. now left.
Qed.

Lemma env_names_tl l : incl (env_names (tl l)) (env_names l).
Proof.
  destruct l as [|t l]; cbn; [apply incl_refl|]. apply incl_appr, incl_refl.
Qed.

Lemma env_names_hd l name :
  In name (flat_map inserted_name (tick_env (hd quiet l))) -> In name (env_names l).
Proof.
  destruct l as [|t l]; cbn; [tauto|]. intros H. apply in_or_app. now left.
Qed.

#[global] Instance adds_only_frame username : Frame (adds_only username).
Proof.
  split; unfold adds_only.
  - intros w. split; [intros name H; now left | apply incl_refl].
  - intros a b c [H1 I1] [H2 I2]. split; [|eapply incl_tran; eassumption].
    intros name H. destruct (H2 _ H) as [H3 | [H3 | H3]]; auto.
  - intros w. split; [|rewrite sched_resume; apply env_names_tl].
    intros name H. unfold resume in H.
    destruct (fold_env_usernames _ _ _ H) as [H1 | H1]; [now left|].
    right. right. now apply env_names_hd.
Qed.

Lemma fold_env_unique l :
  forall w, NoDup (Db.usernames (db w)) ->
            NoDup (Db.usernames (db (fold_left run_env l w))).
Proof.
  induction l as [|a l IH]; intros w H; cbn; [exact H|].
  apply IH. destruct a as [x| | |]; cbn; try exact H.
  destruct (usernames_apply_cases x (db w)) as [E | (u & _ & Hno & E)]; rewrite E;
    [exact H|].
  apply NoDup_app; [exact H | repeat constructor; tauto |].
  intros y Hy [<-|[]]. apply has_username_in in Hy. congruence.
Qed.

#[global] Instance keeps_unique_frame : Frame keeps_unique.
Proof.
  split; unfold keeps_unique.
  - auto.
  - auto.
  - intros w H. now apply fold_env_unique.
Qed.





Lemma frames_socket_join (R : World -> World -> Prop) {HR : Frame R} socket room :
  (forall w l, R w (with_memberships l w)) -> frames R (socket_join socket room).
Proof.
  intros H w. unfold socket_join, modify, exec. cbn [snd].
  destruct (existsb _ (memberships w)); [apply frame_refl | apply H].
Qed.








(* ------------------------------------------------------------------ *)
(** ** Registration *)

Lemma settle_db w : with_db (db w) (settle w) = settle w.
Proof. now destruct w. Qed.

(** A lookup by username when the handler runs alone. *)
Lemma findByUsername_calm username w :
  calm w ->
  User.findByUsername username w
  = (Ok (hd_error (filter (fun u => String.eqb (Db.u_username u) username)
                     (Db.users (db w)))),
     settle w).
Proof.
  intros Hc. unfold User.findByUsername. rewrite try_rethrow. unfold bind.
  rewrite (await_calm _ w Hc). unfold Db.select_users_by_username. cbn [fst snd].
  now rewrite settle_db.
Qed.

Lemma findByEmail_calm email w :
  calm w ->
  User.findByEmail email w
  = (Ok (hd_error (filter (fun u => String.eqb (Db.u_email u) email) (Db.users (db w)))),
     settle w).
Proof.
  intros Hc. unfold User.findByEmail. rewrite try_rethrow. unfold bind.
  rewrite (await_calm _ w Hc). unfold Db.select_users_by_email. cbn [fst snd].
  now rewrite settle_db.
Qed.

Lemma nat_to_string_inj a b : JS.nat_to_string a = JS.nat_to_string b -> a = b.
Proof.
  unfold JS.nat_to_string. intros H.
  apply DecimalNat.Unsigned.to_uint_inj.
  assert (Hn : forall n, Nat.to_uint n <> Decimal.Nil).
  { intros n E. pose proof (DecimalNat.Unsigned.to_of (Nat.to_uint n)) as H2.
    rewrite DecimalNat.Unsigned.of_to in H2. rewrite E in H2. discriminate H2. }
  pose proof (DecimalString.NilZero.usu _ (Hn a)) as Ha.
  pose proof (DecimalString.NilZero.usu _ (Hn b)) as Hb.
  rewrite H in Ha. congruence.
Qed.

Lemma append_inj_r s a b : s ++ a = s ++ b -> a = b.
Proof. induction s as [|c s IH]; cbn; [auto|]. intros H. injection H as H. auto. Qed.

Lemma candidate_inj username a b : candidate username a = candidate username b -> a = b.
Proof. intros H. apply nat_to_string_inj. eapply append_inj_r. exact H. Qed.

(** Among more candidates than there are names, one is free. *)
Lemma free_candidate username (names : list string) counter :
  exists i, (i <= length names)%nat /\ ~ In (candidate username (counter + i)) names.
Proof.
  set (cands := map (fun i => candidate username (counter + i))
                  (seq 0 (S (length names)))).
  assert (Hnd : NoDup cands).
  { apply Finite.Injective_map_NoDup; [|apply seq_NoDup].
    intros a b H. apply candidate_inj in H. lia. }
  destruct (Forall_Exists_dec (fun x => In x names)
              (fun x => in_dec string_dec x names) cands) as [Hall | Hex].
  - exfalso. assert (Hincl : incl cands names).
    { intros x Hx. rewrite Forall_forall in Hall. now apply Hall. }
    pose proof (NoDup_incl_length Hnd Hincl) as Hlen.
    unfold cands in Hlen. rewrite length_map, length_seq in Hlen. lia.
  - apply Exists_exists in Hex. destruct Hex as (x & Hin & Hx).
    unfold cands in Hin. apply in_map_iff in Hin. destruct Hin as (i & <- & Hi).
    apply in_seq in Hi. exists i. split; [lia | exact Hx].
Qed.

Lemma has_username_false name d :
  Db.has_username name d = false <-> ~ In name (Db.usernames d).
Proof.
  rewrite <- has_username_in. destruct (Db.has_username name d); split; congruence.
Qed.

(** Alone, the loop ends on a free name, and leaves the database as it is. *)
Lemma next_free_username_calm username fuel :
  forall counter w,
    calm w ->
    (exists i, (i <= fuel)%nat
               /\ Db.has_username (candidate username (counter + i)) (db w) = false) ->
    exists name w',
      next_free_username fuel username counter w = (Ok (Some name), w')
      /\ Db.has_username name (db w) = false
      /\ db w' = db w /\ calm w'.
Proof.
  induction fuel as [|fuel IH]; intros counter w Hc (i & Hi & Hfree);
    cbn [next_free_username]; cbv zeta; unfold bind at 1;
    rewrite (findByUsername_calm _ w Hc); fold (candidate username counter);
    destruct (Db.has_username (candidate username counter) (db w)) eqn:E.
  - replace i with 0%nat in Hfree by lia. rewrite Nat.add_0_r in Hfree. congruence.
  - rewrite (no_username_select _ _ E). cbn [hd_error]. unfold ret.
    eexists _, _. split; [reflexivity|]. split; [exact E|].
    split; [reflexivity | apply calm_settle, Hc].
  - destruct (has_username_select _ _ E) as [row ->].
    destruct (IH (S counter) (settle w) (calm_settle _ Hc)) as (name & w' & E1 & H1 & H2 & H3).
    + destruct i as [|i]; [rewrite Nat.add_0_r in Hfree; congruence|].
      exists i. split; [lia|]. cbn [db settle with_sched].
      now replace (S counter + i)%nat with (counter + S i)%nat by lia.
    + exists name, w'. split; [exact E1|]. split; [exact H1|].
      split; [exact H2 | exact H3].
  - rewrite (no_username_select _ _ E). cbn [hd_error]. unfold ret.
    eexists _, _. split; [reflexivity|]. split; [exact E|].
    split; [reflexivity | apply calm_settle, Hc].
Qed.

Lemma no_email_select email d :
  Db.has_email email d = false ->
  filter (fun u => String.eqb (Db.u_email u) email) (Db.users d) = [].
Proof.
  unfold Db.has_email, Db.emails.
  induction (Db.users d) as [|u l IH]; cbn; [reflexivity|].
  rewrite String.eqb_sym.
  destruct (String.eqb (Db.u_email u) email); cbn; [discriminate | exact IH].
Qed.

(** C1.  A registration whose email is not registered yet and whose local
    part is the username of a user, handled alone and with a valid
    password: the loop finds a free name, the assignment of that name to
    the const [username] throws, and the handler answers 500.  No user is
    created and the session is left as it was. *)
Theorem register_collision_is_server_error :
  forall (w : World) (email password : string) (session : HttpSession) (fuel : nat),
    calm w ->
    JS.string_truthy email = true ->
    (6 <= JS.string_length password)%nat ->
    Db.has_email email (db w) = false ->
    Db.has_username (JS.split_head "@" email) (db w) = true ->
    (length (Db.users (db w)) <= fuel)%nat ->
    exists w',
      register fuel (mkRegisterBody (Some email) (Some password)) session w
      = (Ok (Some (server_error, session)), w')
      /\ db w' = db w.
Proof.
  intros w email password session fuel Hc Hemail Hpw Hnew Htaken Hfuel.
  unfold register. cbn [rb_email rb_password present]. rewrite Hemail.
  assert (Hp : JS.string_truthy password = true)
    by (destruct password; [cbn in Hpw; lia | reflexivity]).
  rewrite Hp. cbn [negb orb].
  replace (Z.of_nat (JS.string_length password) <? 6) with false
    by (symmetry; apply Z.ltb_ge; lia).
  unfold try at 1. unfold bind at 1.
  rewrite (findByEmail_calm _ w Hc).
  pose proof (no_email_select _ _ Hnew) as Hnone.
  rewrite Hnone. cbn [hd_error]. unfold bind at 1.
  rewrite (findByUsername_calm _ (settle w) (calm_settle _ Hc)).
  destruct (has_username_select _ _ Htaken) as [row Hrow].
  cbn [db settle with_sched]. rewrite Hrow.
  destruct (free_candidate (JS.split_head "@" email) (Db.usernames (db w)) 1)
    as (i & Hi & Hfree).
  destruct (next_free_username_calm (JS.split_head "@" email) fuel 1
              (settle (settle w)) (calm_settle _ (calm_settle _ Hc)))
    as (name & w' & E1 & _ & Hdb & _).
  { exists i. split.
    - unfold Db.usernames in Hi. rewrite length_map in Hi. lia.
    - now apply has_username_false. }
  unfold bind at 1. rewrite E1. unfold assign_const, bind, throw, register_catch.
  cbn [is_dup_entry error_code]. unfold ret.
  exists w'. split; [reflexivity | exact Hdb].
Qed.

Lemma register_collision_is_server_error_witness :
  exists w',
    register 2 (mkRegisterBody (Some "bob@other.org") (Some "secret1")) Sample.anonymous
      (Sample.world Sample.db0 [])
    = (Ok (Some (server_error, Sample.anonymous)), w')
    /\ db w' = Sample.db0.
Proof.
  refine (register_collision_is_server_error (Sample.world Sample.db0 []) "bob@other.org"
            "secret1" Sample.anonymous 2 _ _ _ _ _ _).
  - split; constructor.
  - reflexivity.
  - cbn. lia.
  - reflexivity.
  - reflexivity.
  - cbn. lia.
Defined.

(** The same request for a free local part registers the user: the const
    is only assigned to when the name is taken. *)
Example register_free_name :
  fst (register 2 (mkRegisterBody (Some "carol@other.org") (Some "secret1")) Sample.anonymous
         (Sample.world Sample.db0 []))
  = Ok (Some (mkResponse 200 (BUser "Registration successful" 3 "carol" "carol@other.org"),
              mkHttpSession (Some 3) (Some "carol"))).
Proof. reflexivity. Qed.

(* ------------------------------------------------------------------ *)
(** ** Requests that are turned away *)

(** The [length] of a string of ASCII characters is its number of bytes. *)
Lemma string_length_ascii s : ascii_text s -> JS.string_length s = String.length s.
Proof.
  unfold ascii_text, JS.bytes.
  induction s as [|c r IH]; cbn [list_ascii_of_string JS.string_length String.length];
    [reflexivity|].
  intros H. inversion H as [|? ? Hc Hr]; subst. rewrite (IH Hr).
  unfold JS.units.
  replace (128 <=? JS.code c) with false by (symmetry; apply Z.leb_gt; lia).
  replace (240 <=? JS.code c) with false by (symmetry; apply Z.leb_gt; lia).
  reflexivity.
Qed.

(** X1.  A registration without email or without password is answered
    400 'Email and password are required', and one with a password whose
    [length] is less than six (UTF-16 code units, as JavaScript counts)
    400 'Password must be at least 6 characters', before any statement is
    sent: the database, the schedule and the session are untouched. *)
Theorem register_rejects_invalid_request :
  forall (w : World) (req : RegisterBody) (session : HttpSession) (fuel : nat),
    present (rb_email req) = false
    \/ present (rb_password req) = false
    \/ (exists p, rb_password req = Some p /\ (JS.string_length p < 6)%nat) ->
    register fuel req session w
    = (Ok (Some (bad_request
                   (if present (rb_email req) && present (rb_password req)
                    then "Password must be at least 6 characters"
                    else "Email and password are required"),
                 session)), w).
Proof.
  intros w [email password] session fuel H. unfold register, try, bad_request.
  cbn [rb_email rb_password] in *.
  destruct (present email) eqn:He; [|reflexivity].
  destruct (present password) eqn:Hp; [|reflexivity].
  destruct H as [H | [H | (p & -> & Hlen)]]; try discriminate.
  cbn [negb orb andb].
  replace (Z.of_nat (JS.string_length p) <? 6) with true
    by (symmetry; apply Z.ltb_lt; lia).
  reflexivity.
Qed.

(** Three letters with an accent: six bytes, three code units. *)
Lemma register_rejects_invalid_request_witness :
  register 0 (mkRegisterBody (Some "a@b.c") (Some "ééé")) Sample.anonymous
    (Sample.world Sample.db0 [])
  = (Ok (Some (bad_request "Password must be at least 6 characters", Sample.anonymous)),
     Sample.world Sample.db0 []).
Proof.
  apply (register_rejects_invalid_request (Sample.world Sample.db0 [])
           (mkRegisterBody (Some "a@b.c") (Some "ééé")) Sample.anonymous 0).
  right. right. exists "ééé". split; [reflexivity | cbn; lia].
Defined.

(** X2.  A join without username or without room gets one roomJoinError,
    'Username and room are required', and nothing else happens: no
    statement is sent, no presence record is made, the socket joins no
    room. *)
Theorem joinRoom_requires_username_and_room :
  forall (w : World) (socket : Socket) (username room : option string),
    present username = false \/ present room = false ->
    joinRoom socket username room w
    = (Ok tt, send w (ToSocket (id socket)) "roomJoinError"
                (PText "Username and room are required")).
Proof.
  intros w socket username room H. unfold joinRoom, try.
  destruct (present username); [destruct (present room)|]; cbn [negb orb].
  - destruct H; discriminate.
  - reflexivity.
  - reflexivity.
Qed.

Lemma joinRoom_requires_username_and_room_witness :
  joinRoom Sample.s1 (Some "") (Some "general") (Sample.world Sample.db0 [])
  = (Ok tt, send (Sample.world Sample.db0 []) (ToSocket "sock-1") "roomJoinError"
              (PText "Username and room are required")).
Proof.
  apply (joinRoom_requires_username_and_room (Sample.world Sample.db0 []) Sample.s1
           (Some "") (Some "general")).
  left. reflexivity.
Defined.

(* ------------------------------------------------------------------ *)
(** ** Registration and login *)

(** An [await] whose statement is not lost. *)
Lemma await_ok {A} (stmt : Db.statement A) w :
  tick_fault (hd quiet (sched w)) = None ->
  await stmt w
  = (match fst (stmt (db (resume w))) with inl a => Ok a | inr e => Thrown e end,
     with_db (snd (stmt (db (resume w)))) (resume w)).
Proof.
  intros F. unfold await. rewrite F.
  destruct (stmt (db (resume w))) as [[a|e] d]; reflexivity.
Qed.

Lemma findByEmail_eq email w :
  User.findByEmail email w
  = lookup (tick_fault (hd quiet (sched w)))
      (hd_error (filter (fun u => String.eqb (Db.u_email u) email)
                   (Db.users (db (resume w))))) w.
Proof.
  unfold User.findByEmail, lookup. rewrite try_rethrow. unfold bind, await.
  destruct (tick_fault (hd quiet (sched w))); [reflexivity|].
  unfold Db.select_users_by_email. cbn. now rewrite with_db_db.
Qed.

Lemma findByUsername_eq username w :
  User.findByUsername username w
  = lookup (tick_fault (hd quiet (sched w)))
      (hd_error (filter (fun u => String.eqb (Db.u_username u) username)
                   (Db.users (db (resume w))))) w.
Proof.
  unfold User.findByUsername, lookup. rewrite try_rethrow. unfold bind, await.
  destruct (tick_fault (hd quiet (sched w))); [reflexivity|].
  unfold Db.select_users_by_username. cbn. now rewrite with_db_db.
Qed.

Lemma hd_filter_in {A} (f : A -> bool) l x :
  hd_error (filter f l) = Some x -> In x l /\ f x = true.
Proof.
  intros H. assert (Hin : In x (filter f l)).
  { destruct (filter f l); [discriminate|]. injection H as ->. now left. }
  now apply filter_In in Hin.
Qed.

Lemma has_email_select email d :
  Db.has_email email d = true ->
  exists row,
    hd_error (filter (fun u => String.eqb (Db.u_email u) email) (Db.users d)) = Some row.
Proof.
  unfold Db.has_email, Db.emails.
  induction (Db.users d) as [|u l IH]; cbn; [discriminate|].
  rewrite String.eqb_sym.
  destruct (String.eqb (Db.u_email u) email); cbn; [now exists u | exact IH].
Qed.

(** X3.  A registration with an email that a user has when the handler
    looks it up is answered 409 'Email already registered'; the handler
    sends no other statement and the session stays as it was. *)
Theorem register_known_email_conflict :
  forall (w : World) (email password : string) (session : HttpSession) (fuel : nat),
    JS.string_truthy email = true ->
    ascii_text password ->
    (6 <= String.length password)%nat ->
    tick_fault (hd quiet (sched w)) = None ->
    Db.has_email email (db (resume w)) = true ->
    register fuel (mkRegisterBody (Some email) (Some password)) session w
    = (Ok (Some (mkResponse 409 (BStatus false "Email already registered"), session)),
       resume w).
Proof.
  intros w email password session fuel Hemail Ha Hpw F Hknown.
  unfold register. cbn [rb_email rb_password present]. rewrite Hemail.
  assert (Hp : JS.string_truthy password = true)
    by (destruct password; [cbn in Hpw; lia | reflexivity]).
  rewrite Hp. cbn [negb orb].
  replace (Z.of_nat (JS.string_length password) <? 6) with false
    by (symmetry; apply Z.ltb_ge; rewrite (string_length_ascii _ Ha); lia).
  unfold try, bind. rewrite findByEmail_eq, F. cbn [lookup].
  destruct (has_email_select _ _ Hknown) as [row ->]. reflexivity.
Qed.

Lemma register_known_email_conflict_witness :
  register 0 (mkRegisterBody (Some "bob@example.com") (Some "secret1")) Sample.anonymous
    (Sample.world Sample.db0 [])
  = (Ok (Some (mkResponse 409 (BStatus false "Email already registered"),
               Sample.anonymous)),
     resume (Sample.world Sample.db0 [])).
Proof.
  apply (register_known_email_conflict (Sample.world Sample.db0 []) "bob@example.com"
           "secret1" Sample.anonymous 0).
  - reflexivity.
  - repeat constructor.
  - cbn. lia.
  - reflexivity.
  - reflexivity.
Defined.

Lemma create_calm username email password w :
  calm w ->
  User.create username email password w
  = (match fst (Db.insert_user username email (bcrypt_hash password) (db w)) with
     | inl a => Ok a
     | inr e => Thrown e
     end,
     with_db (snd (Db.insert_user username email (bcrypt_hash password) (db w))) (settle w)).
Proof.
  intros Hc. unfold User.create. rewrite try_rethrow. cbv zeta.
  apply (await_calm _ w Hc).
Qed.

(** A registration of a free email and a free local part, handled alone. *)
Lemma register_fresh w email password session fuel :
  calm w ->
  JS.string_truthy email = true ->
  (6 <= JS.string_length password)%nat ->
  Db.has_email email (db w) = false ->
  Db.has_username (JS.split_head "@" email) (db w) = false ->
  exists w',
    register fuel (mkRegisterBody (Some email) (Some password)) session w
    = (Ok (Some (welcome "Registration successful" (registered email password (db w)))), w')
    /\ db w' = Db.with_users (Db.users (db w) ++ [registered email password (db w)]) (db w)
    /\ calm w'.
Proof.
  intros Hc Hemail Hpw Hnew Hfree.
  unfold register. cbn [rb_email rb_password present]. rewrite Hemail.
  assert (Hp : JS.string_truthy password = true)
    by (destruct password; [cbn in Hpw; lia | reflexivity]).
  rewrite Hp. cbn [negb orb].
  replace (Z.of_nat (JS.string_length password) <? 6) with false
    by (symmetry; apply Z.ltb_ge; lia).
  unfold try at 1. unfold bind at 1.
  rewrite (findByEmail_calm _ w Hc), (no_email_select _ _ Hnew). cbn [hd_error].
  unfold bind at 1.
  rewrite (findByUsername_calm _ (settle w) (calm_settle _ Hc)).
  cbn [db settle with_sched]. rewrite (no_username_select _ _ Hfree). cbn [hd_error].
  unfold register_create, bind.
  rewrite (create_calm _ _ _ (settle (settle w)) (calm_settle _ (calm_settle _ Hc))).
  cbn [db settle with_sched]. unfold Db.insert_user. rewrite Hfree, Hnew. cbn [fst snd].
  eexists. split; [reflexivity|]. split; [reflexivity|].
  apply calm_with_db. now repeat apply calm_settle.
Qed.

(** X4.  A registration handled alone, with an email nobody has and whose
    local part is nobody's username: the user is inserted under the local
    part of the email with the hash of the password, the answer is the
    success with the new id and that username, and the session is logged
    in as that user. *)
Theorem register_creates_user :
  forall (w : World) (email password : string) (session : HttpSession) (fuel : nat),
    calm w ->
    JS.string_truthy email = true ->
    ascii_text password ->
    (6 <= String.length password)%nat ->
    Db.has_email email (db w) = false ->
    Db.has_username (JS.split_head "@" email) (db w) = false ->
    let row := registered email password (db w) in
    exists w',
      register fuel (mkRegisterBody (Some email) (Some password)) session w
      = (Ok (Some (welcome "Registration successful" row)), w')
      /\ db w' = Db.with_users (Db.users (db w) ++ [row]) (db w)
      /\ calm w'.
Proof.
  intros w email password session fuel Hc Hemail Ha Hpw Hnew Hfree row.
  apply register_fresh; try assumption.
  now rewrite (string_length_ascii _ Ha).
Qed.

Lemma register_creates_user_witness :
  exists w',
    register 0 (mkRegisterBody (Some "carol@other.org") (Some "secret1")) Sample.anonymous
      (Sample.world Sample.db0 [])
    = (Ok (Some (welcome "Registration successful"
                   (registered "carol@other.org" "secret1" Sample.db0))), w')
    /\ db w'
       = Db.with_users
           (Db.users Sample.db0 ++ [registered "carol@other.org" "secret1" Sample.db0])
           Sample.db0
    /\ calm w'.
Proof.
  apply (register_creates_user (Sample.world Sample.db0 []) "carol@other.org" "secret1"
           Sample.anonymous 0).
  - split; constructor.
  - reflexivity.
  - repeat constructor.
  - cbn. lia.
  - reflexivity.
  - reflexivity.
Defined.

Lemma findByEmailOrUsername_eq ident w :
  User.findByEmailOrUsername ident w
  = match tick_fault (hd quiet (sched w)) with
    | Some e => (Thrown e, resume w)
    | None =>
        match by_email ident (db (resume w)) with
        | Some u => (Ok (Some u), resume w)
        | None =>
            match tick_fault (hd quiet (sched (resume w))) with
            | Some e => (Thrown e, resume (resume w))
            | None => (Ok (by_username ident (db (resume (resume w)))), resume (resume w))
            end
        end
    end.
Proof.
  unfold User.findByEmailOrUsername. rewrite try_rethrow. unfold bind at 1.
  rewrite findByEmail_eq. fold (by_email ident (db (resume w))).
  destruct (tick_fault (hd quiet (sched w))); cbn [lookup]; [reflexivity|].
  destruct (by_email ident (db (resume w))); [reflexivity|].
  unfold bind. rewrite findByUsername_eq.
  fold (by_username ident (db (resume (resume w)))).
  destruct (tick_fault (hd quiet (sched (resume w)))); cbn [lookup]; [reflexivity|].
  now destruct (by_username ident (db (resume (resume w)))).
Qed.

(** X5.  A login never throws and sends no statement that writes: the
    world after it is the world before, or the one the environment leaves
    after one or two awaits.  Without email or without password it is
    answered 400 before any statement is sent. *)
Theorem login_reads_only :
  forall (compare : string -> string -> bool) (w : World) (req : LoginBody)
         (session : HttpSession),
    exists resp session' w',
      login compare req session w = (Ok (resp, session'), w')
      /\ (w' = w \/ w' = resume w \/ w' = resume (resume w))
      /\ In (status resp) [200; 400; 401; 500]
      /\ (present (lb_email req) && present (lb_password req) = false ->
          status resp = 400 /\ session' = session /\ w' = w).
Proof.
  intros compare w [email password] session. unfold login. cbn [lb_email lb_password].
  destruct (present email && present password) eqn:Hp.
  - apply andb_prop in Hp. destruct Hp as [-> ->]. cbn [negb orb].
    unfold try, bind. rewrite findByEmailOrUsername_eq.
    destruct (tick_fault (hd quiet (sched w))).
    { eexists _, _, _. split; [reflexivity|]. cbn. intuition discriminate. }
    destruct (by_email _ (db (resume w))) as [u|].
    { unfold User.verifyPassword, try, ret.
      destruct (compare _ (Db.u_password_hash u)); cbn [negb];
        (eexists _, _, _; split; [reflexivity|]; cbn; intuition discriminate). }
    destruct (tick_fault (hd quiet (sched (resume w)))).
    { eexists _, _, _. split; [reflexivity|]. cbn. intuition discriminate. }
    destruct (by_username _ (db (resume (resume w)))) as [u|].
    { unfold User.verifyPassword, try, ret.
      destruct (compare _ (Db.u_password_hash u)); cbn [negb];
        (eexists _, _, _; split; [reflexivity|]; cbn; intuition discriminate). }
    eexists _, _, _. split; [reflexivity|]. cbn. intuition discriminate.
  - replace (negb (present email) || negb (present password)) with true
      by (destruct (present email), (present password); cbn in *; congruence).
    eexists _, _, _. split; [reflexivity|]. cbn. intuition.
Qed.

(** X6.  A login is answered 200 only for a user of the table, found by
    the email or, when nobody has that email, by the username, whose stored
    hash the password matches; the session then holds the id and the
    username of that very row.  With any other answer the session is left
    as it was. *)
Theorem login_needs_matching_password :
  forall (compare : string -> string -> bool) (w w' : World) (req : LoginBody)
         (session session' : HttpSession) (resp : Response),
    login compare req session w = (Ok (resp, session'), w') ->
    (status resp = 200 ->
     exists ident password row,
       lb_email req = Some ident /\ lb_password req = Some password
       /\ (by_email ident (db (resume w)) = Some row
           \/ by_email ident (db (resume w)) = None
              /\ by_username ident (db (resume (resume w))) = Some row)
       /\ compare password (Db.u_password_hash row) = true
       /\ (resp, session') = welcome "Login successful" row)
    /\ (status resp <> 200 -> session' = session).
Proof.
  intros compare w w' [email password] session session' resp.
  unfold login. cbn [lb_email lb_password].
  destruct email as [ident|]; [|cbn; intros [= <- <- <-]; cbn; split; [discriminate|auto]].
  destruct password as [pw|];
    [|cbn; rewrite Bool.orb_true_r; intros [= <- <- <-]; cbn; split; [discriminate|auto]].
  cbn [present].
  destruct (negb (JS.string_truthy ident) || negb (JS.string_truthy pw)).
  { unfold try, ret. intros [= <- <- <-]. cbn. split; [discriminate|auto]. }
  unfold try, bind. rewrite findByEmailOrUsername_eq.
  destruct (tick_fault (hd quiet (sched w))).
  { unfold ret. intros [= <- <- <-]. cbn. split; [discriminate|auto]. }
  destruct (by_email ident (db (resume w))) as [u|] eqn:Ee.
  { unfold User.verifyPassword, try, ret.
    destruct (compare pw (Db.u_password_hash u)) eqn:Ec; cbn [negb];
      intros [= <- <- <-]; cbn; (split; [|congruence]); [|discriminate].
    intros _. exists ident, pw, u. repeat split; auto. }
  destruct (tick_fault (hd quiet (sched (resume w)))).
  { unfold ret. intros [= <- <- <-]. cbn. split; [discriminate|auto]. }
  destruct (by_username ident (db (resume (resume w)))) as [u|] eqn:Eu.
  { unfold User.verifyPassword, try, ret.
    destruct (compare pw (Db.u_password_hash u)) eqn:Ec; cbn [negb];
      intros [= <- <- <-]; cbn; (split; [|congruence]); [|discriminate].
    intros _. exists ident, pw, u. repeat split; auto. }
  unfold ret. intros [= <- <- <-]. cbn. split; [discriminate|auto].
Qed.

Lemma login_needs_matching_password_witness :
  (status (fst (welcome "Login successful" Sample.alice)) = 200 ->
   exists ident password row,
     Some "alice@example.com" = Some ident /\ Some "x" = Some password
     /\ (by_email ident (db (resume (Sample.world Sample.db0 []))) = Some row
         \/ by_email ident (db (resume (Sample.world Sample.db0 []))) = None
            /\ by_username ident (db (resume (resume (Sample.world Sample.db0 []))))
               = Some row)
     /\ hash_check password (Db.u_password_hash row) = true
     /\ welcome "Login successful" Sample.alice = welcome "Login successful" row)
  /\ (status (fst (welcome "Login successful" Sample.alice)) <> 200 ->
      snd (welcome "Login successful" Sample.alice) = Sample.anonymous).
Proof.
  exact (login_needs_matching_password hash_check (Sample.world Sample.db0 [])
           (resume (Sample.world Sample.db0 []))
           (mkLoginBody (Some "alice@example.com") (Some "x"))
           Sample.anonymous (snd (welcome "Login successful" Sample.alice))
           (fst (welcome "Login successful" Sample.alice)) eq_refl).
Defined.

Lemma login_by_email_calm compare ident pw session row w :
  calm w ->
  JS.string_truthy ident = true ->
  JS.string_truthy pw = true ->
  by_email ident (db w) = Some row ->
  login compare (mkLoginBody (Some ident) (Some pw)) session w
  = (Ok (if compare pw (Db.u_password_hash row)
         then welcome "Login successful" row
         else (mkResponse 401 (BStatus false "Invalid password"), session)),
     settle w).
Proof.
  intros Hc Hi Hp Hrow. unfold login. cbn [lb_email lb_password present].
  rewrite Hi, Hp. cbn [negb orb]. unfold try, bind.
  rewrite findByEmailOrUsername_eq, (resume_calm w Hc).
  replace (tick_fault (hd quiet (sched w))) with (@None error)
    by (symmetry; apply faultless_hd, Hc).
  change (db (settle w)) with (db w). rewrite Hrow.
  unfold User.verifyPassword, try, ret.
  now destruct (compare pw (Db.u_password_hash row)).
Qed.

(** X7.  The login looks for the email first.  When a user has the text
    typed in as email, the password is checked against that user's hash and
    nobody else's: 200 for that user when it matches, 401 'Invalid
    password' when it does not, also when another user has the same text as
    username. *)
Theorem login_resolves_email_first :
  forall (compare : string -> string -> bool) (w : World) (ident password : string)
         (session : HttpSession) (row : Db.UserRow),
    calm w ->
    JS.string_truthy ident = true ->
    JS.string_truthy password = true ->
    by_email ident (db w) = Some row ->
    login compare (mkLoginBody (Some ident) (Some password)) session w
    = (Ok (if compare password (Db.u_password_hash row)
           then welcome "Login successful" row
           else (mkResponse 401 (BStatus false "Invalid password"), session)),
       settle w).
Proof. intros. now apply login_by_email_calm. Qed.

Lemma login_resolves_email_first_witness :
  login hash_check (mkLoginBody (Some "alice@example.com") (Some "temporary123"))
    Sample.anonymous (Sample.world Cases.db3 [])
  = (Ok (mkResponse 401 (BStatus false "Invalid password"), Sample.anonymous),
     settle (Sample.world Cases.db3 [])).
Proof.
  apply (login_resolves_email_first hash_check (Sample.world Cases.db3 [])
           "alice@example.com" "temporary123" Sample.anonymous Sample.alice).
  - split; constructor.
  - reflexivity.
  - reflexivity.
  - reflexivity.
Defined.

Lemma by_email_new email d row :
  Db.has_email email d = false ->
  Db.u_email row = email ->
  by_email email (Db.with_users (Db.users d ++ [row]) d) = Some row.
Proof.
  intros Hnew Hrow. unfold by_email. cbn [Db.users Db.with_users].
  rewrite filter_app, (no_email_select _ _ Hnew). cbn.
  rewrite Hrow, String.eqb_refl. reflexivity.
Qed.

(** X8.  Register, then log in.  After a registration handled alone that
    succeeds, a login with the same email and password, also handled
    alone, is answered 200 for the user that was created, whatever session
    it comes with, as long as bcrypt accepts a password against its own
    hash. *)
Theorem register_then_login :
  forall (compare : string -> string -> bool),
    (forall p, compare p (bcrypt_hash p) = true) ->
    forall (w : World) (email password : string) (session session1 : HttpSession)
           (fuel : nat),
      calm w ->
      JS.string_truthy email = true ->
      ascii_text password ->
      (6 <= String.length password)%nat ->
      Db.has_email email (db w) = false ->
      Db.has_username (JS.split_head "@" email) (db w) = false ->
      let w1 := exec (register fuel (mkRegisterBody (Some email) (Some password)) session) w in
      login compare (mkLoginBody (Some email) (Some password)) session1 w1
      = (Ok (welcome "Login successful" (registered email password (db w))), settle w1).
Proof.
  intros compare Hcompare w email password session session1 fuel Hc He Ha Hpw Hnew Hfree w1.
  assert (Hlen : (6 <= JS.string_length password)%nat)
    by now rewrite (string_length_ascii _ Ha).
  destruct (register_fresh w email password session fuel Hc He Hlen Hnew Hfree)
    as (w' & Er & Hdb & Hc').
  assert (Ew : w1 = w') by (unfold w1, exec; now rewrite Er).
  rewrite Ew.
  assert (Hp : JS.string_truthy password = true)
    by (destruct password; [cbn in Hpw; lia | reflexivity]).
  rewrite (login_by_email_calm compare email password session1
             (registered email password (db w)) w' Hc' He Hp).
  - unfold registered at 1. cbn [Db.u_password_hash]. now rewrite Hcompare.
  - rewrite Hdb. now apply by_email_new.
Qed.

Lemma register_then_login_witness :
  login hash_check (mkLoginBody (Some "carol@other.org") (Some "secret1")) Sample.anonymous
    (exec (register 0 (mkRegisterBody (Some "carol@other.org") (Some "secret1"))
             Sample.anonymous) (Sample.world Sample.db0 []))
  = (Ok (welcome "Login successful" (registered "carol@other.org" "secret1" Sample.db0)),
     settle (exec (register 0 (mkRegisterBody (Some "carol@other.org") (Some "secret1"))
                     Sample.anonymous) (Sample.world Sample.db0 []))).
Proof.
  apply (register_then_login hash_check (fun p => String.eqb_refl (bcrypt_hash p))
           (Sample.world Sample.db0 []) "carol@other.org" "secret1"
           Sample.anonymous Sample.anonymous 0).
  - split; constructor.
  - reflexivity.
  - repeat constructor.
  - cbn. lia.
  - reflexivity.
  - reflexivity.
Defined.

(* ------------------------------------------------------------------ *)
(** ** Escaping on the page *)

Ltac each_byte a := destruct a as [[] [] [] [] [] [] [] []].

Lemma escapeHtml_cons a r :
  Client.escapeHtml (String a r) = entity a ++ Client.escapeHtml r.
Proof. unfold Client.escapeHtml. each_byte a; reflexivity. Qed.

Lemma unescape_entity a r :
  unescapeHtml (entity a ++ Client.escapeHtml r) = String a (unescapeHtml (Client.escapeHtml r)).
Proof.
  destruct r as [|b r].
  - each_byte a; reflexivity.
  - rewrite escapeHtml_cons. 
    each_byte a; try reflexivity; each_byte b; reflexivity.
Qed.

Lemma unescape_escape s : unescapeHtml (Client.escapeHtml s) = s.
Proof.
  induction s as [|a r IH]; [reflexivity|].
  rewrite escapeHtml_cons, unescape_entity. now rewrite IH.
Qed.

Lemma bytes_app a b : JS.bytes (a ++ b) = (JS.bytes a ++ JS.bytes b)%list.
Proof. unfold JS.bytes. induction a; cbn; congruence. Qed.

Lemma entity_no_markup a : forallb (fun c => negb (markup c)) (JS.bytes (entity a)) = true.
Proof. each_byte a; reflexivity. Qed.

(** X9.  The text that [escapeHtml] returns for a string holds none of the
    characters <, >, double quote and single quote: put into the HTML of a
    message or of the user list, it cannot open a tag or leave an
    attribute. *)
Theorem escapeHtml_no_markup :
  forall (s : string) (c : ascii),
    In c (JS.bytes (Client.escapeHtml s)) ->
    c <> "<"%char /\ c <> ">"%char /\ c <> Client.dquote /\ c <> "'"%char.
Proof.
  intros s c. induction s as [|a r IH]; [intros []|].
  rewrite escapeHtml_cons, bytes_app. intros H. apply in_app_or in H.
  destruct H as [H | H]; [|now apply IH].
  pose proof (entity_no_markup a) as Ha. rewrite forallb_forall in Ha.
  specialize (Ha c H). unfold markup in Ha.
  repeat split; intros ->; discriminate Ha.
Qed.

(** X10.  [escapeHtml] loses nothing: two strings with the same escaped text
    are the same string, and the text without entities is the text that
    was escaped. *)
Theorem escapeHtml_injective :
  forall a b : string,
    Client.escapeHtml a = Client.escapeHtml b -> a = b.
Proof.
  intros a b H. rewrite <- (unescape_escape a), <- (unescape_escape b). now rewrite H.
Qed.

Lemma escapeHtml_no_markup_witness :
  "&"%char <> "<"%char /\ "&"%char <> ">"%char
  /\ "&"%char <> Client.dquote /\ "&"%char <> "'"%char.
Proof.
  apply (escapeHtml_no_markup "<b>" "&"%char). cbn. auto.
Defined.

Lemma escapeHtml_injective_witness : "a<b" = "a<b".
Proof. exact (escapeHtml_injective "a<b" "a<b" eq_refl). Defined.

(* ------------------------------------------------------------------ *)
(** ** The sessions table *)

Lemma findBySessionId_calm sessionId w :
  calm w ->
  JS.string_truthy sessionId = true ->
  Session.findBySessionId sessionId w
  = (Ok (hd_error (sessions_of sessionId (db w))), settle w).
Proof.
  intros Hc Ht. unfold Session.findBySessionId, try, bind. rewrite Ht. cbn [negb].
  rewrite (await_calm _ w Hc). unfold Db.select_sessions. cbn [fst snd].
  now rewrite settle_db.
Qed.

Lemma session_create_calm sessionId userId socketId roomName ipAddress userAgent w :
  calm w ->
  JS.string_truthy sessionId = true ->
  Session.create sessionId userId socketId roomName ipAddress userAgent w
  = (Ok tt,
     with_db
       (match sessions_of sessionId (db w) with
        | _ :: _ =>
            snd (Db.update_session sessionId (Some socketId) (Some roomName)
                   (Some ipAddress) (Some userAgent) (db w))
        | [] =>
            snd (Db.insert_session sessionId userId socketId roomName ipAddress userAgent
                   (db w))
        end)
       (settle (settle w))).
Proof.
  intros Hc Ht. unfold Session.create. unfold try at 1. unfold bind at 1.
  rewrite (findBySessionId_calm _ w Hc Ht).
  pose proof (calm_settle _ Hc) as Hc1.
  destruct (sessions_of sessionId (db w)) as [|s l]; cbn [hd_error].
  - rewrite (await_calm _ (settle w) Hc1). reflexivity.
  - unfold Session.update, bind, try. rewrite (await_calm _ (settle w) Hc1). reflexivity.
Qed.

Lemma filter_map_fixed {A} (p : A -> bool) (f : A -> A) l :
  (forall x, p (f x) = p x) ->
  filter p (map f l) = map f (filter p l).
Proof.
  intros H. induction l as [|x l IH]; cbn; [reflexivity|].
  rewrite H. destruct (p x); cbn; now rewrite IH.
Qed.

Lemma map_filter_id {A} (p : A -> bool) (f : A -> A) l :
  (forall x, p x = true -> f x = x) ->
  map f (filter p l) = filter p l.
Proof.
  intros H. induction l as [|x l IH]; cbn; [reflexivity|].
  destruct (p x) eqn:E; cbn; [|exact IH]. now rewrite (H x E), IH.
Qed.

Lemma session_create_upserts_facts :
  forall (w : World) (sessionId : string) (userId : Z)
         (socketId roomName ipAddress userAgent : string),
    calm w ->
    JS.string_truthy sessionId = true ->
    let old := sessions_of sessionId (db w) in
    let d' := db (exec (Session.create sessionId userId socketId roomName ipAddress
                          userAgent) w) in
    fst (Session.create sessionId userId socketId roomName ipAddress userAgent w) = Ok tt
    /\ length (sessions_of sessionId d') = Nat.max 1 (length old)
    /\ map Db.s_user_id (sessions_of sessionId d')
       = (if length old =? 0 then [userId] else map Db.s_user_id old)%nat
    /\ (forall s, In s (sessions_of sessionId d') ->
                  Db.s_socket_id s = Some socketId /\ Db.s_room_name s = Some roomName
                  /\ Db.s_last_activity s = Db.now (db w))
    /\ other_sessions sessionId d' = other_sessions sessionId (db w).
Proof.
  intros w sessionId userId socketId roomName ipAddress userAgent Hc Ht old d'.
  unfold d', exec. rewrite (session_create_calm _ _ _ _ _ _ w Hc Ht).
  cbn [fst snd db with_db]. split; [reflexivity|]. unfold old.
  unfold sessions_of, other_sessions.
  destruct (filter (has_id sessionId) (Db.active_sessions (db w))) as [|s0 l] eqn:E.
  - cbn [Db.insert_session snd Db.active_sessions Db.with_sessions].
    rewrite !filter_app, E. cbn. unfold has_id. cbn.
    rewrite String.eqb_refl. cbn.
    split; [reflexivity|]. split; [reflexivity|]. split.
    + intros s [<- | []]. cbn. auto.
    + now rewrite app_nil_r.
  - cbn [Db.update_session snd Db.active_sessions Db.with_sessions].
    set (f := fun s : Db.SessionRow => if String.eqb (Db.s_session_id s) sessionId then _ else s).
    assert (Hid : forall x, has_id sessionId (f x) = has_id sessionId x).
    { intros x. unfold f, has_id. destruct (String.eqb (Db.s_session_id x) sessionId) eqn:Ex;
        cbn; now rewrite Ex. }
    rewrite (filter_map_fixed _ f _ Hid), E.
    split; [now rewrite length_map|]. split.
    { rewrite map_map. cbn [length Nat.eqb]. apply map_ext_in. intros x Hx.
      rewrite <- E in Hx. apply filter_In in Hx. destruct Hx as [_ Hx].
      unfold f. unfold has_id in Hx. now rewrite Hx. }
    split.
    { intros s Hs. apply in_map_iff in Hs. destruct Hs as (x & <- & Hx).
      rewrite <- E in Hx. apply filter_In in Hx. destruct Hx as [_ Hx].
      unfold f. unfold has_id in Hx. rewrite Hx. cbn. auto. }
    rewrite (filter_map_fixed (fun s => negb (has_id sessionId s)) f).
    + apply map_filter_id. intros x Hx. unfold f. unfold has_id in Hx.
      now destruct (String.eqb (Db.s_session_id x) sessionId).
    + intros x. now rewrite Hid.
Qed.

(** X11.  Session.create is an insert or an update, never a second row.
    Handled alone, for a session id that is not empty: when no row has the
    id, one row is added for the user; when rows have it, none is added,
    and they keep their user id whoever the call names.  Either way every
    row of the id then holds the socket and the room of the call and is
    stamped now, and the rows of other ids are untouched. *)
Theorem session_create_upserts :
  forall (w : World) (sessionId : string) (userId : Z)
         (socketId roomName ipAddress userAgent : string),
    calm w ->
    JS.string_truthy sessionId = true ->
    let old := sessions_of sessionId (db w) in
    let d' := db (exec (Session.create sessionId userId socketId roomName ipAddress
                          userAgent) w) in
    fst (Session.create sessionId userId socketId roomName ipAddress userAgent w) = Ok tt
    /\ length (sessions_of sessionId d') = Nat.max 1 (length old)
    /\ map Db.s_user_id (sessions_of sessionId d')
       = (if length old =? 0 then [userId] else map Db.s_user_id old)%nat
    /\ (forall s, In s (sessions_of sessionId d') ->
                  Db.s_socket_id s = Some socketId /\ Db.s_room_name s = Some roomName
                  /\ Db.s_last_activity s = Db.now (db w))
    /\ other_sessions sessionId d' = other_sessions sessionId (db w).
Proof. exact session_create_upserts_facts. Qed.

Lemma session_create_keeps_calm sessionId userId socketId roomName ipAddress userAgent w :
  calm w ->
  JS.string_truthy sessionId = true ->
  calm (exec (Session.create sessionId userId socketId roomName ipAddress userAgent) w).
Proof.
  intros Hc Ht. unfold exec. rewrite (session_create_calm _ _ _ _ _ _ w Hc Ht).
  cbn [snd]. apply calm_with_db. now repeat apply calm_settle.
Qed.

Lemma sessions_of_in sessionId d s :
  In s (sessions_of sessionId d) -> Db.s_session_id s = sessionId.
Proof.
  intros H. apply filter_In in H. destruct H as [_ H]. now apply String.eqb_eq.
Qed.

(** X12.  Create a session, then look it up.  Handled alone and for a
    session id that is not empty, Session.findBySessionId after
    Session.create finds a row of that id, with the socket and the room of
    the call and stamped with the time of the call. *)
Theorem session_create_then_find :
  forall (w : World) (sessionId : string) (userId : Z)
         (socketId roomName ipAddress userAgent : string),
    calm w ->
    JS.string_truthy sessionId = true ->
    let w1 := exec (Session.create sessionId userId socketId roomName ipAddress userAgent) w in
    exists row,
      Session.findBySessionId sessionId w1 = (Ok (Some row), settle w1)
      /\ Db.s_session_id row = sessionId
      /\ Db.s_socket_id row = Some socketId
      /\ Db.s_room_name row = Some roomName
      /\ Db.s_last_activity row = Db.now (db w).
Proof.
  intros w sessionId userId socketId roomName ipAddress userAgent Hc Ht w1.
  pose proof (session_create_keeps_calm sessionId userId socketId roomName ipAddress
                userAgent w Hc Ht) as Hc1. fold w1 in Hc1.
  rewrite (findBySessionId_calm _ w1 Hc1 Ht).
  destruct (session_create_upserts_facts w sessionId userId socketId roomName ipAddress
              userAgent Hc Ht) as (_ & Hlen & _ & Hrows & _).
  fold w1 in Hlen, Hrows.
  destruct (sessions_of sessionId (db w1)) as [|row l] eqn:E; [cbn [length] in Hlen; lia|].
  exists row. split; [reflexivity|].
  split; [apply (sessions_of_in sessionId (db w1)); rewrite E; now left|].
  apply Hrows. now left.
Qed.

Lemma session_remove_calm sessionId w :
  calm w ->
  JS.string_truthy sessionId = true ->
  Session.remove sessionId w
  = (Ok (0 <? Z.of_nat (length (sessions_of sessionId (db w)))),
     with_db (Db.with_sessions (other_sessions sessionId (db w)) (db w)) (settle w)).
Proof.
  intros Hc Ht. unfold Session.remove, try, bind. rewrite Ht. cbn [negb].
  rewrite (await_calm _ w Hc). reflexivity.
Qed.

Lemma filter_filter_neg {A} (p : A -> bool) l :
  filter p (filter (fun x => negb (p x)) l) = [].
Proof.
  induction l as [|x l IH]; cbn; [reflexivity|].
  destruct (p x) eqn:E; cbn; [exact IH | now rewrite E].
Qed.

Lemma filter_idem {A} (p : A -> bool) l : filter p (filter p l) = filter p l.
Proof.
  induction l as [|x l IH]; cbn; [reflexivity|].
  destruct (p x) eqn:E; cbn; [now rewrite E, IH | exact IH].
Qed.

(** X13.  Session.remove, handled alone and for a session id that is not
    empty, answers whether a row had the id, deletes every row of the id
    and no other, and a lookup of the id after it finds nothing. *)
Theorem session_remove_forgets :
  forall (w : World) (sessionId : string),
    calm w ->
    JS.string_truthy sessionId = true ->
    let w1 := exec (Session.remove sessionId) w in
    fst (Session.remove sessionId w)
    = Ok (negb (length (sessions_of sessionId (db w)) =? 0)%nat)
    /\ sessions_of sessionId (db w1) = []
    /\ other_sessions sessionId (db w1) = other_sessions sessionId (db w)
    /\ Session.findBySessionId sessionId w1 = (Ok None, settle w1).
Proof.
  intros w sessionId Hc Ht w1.
  assert (Ew : w1 = with_db (Db.with_sessions (other_sessions sessionId (db w)) (db w))
                      (settle w))
    by (unfold w1, exec; now rewrite (session_remove_calm _ w Hc Ht)).
  assert (Hnone : sessions_of sessionId (db w1) = []).
  { rewrite Ew. unfold sessions_of, other_sessions. cbn. apply filter_filter_neg. }
  rewrite (session_remove_calm _ w Hc Ht). cbn [fst]. split.
  { f_equal. destruct (sessions_of sessionId (db w)); reflexivity. }
  split; [exact Hnone|]. split.
  { rewrite Ew. unfold other_sessions. cbn. apply filter_idem. }
  rewrite (findBySessionId_calm _ w1); [now rewrite Hnone | | exact Ht].
  rewrite Ew. apply calm_with_db. now apply calm_settle.
Qed.

Lemma session_create_upserts_witness :
  map Db.s_user_id
    (sessions_of "s-bob"
       (db (exec (Session.create "s-bob" 1 "sock-1" "random" "10.0.0.1" "agent")
              (Sample.world Sample.db2 []))))
  = [2].
Proof.
  exact (proj1 (proj2 (proj2
           (session_create_upserts (Sample.world Sample.db2 []) "s-bob" 1 "sock-1" "random"
              "10.0.0.1" "agent" (conj (Forall_nil _) (Forall_nil _)) eq_refl)))).
Defined.

Lemma session_create_then_find_witness :
  exists row,
    Session.findBySessionId "s-new"
      (exec (Session.create "s-new" 1 "sock-1" "general" "10.0.0.1" "agent")
         (Sample.world Sample.db2 []))
    = (Ok (Some row),
       settle (exec (Session.create "s-new" 1 "sock-1" "general" "10.0.0.1" "agent")
                 (Sample.world Sample.db2 [])))
    /\ Db.s_session_id row = "s-new"
    /\ Db.s_socket_id row = Some "sock-1"
    /\ Db.s_room_name row = Some "general"
    /\ Db.s_last_activity row = 10000.
Proof.
  exact (session_create_then_find (Sample.world Sample.db2 []) "s-new" 1 "sock-1" "general"
           "10.0.0.1" "agent" (conj (Forall_nil _) (Forall_nil _)) eq_refl).
Defined.

Lemma session_remove_forgets_witness :
  fst (Session.remove "s-bob" (Sample.world Sample.db2 [])) = Ok true
  /\ sessions_of "s-bob" (db (exec (Session.remove "s-bob") (Sample.world Sample.db2 []))) = []
  /\ other_sessions "s-bob" (db (exec (Session.remove "s-bob") (Sample.world Sample.db2 [])))
     = other_sessions "s-bob" Sample.db2
  /\ Session.findBySessionId "s-bob"
       (exec (Session.remove "s-bob") (Sample.world Sample.db2 []))
     = (Ok None, settle (exec (Session.remove "s-bob") (Sample.world Sample.db2 []))).
Proof.
  exact (session_remove_forgets (Sample.world Sample.db2 []) "s-bob"
           (conj (Forall_nil _) (Forall_nil _)) eq_refl).
Defined.

(* ------------------------------------------------------------------ *)
(** ** utils/users.js and the database *)

Lemma delete_set_absent {V} k (v : V) m :
  StrMap.get k m = None -> StrMap.delete k (StrMap.set k v m) = m.
Proof.
  induction m as [|[k' v'] m IH]; cbn.
  - now rewrite String.eqb_refl.
  - destruct (String.eqb k' k) eqn:E; [discriminate|]. cbn. rewrite E.
    intros H. now rewrite IH.
Qed.

Lemma userJoin_result socketId sessionId userId username room ipAddress userAgent w :
  fst (userJoin socketId sessionId userId username room ipAddress userAgent w)
  = Ok (mkPresence userId socketId sessionId username room (Db.now (db w))).
Proof.
  unfold userJoin, clock, gets, modify, bind at 1 2. cbn [fst snd].
  unfold bind at 1.
  match goal with |- context [try ?m ?h ?x] =>
    pose proof (catch_all m x) as H; destruct (try m h x) as [[[]|e] w1] end;
    [reflexivity | discriminate H].
Qed.

Lemma userLeave_known socketId user w :
  StrMap.get socketId (connectedUsers w) = Some user ->
  userLeave socketId w
  = (Ok (Some user),
     exec (try (User.setOnlineStatus (p_id user) false ;;
                Session.remove (p_sessionId user) ;;
                ret tt)
             (fun _ => ret tt))
       (with_connectedUsers (StrMap.delete socketId (connectedUsers w)) w)).
Proof.
  intros H. unfold userLeave, gets, modify, exec, bind at 1. rewrite H.
  unfold bind at 1 2. cbn [fst snd].
  match goal with |- context [try ?m ?h ?x] =>
    pose proof (catch_all m x) as Hc; destruct (try m h x) as [[[]|e] w1] end;
    [reflexivity | discriminate Hc].
Qed.

Lemma userLeave_unknown socketId w :
  StrMap.get socketId (connectedUsers w) = None ->
  userLeave socketId w = (Ok None, w).
Proof. intros H. unfold userLeave, gets, bind. now rewrite H. Qed.

(** X14.  Join, then leave.  With nothing else touching the presence map,
    and whatever the database does, userJoin for a socket without a record
    followed by userLeave for that socket gives back the record that
    userJoin made and leaves the presence map exactly as it was. *)
Theorem join_then_leave_restores_registry :
  forall (w : World) (socketId sessionId : string) (userId : Z)
         (username room ipAddress userAgent : string),
    undisturbed (sched w) ->
    StrMap.get socketId (connectedUsers w) = None ->
    let record := mkPresence userId socketId sessionId username room (Db.now (db w)) in
    let w1 := exec (userJoin socketId sessionId userId username room ipAddress userAgent) w in
    fst (userJoin socketId sessionId userId username room ipAddress userAgent w) = Ok record
    /\ fst (userLeave socketId w1) = Ok (Some record)
    /\ connectedUsers (exec (userLeave socketId) w1) = connectedUsers w.
Proof.
  intros w socketId sessionId userId username room ipAddress userAgent Hq Hnone record w1.
  split; [apply userJoin_result|].
  assert (H1 : connectedUsers w1 = StrMap.set socketId record (connectedUsers w)
               /\ undisturbed (sched w1)).
  { unfold w1. rewrite userJoin_exec. fold record.
    set (w0 := with_connectedUsers _ w).
    assert (Fj : frames same_registry
                   (try (User.setOnlineStatus userId true ;;
                         Session.create sessionId userId socketId room ipAddress userAgent)
                      (fun _ => ret tt))) by frame_steps.
    exact (Fj w0 Hq). }
  destruct H1 as [E1 Hq1].
  assert (Hget : StrMap.get socketId (connectedUsers w1) = Some record)
    by (rewrite E1; apply get_set_same).
  rewrite (userLeave_known _ _ _ Hget). split; [reflexivity|].
  unfold exec at 1. rewrite (userLeave_known _ _ _ Hget). cbn [snd].
  set (w2 := with_connectedUsers _ w1).
  assert (Fl : frames same_registry
                 (try (User.setOnlineStatus (p_id record) false ;;
                       Session.remove (p_sessionId record) ;;
                       ret tt)
                    (fun _ => ret tt))) by frame_steps.
  destruct (Fl w2 Hq1) as [E2 _]. rewrite E2. unfold w2. cbn [connectedUsers with_connectedUsers].
  rewrite E1. now apply delete_set_absent.
Qed.

Lemma join_then_leave_restores_registry_witness :
  connectedUsers
    (exec (userLeave "sock-1")
       (exec (userJoin "sock-1" "sock-1" 1 "alice" "general" "10.0.0.1" "agent")
          Sample.w_session))
  = connectedUsers Sample.w_session.
Proof.
  exact (proj2 (proj2
           (join_then_leave_restores_registry Sample.w_session "sock-1" "sock-1" 1 "alice"
              "general" "10.0.0.1" "agent"
              ltac:(repeat constructor) eq_refl))).
Defined.

Lemma setOnlineStatus_calm userId isOnline w :
  calm w ->
  User.setOnlineStatus userId isOnline w
  = (Ok tt, with_db (marked isOnline userId (db w)) (settle w)).
Proof.
  intros Hc. unfold User.setOnlineStatus. rewrite try_rethrow.
  now rewrite (await_calm _ w Hc).
Qed.

Lemma userJoin_calm socketId sessionId userId username room ipAddress userAgent w :
  calm w ->
  JS.string_truthy sessionId = true ->
  exec (userJoin socketId sessionId userId username room ipAddress userAgent) w
  = with_db
      (session_db sessionId userId socketId room ipAddress userAgent
         (marked true userId (db w)))
      (with_connectedUsers
         (StrMap.set socketId
            (mkPresence userId socketId sessionId username room (Db.now (db w)))
            (connectedUsers w))
         (settle (settle (settle w)))).
Proof.
  intros Hc Ht. rewrite userJoin_exec.
  set (w0 := with_connectedUsers _ w).
  assert (Hc0 : calm w0) by exact Hc.
  unfold exec, try, bind. rewrite (setOnlineStatus_calm _ _ w0 Hc0).
  rewrite (session_create_calm _ _ _ _ _ _ _ (calm_with_db _ _ (calm_settle _ Hc0)) Ht).
  reflexivity.
Qed.

Lemma userLeave_calm socketId user w :
  calm w ->
  JS.string_truthy (p_sessionId user) = true ->
  StrMap.get socketId (connectedUsers w) = Some user ->
  exec (userLeave socketId) w
  = with_db
      (Db.with_sessions
         (other_sessions (p_sessionId user) (db w))
         (marked false (p_id user) (db w)))
      (with_connectedUsers (StrMap.delete socketId (connectedUsers w))
         (settle (settle w))).
Proof.
  intros Hc Ht Hget. unfold exec at 1. rewrite (userLeave_known _ _ _ Hget). cbn [snd].
  set (w0 := with_connectedUsers _ w).
  assert (Hc0 : calm w0) by exact Hc.
  unfold exec, try. unfold bind at 1. rewrite (setOnlineStatus_calm _ _ w0 Hc0).
  unfold bind at 1.
  rewrite (session_remove_calm _ _ (calm_with_db _ _ (calm_settle _ Hc0)) Ht).
  reflexivity.
Qed.

Lemma filter_none_all {A} (p : A -> bool) l :
  filter p l = [] -> filter (fun x => negb (p x)) l = l.
Proof.
  induction l as [|x l IH]; cbn; [reflexivity|].
  destruct (p x); [discriminate|]. cbn. intros H. now rewrite IH.
Qed.

Lemma marked_online b i d u :
  In u (Db.users (marked b i d)) -> Db.u_id u = i -> Db.u_is_online u = b.
Proof.
  unfold marked. cbn. intros H Hid. apply in_map_iff in H.
  destruct H as (x & <- & _).
  destruct (Db.u_id x =? i) eqn:E; [reflexivity|].
  apply Z.eqb_neq in E. contradiction.
Qed.

(** X15.  What userJoin writes, userLeave takes back.  Handled alone, for a
    session id that is not empty and has no row yet: after userJoin the
    user is marked online and the sessions table holds one row of the
    session id, for that user, socket and room; after userLeave for the
    socket the user is marked offline and the sessions table is exactly
    what it was before the join. *)
Theorem join_then_leave_restores_sessions :
  forall (w : World) (socketId sessionId : string) (userId : Z)
         (username room ipAddress userAgent : string),
    calm w ->
    JS.string_truthy sessionId = true ->
    sessions_of sessionId (db w) = [] ->
    let w1 := exec (userJoin socketId sessionId userId username room ipAddress userAgent) w in
    let w2 := exec (userLeave socketId) w1 in
    sessions_of sessionId (db w1)
    = [Db.mkSession sessionId userId (Some socketId) (Some room) (Some ipAddress)
         (Some userAgent) (Db.now (db w)) (Db.now (db w))]
    /\ (forall u, In u (Db.users (db w1)) -> Db.u_id u = userId -> Db.u_is_online u = true)
    /\ Db.active_sessions (db w2) = Db.active_sessions (db w)
    /\ (forall u, In u (Db.users (db w2)) -> Db.u_id u = userId -> Db.u_is_online u = false).
Proof.
  intros w socketId sessionId userId username room ipAddress userAgent Hc Ht Hfresh w1 w2.
  assert (E1 : w1 = with_db
                      (snd (Db.insert_session sessionId userId socketId room ipAddress
                              userAgent (marked true userId (db w))))
                      (with_connectedUsers
                         (StrMap.set socketId
                            (mkPresence userId socketId sessionId username room
                               (Db.now (db w)))
                            (connectedUsers w))
                         (settle (settle (settle w))))).
  { unfold w1. rewrite (userJoin_calm _ _ _ _ _ _ _ w Hc Ht). unfold session_db.
    change (sessions_of sessionId (marked true userId (db w)))
      with (sessions_of sessionId (db w)).
    now rewrite Hfresh. }
  assert (S1 : sessions_of sessionId (db w1)
               = [Db.mkSession sessionId userId (Some socketId) (Some room) (Some ipAddress)
                    (Some userAgent) (Db.now (db w)) (Db.now (db w))]).
  { rewrite E1. unfold sessions_of in *. cbn. rewrite filter_app, Hfresh. cbn.
    unfold has_id. cbn. now rewrite String.eqb_refl. }
  split; [exact S1|]. split.
  { rewrite E1. cbn. intros u Hu. now apply (marked_online true userId (db w)). }
  assert (Hc1 : calm w1).
  { rewrite E1. apply calm_with_db. now repeat apply calm_settle. }
  assert (Hget : StrMap.get socketId (connectedUsers w1)
                 = Some (mkPresence userId socketId sessionId username room (Db.now (db w)))).
  { rewrite E1. cbn. apply get_set_same. }
  unfold w2.
  rewrite (userLeave_calm socketId
             (mkPresence userId socketId sessionId username room (Db.now (db w)))
             w1 Hc1 Ht Hget).
  cbn [db with_db p_id p_sessionId].
  split.
  - cbn. rewrite E1. unfold other_sessions. cbn. rewrite filter_app. cbn.
    rewrite String.eqb_refl. cbn. rewrite app_nil_r.
    now apply filter_none_all.
  - intros u Hu. now apply (marked_online false userId (db w1)).
Qed.

Lemma join_then_leave_restores_sessions_witness :
  Db.active_sessions
    (db (exec (userLeave "sock-1")
           (exec (userJoin "sock-1" "sock-1" 1 "alice" "general" "10.0.0.1" "agent")
              (Sample.world Sample.db2 []))))
  = Db.active_sessions Sample.db2.
Proof.
  exact (proj1 (proj2 (proj2
           (join_then_leave_restores_sessions (Sample.world Sample.db2 []) "sock-1" "sock-1"
              1 "alice" "general" "10.0.0.1" "agent"
              (conj (Forall_nil _) (Forall_nil _)) eq_refl eq_refl)))).
Defined.

(** X16.  Who joins is on the roster.  After a userJoin handled alone, for
    a user of the table, a room name and a session id that are not empty,
    and a session id without a row, getRoomUsers for the room answers from
    the database and the username of that user is on the list. *)
Theorem joined_user_is_on_roster :
  forall (w : World) (socketId sessionId : string) (user : Db.UserRow)
         (username room ipAddress userAgent : string),
    calm w ->
    JS.string_truthy sessionId = true ->
    JS.string_truthy room = true ->
    sessions_of sessionId (db w) = [] ->
    In user (Db.users (db w)) ->
    let w1 := exec (userJoin socketId sessionId (Db.u_id user) username room ipAddress
                      userAgent) w in
    exists rows,
      getRoomUsers room w1 = (Ok (map roster_entry_of_row rows), settle w1)
      /\ rows = Db.roster_rows room (db w1)
      /\ In (Db.u_username user) (map re_username (map roster_entry_of_row rows)).
Proof.
  intros w socketId sessionId user username room ipAddress userAgent Hc Ht Hr Hfresh Hin w1.
  set (userId := Db.u_id user) in *.
  assert (E1 : w1 = with_db
                      (snd (Db.insert_session sessionId userId socketId room ipAddress
                              userAgent (marked true userId (db w))))
                      (with_connectedUsers
                         (StrMap.set socketId
                            (mkPresence userId socketId sessionId username room
                               (Db.now (db w)))
                            (connectedUsers w))
                         (settle (settle (settle w))))).
  { unfold w1. rewrite (userJoin_calm _ _ _ _ _ _ _ w Hc Ht). unfold session_db.
    change (sessions_of sessionId (marked true userId (db w)))
      with (sessions_of sessionId (db w)).
    now rewrite Hfresh. }
  assert (Hc1 : calm w1).
  { rewrite E1. apply calm_with_db. now repeat apply calm_settle. }
  set (user1 := Db.mkUser (Db.u_id user) (Db.u_username user) (Db.u_email user)
                  (Db.u_password_hash user) (Db.u_avatar_url user) true (Db.now (db w))).
  set (s1 := Db.mkSession sessionId userId (Some socketId) (Some room) (Some ipAddress)
               (Some userAgent) (Db.now (db w)) (Db.now (db w))).
  assert (Hrow : In (Db.roster_row user1 s1) (Db.roster_rows room (db w1))).
  { apply roster_rows_in. exists user1, s1. rewrite E1. cbn [db with_db].
    repeat split.
    - cbn. apply in_map_iff. exists user. split; [|exact Hin].
      fold userId. now rewrite Z.eqb_refl.
    - cbn. apply in_or_app. right. now left.
    - cbn. lia. }
  rewrite getRoomUsers_cases, Hr, (resume_calm w1 Hc1).
  replace (tick_fault (hd quiet (sched w1))) with (@None error)
    by (symmetry; apply faultless_hd, Hc1).
  change (db (settle w1)) with (db w1).
  destruct (Db.roster_rows room (db w1)) as [|r rows] eqn:E; [destruct Hrow|].
  exists (r :: rows). split; [reflexivity|]. split; [reflexivity|].
  rewrite map_map. apply in_map_iff. exists (Db.roster_row user1 s1).
  split; [reflexivity | exact Hrow].
Qed.

Lemma joined_user_is_on_roster_witness :
  exists rows,
    getRoomUsers "lobby"
      (exec (userJoin "sock-1" "sock-1" 1 "alice" "lobby" "10.0.0.1" "agent")
         (Sample.world Sample.db2 []))
    = (Ok (map roster_entry_of_row rows),
       settle (exec (userJoin "sock-1" "sock-1" 1 "alice" "lobby" "10.0.0.1" "agent")
                 (Sample.world Sample.db2 [])))
    /\ rows
       = Db.roster_rows "lobby"
           (db (exec (userJoin "sock-1" "sock-1" 1 "alice" "lobby" "10.0.0.1" "agent")
                  (Sample.world Sample.db2 [])))
    /\ In "alice" (map re_username (map roster_entry_of_row rows)).
Proof.
  exact (joined_user_is_on_roster (Sample.world Sample.db2 []) "sock-1" "sock-1" Sample.alice
           "alice" "lobby" "10.0.0.1" "agent"
           (conj (Forall_nil _) (Forall_nil _)) eq_refl eq_refl eq_refl
           (or_introl eq_refl)).
Defined.

Lemma filter_filter_sub {A} (p q : A -> bool) l :
  (forall x, q x = true -> p x = true) ->
  filter q (filter p l) = filter q l.
Proof.
  intros H. induction l as [|x l IH]; cbn; [reflexivity|].
  destruct (p x) eqn:Ep; cbn.
  - destruct (q x); now rewrite IH.
  - destruct (q x) eqn:Eq; [|exact IH]. rewrite (H x Eq) in Ep. discriminate.
Qed.

Lemma roster_rows_after_cleanup room hoursOld d :
  1 <= hoursOld ->
  Db.roster_rows room (snd (Db.delete_old_sessions hoursOld d)) = Db.roster_rows room d.
Proof.
  intros Hh. unfold Db.roster_rows. f_equal. f_equal.
  cbn [Db.delete_old_sessions snd Db.users Db.with_sessions Db.active_sessions].
  apply flat_map_ext. intros u. f_equal.
  apply filter_filter_sub. intros s Hs.
  rewrite !andb_true_iff in Hs. destruct Hs as [_ Hs].
  unfold Db.active_within_hour in Hs. cbn in Hs. apply Z.ltb_lt in Hs.
  apply negb_true_iff, Z.ltb_ge. lia.
Qed.

Lemma length_filter_split {A} (p : A -> bool) l :
  (length (filter p l) + length (filter (fun x => negb (p x)) l) = length l)%nat.
Proof.
  induction l as [|x l IH]; cbn; [reflexivity|].
  destruct (p x); cbn; lia.
Qed.

(** X17.  The cleanup of old sessions does not change any roster.  Handled
    alone, Session.cleanOldSessions for one hour or more (24 when called
    without argument, as the hourly timer does) answers the number of rows
    it deleted, and getRoomUsers answers the same list for every room
    after it as before it. *)
Theorem cleanup_keeps_roster :
  forall (w : World) (hoursOld : option Z) (room : string),
    calm w ->
    1 <= match hoursOld with Some h => h | None => 24 end ->
    let w1 := exec (Session.cleanOldSessions hoursOld) w in
    fst (Session.cleanOldSessions hoursOld w)
    = Ok (Z.of_nat (length (Db.active_sessions (db w)))
          - Z.of_nat (length (Db.active_sessions (db w1))))
    /\ fst (getRoomUsers room w1) = fst (getRoomUsers room w).
Proof.
  intros w hoursOld room Hc Hh w1.
  set (h := match hoursOld with Some h => h | None => 24 end) in *.
  assert (E : Session.cleanOldSessions hoursOld w
              = (Ok (Z.of_nat (length (filter (fun s => Db.s_last_activity s
                                                        <? Db.now (db w) - 3600 * h)
                                         (Db.active_sessions (db w))))),
                 with_db (snd (Db.delete_old_sessions h (db w))) (settle w))).
  { unfold Session.cleanOldSessions. cbv zeta. fold h. unfold try.
    now rewrite (await_calm _ w Hc). }
  assert (Ew : w1 = with_db (snd (Db.delete_old_sessions h (db w))) (settle w))
    by (unfold w1, exec; now rewrite E).
  split.
  - rewrite E, Ew.
    cbn [fst db with_db Db.delete_old_sessions snd Db.active_sessions Db.with_sessions].
    f_equal.
    pose proof (length_filter_split
                  (fun s => Db.s_last_activity s <? Db.now (db w) - 3600 * h)
                  (Db.active_sessions (db w))).
    lia.
  - assert (Hc1 : calm w1) by (rewrite Ew; apply calm_with_db; now apply calm_settle).
    rewrite !getRoomUsers_cases, (resume_calm w Hc), (resume_calm w1 Hc1).
    replace (tick_fault (hd quiet (sched w))) with (@None error)
      by (symmetry; apply faultless_hd, Hc).
    replace (tick_fault (hd quiet (sched w1))) with (@None error)
      by (symmetry; apply faultless_hd, Hc1).
    change (db (settle w1)) with (db w1). change (db (settle w)) with (db w).
    replace (Db.roster_rows room (db w1)) with (Db.roster_rows room (db w))
      by (rewrite Ew; symmetry; now apply roster_rows_after_cleanup).
    rewrite Ew. cbn [connectedUsers settle with_db with_sched].
    destruct (JS.string_truthy room); [|reflexivity].
    now destruct (Db.roster_rows room (db w)).
Qed.

(** A cleanup after one hour on the sample sessions: the stale session
    of alice is deleted, one row of four, and the roster of general is the
    same. *)
Lemma cleanup_keeps_roster_witness :
  fst (Session.cleanOldSessions (Some 1) (Sample.world Sample.db2 [])) = Ok (4 - 3)
  /\ fst (getRoomUsers "general"
            (exec (Session.cleanOldSessions (Some 1)) (Sample.world Sample.db2 [])))
     = fst (getRoomUsers "general" (Sample.world Sample.db2 [])).
Proof.
  exact (cleanup_keeps_roster (Sample.world Sample.db2 []) (Some 1) "general"
           (conj (Forall_nil _) (Forall_nil _)) ltac:(cbn; lia)).
Defined.

(* ------------------------------------------------------------------ *)
(** ** Rooms and messages *)

Lemma calm_room_ensured name w : calm w -> calm (room_ensured name w).
Proof.
  intros Hc. unfold room_ensured. apply calm_with_db.
  destruct (Db.has_room name (db w)); now repeat apply calm_settle.
Qed.

Lemma ensureRoom_calm room w :
  calm w ->
  Message.ensureRoom room w
  = (Ok (room_id room (with_room room (db w))), room_ensured room w).
Proof.
  intros Hc. unfold Message.ensureRoom. rewrite try_rethrow.
  unfold bind. rewrite (await_calm _ w Hc).
  unfold Db.select_room_ids. cbn [fst snd]. unfold room_ensured, room_id, with_room.
  destruct (Db.has_room room (db w)) eqn:Hr.
  - pose proof (has_room_rows _ _ Hr) as Hrows.
    destruct (map Db.r_id _) as [|rid rids]; [contradiction|]. reflexivity.
  - rewrite (has_room_select _ _ Hr). cbn [map].
    rewrite await_calm by (apply calm_with_db, calm_settle, Hc).
    unfold Db.insert_room. cbn [db with_db settle]. rewrite Hr. cbn [fst snd].
    cbn [Db.rooms Db.with_rooms]. rewrite filter_app, (has_room_select _ _ Hr).
    cbn. now rewrite String.eqb_refl.
Qed.

Lemma has_room_with_room room d : Db.has_room room (with_room room d) = true.
Proof.
  unfold with_room. destruct (Db.has_room room d) eqn:E; [exact E|].
  apply has_room_in. unfold Db.room_names. cbn. rewrite map_app. apply in_or_app.
  right. now left.
Qed.

Lemma with_room_idem room d : with_room room (with_room room d) = with_room room d.
Proof. unfold with_room at 1. now rewrite has_room_with_room. Qed.

(** X18.  Message.ensureRoom, handled alone, answers the id of a row of the
    rooms table that has the name, adding the row when there is none; a
    second call answers the same id and changes nothing. *)
Theorem ensureRoom_idempotent :
  forall (w : World) (room : string),
    calm w ->
    let w1 := exec (Message.ensureRoom room) w in
    exists roomId,
      Message.ensureRoom room w = (Ok roomId, w1)
      /\ In (roomId, room) (map (fun r => (Db.r_id r, Db.r_name r)) (Db.rooms (db w1)))
      /\ Message.ensureRoom room w1 = (Ok roomId, settle w1).
Proof.
  intros w room Hc w1.
  assert (Ew : w1 = room_ensured room w)
    by (unfold w1, exec; now rewrite (ensureRoom_calm room w Hc)).
  exists (room_id room (with_room room (db w))).
  split; [rewrite Ew; now apply ensureRoom_calm|].
  assert (Hdb : db w1 = with_room room (db w)) by (rewrite Ew; reflexivity).
  split.
  - rewrite Hdb. unfold room_id.
    pose proof (has_room_rows _ _ (has_room_with_room room (db w))) as Hne.
    destruct (filter _ (Db.rooms (with_room room (db w)))) as [|r l] eqn:E;
      [now contradiction Hne|].
    assert (Hr : In r (filter (fun r => String.eqb (Db.r_name r) room)
                         (Db.rooms (with_room room (db w)))))
      by (rewrite E; now left).
    apply filter_In in Hr. destruct Hr as [Hr Hn]. apply String.eqb_eq in Hn.
    apply in_map_iff. exists r. cbn. now rewrite Hn.
  - assert (Hc1 : calm w1) by (rewrite Ew; now apply calm_room_ensured).
    rewrite (ensureRoom_calm room w1 Hc1). unfold room_ensured.
    rewrite Hdb, with_room_idem, has_room_with_room. rewrite <- Hdb.
    now rewrite settle_db.
Qed.

Lemma ensureRoom_idempotent_witness :
  exists roomId,
    Message.ensureRoom "lobby" (Sample.world Sample.db1 [])
    = (Ok roomId, exec (Message.ensureRoom "lobby") (Sample.world Sample.db1 []))
    /\ In (roomId, "lobby")
         (map (fun r => (Db.r_id r, Db.r_name r))
            (Db.rooms (db (exec (Message.ensureRoom "lobby") (Sample.world Sample.db1 [])))))
    /\ Message.ensureRoom "lobby" (exec (Message.ensureRoom "lobby") (Sample.world Sample.db1 []))
       = (Ok roomId, settle (exec (Message.ensureRoom "lobby") (Sample.world Sample.db1 []))).
Proof.
  exact (ensureRoom_idempotent (Sample.world Sample.db1 []) "lobby"
           (conj (Forall_nil _) (Forall_nil _))).
Defined.

Lemma message_create_calm userId room message messageType w :
  calm w ->
  let kind := match messageType with Some k => k | None => "text" end in
  Message.create userId room message messageType w
  = (Ok (Db.fresh_id (map Db.m_id (Db.messages (db w)))),
     with_db
       (Db.with_messages
          (Db.messages (db w) ++ [message_row userId room message kind (db w)])
          (with_room room (db w)))
       (settle (room_ensured room w))).
Proof.
  intros Hc kind. unfold Message.create. cbv zeta. rewrite try_rethrow.
  unfold bind. rewrite (ensureRoom_calm room w Hc).
  rewrite (await_calm _ _ (calm_room_ensured room w Hc)).
  unfold Db.insert_message, message_row. cbn [fst snd].
  assert (Hm : Db.messages (db (room_ensured room w)) = Db.messages (db w)).
  { unfold room_ensured, with_room. cbn. now destruct (Db.has_room room (db w)). }
  assert (Hn : Db.now (db (room_ensured room w)) = Db.now (db w)).
  { unfold room_ensured, with_room. cbn. now destruct (Db.has_room room (db w)). }
  rewrite Hm, Hn. reflexivity.
Qed.

Lemma messageLimit_positive n :
  exists l, Message.messageLimit n = JS.Num l /\ 1 <= l <= 1000.
Proof.
  destruct n as [|z].
  - exists 50. split; [reflexivity | lia].
  - rewrite messageLimit_num. eexists. split; [reflexivity|].
    destruct (z =? 0); lia.
Qed.

Lemma history_rows_in room d h :
  In h (Db.history_rows room d) <->
  exists m u r,
    In m (Db.messages d) /\ In u (Db.users d) /\ In r (Db.rooms d)
    /\ Db.m_user_id m = Db.u_id u /\ Db.m_room_id m = Db.r_id r
    /\ Db.r_name r = room /\ Db.m_is_deleted m = false
    /\ h = Db.mkHistoryRow m (Db.u_username u) (Db.u_avatar_url u) (Db.m_timestamp m).
Proof.
  unfold Db.history_rows. rewrite in_flat_map. split.
  - intros (m & Hm & H). rewrite in_flat_map in H. destruct H as (u & Hu & H).
    rewrite in_flat_map in H. destruct H as (r & Hr & H).
    destruct (_ && _) eqn:E in H; [|contradiction].
    destruct H as [<-|[]]. rewrite !andb_true_iff in E.
    destruct E as [[[E1 E2] E3] E4].
    exists m, u, r. repeat split; auto.
    + now apply Z.eqb_eq.
    + now apply Z.eqb_eq.
    + now apply String.eqb_eq.
    + now apply negb_true_iff.
  - intros (m & u & r & Hm & Hu & Hr & E1 & E2 & E3 & E4 & ->).
    exists m. split; [exact Hm|]. rewrite in_flat_map. exists u. split; [exact Hu|].
    rewrite in_flat_map. exists r. split; [exact Hr|].
    rewrite E1, E2, E3, E4, !Z.eqb_refl, String.eqb_refl. now left.
Qed.

Lemma room_id_in room d :
  Db.has_room room d = true ->
  exists r, In r (Db.rooms d) /\ Db.r_id r = room_id room d /\ Db.r_name r = room.
Proof.
  intros H. unfold room_id.
  pose proof (has_room_rows _ _ H) as Hne.
  destruct (filter _ (Db.rooms d)) as [|r l] eqn:E; [now contradiction Hne|].
  assert (Hr : In r (filter (fun r => String.eqb (Db.r_name r) room) (Db.rooms d)))
    by (rewrite E; now left).
  apply filter_In in Hr. destruct Hr as [Hr Hn]. apply String.eqb_eq in Hn.
  exists r. auto.
Qed.

(** The first row of a sorted history is a newest one. *)
Lemma order_by_head room d x l :
  order_by Db.newest_first (Db.history_rows room d) = x :: l ->
  In x (Db.history_rows room d)
  /\ forall h, In h (Db.history_rows room d) -> Db.h_timestamp h <= Db.h_timestamp x.
Proof.
  intros E.
  pose proof (order_by_perm Db.newest_first (Db.history_rows room d)) as P.
  pose proof (order_by_sorted Db.newest_first newest_first_total newest_first_trans
                (Db.history_rows room d)) as HS.
  rewrite E in P, HS. split.
  - apply (Permutation_in x (Permutation_sym P)). now left.
  - intros h Hh. apply (Permutation_in h P) in Hh.
    destruct Hh as [<- | Hh]; [lia|].
    apply StronglySorted_inv in HS. destruct HS as [_ HF].
    rewrite Forall_forall in HF. specialize (HF h Hh).
    unfold Db.newest_first in HF. now apply Z.leb_le.
Qed.

(** X19.  A message that is saved is the last one of the history read
    next.  Handled alone, for a user of the table and with every message
    of the table older than now: after Message.create,
    Message.getRecentMessages for the room returns a list that ends with
    the message just saved, whatever the limit asked for. *)
Theorem saved_message_ends_history :
  forall (w : World) (user : Db.UserRow) (room message : string)
         (messageType : option string) (limit : option JS.number),
    calm w ->
    In user (Db.users (db w)) ->
    (forall m, In m (Db.messages (db w)) -> Db.m_timestamp m < Db.now (db w)) ->
    let w1 := exec (Message.create (Db.u_id user) room message messageType) w in
    exists rows h,
      fst (Message.getRecentMessages room limit w1) = Ok (rows ++ [h])%list
      /\ Db.m_message (Db.h_message h) = message
      /\ Db.m_user_id (Db.h_message h) = Db.u_id user
      /\ Db.h_timestamp h = Db.now (db w).
Proof.
  intros w user room message messageType limit Hc Hu Hold w1.
  set (kind := match messageType with Some k => k | None => "text" end).
  set (mrow := message_row (Db.u_id user) room message kind (db w)).
  set (d1 := Db.with_messages (Db.messages (db w) ++ [mrow]) (with_room room (db w))).
  assert (Ew : w1 = with_db d1 (settle (room_ensured room w)))
    by (unfold w1, exec; now rewrite (message_create_calm _ _ _ _ w Hc)).
  assert (Hc1 : calm w1).
  { rewrite Ew. apply calm_with_db, calm_settle. now apply calm_room_ensured. }
  assert (Hroom : Db.has_room room d1 = true) by apply (has_room_with_room room (db w)).
  destruct (messageLimit_positive (match limit with Some n => n | None => JS.Num 50 end))
    as (l & Hl & Hl1).
  destruct (getRecentMessages_calm room limit l w1 Hl ltac:(lia) Hc1) as (w2 & E2 & _).
  rewrite E2. cbn [fst].
  replace (with_room room (db w1)) with d1
    by (rewrite Ew; cbn [db with_db]; unfold with_room; now rewrite Hroom).
  (* the row of the new message is in the history *)
  destruct (room_id_in room (with_room room (db w)) (has_room_with_room room (db w)))
    as (r & Hr & Hrid & Hrname).
  assert (Husers : Db.users d1 = Db.users (db w)).
  { unfold d1, with_room. cbn. now destruct (Db.has_room room (db w)). }
  assert (Hnow : Db.m_timestamp mrow = Db.now (db w)) by reflexivity.
  assert (H0 : In (Db.mkHistoryRow mrow (Db.u_username user) (Db.u_avatar_url user)
                     (Db.m_timestamp mrow)) (Db.history_rows room d1)).
  { apply history_rows_in. exists mrow, user, r. repeat split; auto.
    - unfold d1. cbn. apply in_or_app. right. now left.
    - now rewrite Husers. }
  (* every row is at most as new *)
  assert (Hall : forall h, In h (Db.history_rows room d1) ->
                           Db.h_timestamp h <= Db.now (db w)
                           /\ (Db.h_timestamp h = Db.now (db w) -> Db.h_message h = mrow)).
  { intros h Hh. apply history_rows_in in Hh.
    destruct Hh as (m & u & r' & Hm & _ & _ & _ & _ & _ & _ & ->).
    unfold Db.h_timestamp. cbn [Db.h_message].
    unfold d1 in Hm. cbn in Hm. apply in_app_or in Hm.
    destruct Hm as [Hm | [<- | []]].
    - specialize (Hold m Hm). split; [lia | intros; lia].
    - split; [rewrite Hnow; lia | reflexivity]. }
  unfold newest.
  destruct (order_by Db.newest_first (Db.history_rows room d1)) as [|x rest] eqn:E.
  { pose proof (order_by_perm Db.newest_first (Db.history_rows room d1)) as P.
    rewrite E in P. apply Permutation_sym, Permutation_nil in P.
    rewrite P in H0. destruct H0. }
  destruct (order_by_head room d1 x rest E) as [Hx Hmax].
  destruct (Z.to_nat l) as [|n] eqn:En; [lia|].
  cbn [firstn rev]. exists (rev (firstn n rest)), x. split; [reflexivity|].
  assert (Hts : Db.h_timestamp x = Db.now (db w)).
  { destruct (Hall x Hx) as [Hle _]. specialize (Hmax _ H0).
    unfold Db.h_timestamp at 1 in Hmax. cbn [Db.h_message] in Hmax. lia. }
  destruct (Hall x Hx) as [_ Hmsg]. rewrite (Hmsg Hts). auto.
Qed.

Lemma saved_message_ends_history_witness :
  exists rows h,
    fst (Message.getRecentMessages "general" (Some (JS.Num 2))
           (exec (Message.create 2 "general" "hello" None) (Sample.world Sample.db1 [])))
    = Ok (rows ++ [h])%list
    /\ Db.m_message (Db.h_message h) = "hello"
    /\ Db.m_user_id (Db.h_message h) = 2
    /\ Db.h_timestamp h = 1000.
Proof.
  apply (saved_message_ends_history (Sample.world Sample.db1 []) Sample.bob "general" "hello"
           None (Some (JS.Num 2))).
  - split; constructor.
  - cbn. auto.
  - cbn. intros m [<- | [<- | [<- | []]]]; cbn; lia.
Defined.

(* ------------------------------------------------------------------ *)
(** ** Chat messages and disconnects *)

Lemma trim_truthy s : JS.string_truthy (JS.trim s) = true -> JS.string_truthy s = true.
Proof. destruct s; [discriminate | reflexivity]. Qed.

Lemma chatMessage_accepted socket s user w :
  StrMap.get (id socket) (connectedUsers w) = Some user ->
  JS.string_truthy (JS.trim s) = true ->
  chatMessage socket (JS.VString s) w
  = (Ok tt,
     exec (try (Message.create (p_id user) (p_room user) (JS.trim s) None ;; ret tt)
             (fun _ => ret tt))
       (with_outbox (outbox w ++ [chat_emit user (JS.trim s) (Db.now (db w))]) w)).
Proof.
  intros Hget Ht. unfold chatMessage, getCurrentUser, gets, try at 1, bind at 1.
  rewrite Hget. cbn [JS.truthy JS.typeof]. rewrite (trim_truthy s Ht), Ht.
  cbn [negb orb String.eqb]. reflexivity.
Qed.

(** X20.  A chatMessage with a text that is not empty after trimming, from
    a socket with a presence record, is broadcast once to the room of the
    record, trimmed, under the username of the record, and nothing else is
    sent, whatever the database does: a failure to save the message is
    logged and the sender gets no messageError. *)
Theorem chatMessage_broadcasts :
  forall (w : World) (socket : Socket) (s : string) (user : Presence),
    StrMap.get (id socket) (connectedUsers w) = Some user ->
    JS.string_truthy (JS.trim s) = true ->
    fst (chatMessage socket (JS.VString s) w) = Ok tt
    /\ outbox (exec (chatMessage socket (JS.VString s)) w)
       = (outbox w ++ [chat_emit user (JS.trim s) (Db.now (db w))])%list.
Proof.
  intros w socket s user Hget Ht. unfold exec at 1.
  rewrite (chatMessage_accepted socket s user w Hget Ht). cbn [fst snd].
  split; [reflexivity|].
  assert (F : frames silent
                (try (Message.create (p_id user) (p_room user) (JS.trim s) None ;; ret tt)
                   (fun _ => ret tt))) by frame_walk blind_leaf.
  destruct (F (with_outbox (outbox w ++ [chat_emit user (JS.trim s) (Db.now (db w))]) w))
    as [E _].
  exact E.
Qed.

Lemma chatMessage_broadcasts_witness :
  outbox (exec (chatMessage Sample.s1 (JS.VString "  hi  "))
            (mkWorld Sample.db1 [("sock-1", mkPresence 1 "sock-1" "sock-1" "alice" "general" 0)]
               [] [] [mkTick [] (Some Sample.lost)]))
  = [chat_emit (mkPresence 1 "sock-1" "sock-1" "alice" "general" 0) "hi" 1000].
Proof.
  exact (proj2 (chatMessage_broadcasts
                  (mkWorld Sample.db1
                     [("sock-1", mkPresence 1 "sock-1" "sock-1" "alice" "general" 0)]
                     [] [] [mkTick [] (Some Sample.lost)])
                  Sample.s1 "  hi  " (mkPresence 1 "sock-1" "sock-1" "alice" "general" 0)
                  eq_refl eq_refl)).
Defined.

(** X21.  Handled alone, such a chatMessage is also saved: the messages
    table gains one row, with the id of the user of the record, the id of
    the room of the record (the room is created when the table does not
    have it), the trimmed text, the type text and the current time. *)
Theorem chatMessage_persists :
  forall (w : World) (socket : Socket) (s : string) (user : Presence),
    calm w ->
    StrMap.get (id socket) (connectedUsers w) = Some user ->
    JS.string_truthy (JS.trim s) = true ->
    let d' := db (exec (chatMessage socket (JS.VString s)) w) in
    Db.messages d'
    = (Db.messages (db w)
       ++ [message_row (p_id user) (p_room user) (JS.trim s) "text" (db w)])%list
    /\ Db.rooms d' = Db.rooms (with_room (p_room user) (db w))
    /\ Db.users d' = Db.users (db w)
    /\ Db.active_sessions d' = Db.active_sessions (db w).
Proof.
  intros w socket s user Hc Hget Ht d'.
  assert (Ed : d' = Db.with_messages
                      (Db.messages (db w)
                       ++ [message_row (p_id user) (p_room user) (JS.trim s) "text" (db w)])
                      (with_room (p_room user) (db w))).
  { unfold d', exec at 1.
    rewrite (chatMessage_accepted socket s user w Hget Ht). cbn [snd].
    set (w0 := with_outbox _ w).
    assert (Hc0 : calm w0) by exact Hc.
    unfold exec, try, bind. rewrite (message_create_calm _ _ _ None w0 Hc0).
    reflexivity. }
  rewrite Ed.
  repeat split; unfold with_room; cbn; now destruct (Db.has_room (p_room user) (db w)).
Qed.

Lemma chatMessage_persists_witness :
  Db.messages
    (db (exec (chatMessage Sample.s1 (JS.VString "  hi  "))
           (mkWorld Sample.db1
              [("sock-1", mkPresence 1 "sock-1" "sock-1" "alice" "general" 0)] [] [] [])))
  = (Db.messages Sample.db1
     ++ [message_row 1 "general" "hi" "text" Sample.db1])%list.
Proof.
  exact (proj1 (chatMessage_persists
                  (mkWorld Sample.db1
                     [("sock-1", mkPresence 1 "sock-1" "sock-1" "alice" "general" 0)]
                     [] [] [])
                  Sample.s1 "  hi  " (mkPresence 1 "sock-1" "sock-1" "alice" "general" 0)
                  (conj (Forall_nil _) (Forall_nil _)) eq_refl eq_refl)).
Defined.


Lemma get_delete_same {V} k (m : StrMap.t V) :
  NoDup (StrMap.keys m) -> StrMap.get k (StrMap.delete k m) = None.
Proof.
  induction m as [|[k' v] m IH]; cbn; [reflexivity|].
  intros H. inversion H as [|? ? Hnotin Hnd]; subst.
  destruct (String.eqb k' k) eqn:E.
  - apply String.eqb_eq in E. subst.
    destruct (StrMap.get k m) eqn:G; [|reflexivity].
    exfalso. apply Hnotin. eapply get_in_keys. exact G.
  - cbn. rewrite E. now apply IH.
Qed.

(** The cut of [create] is [create]. *)
Lemma create_cut userId roomName message messageType w :
  Message.create userId roomName message messageType w
  = Message.create_resumed userId roomName message messageType
      (fst (Message.create_sent roomName w)) (snd (Message.create_sent roomName w)).
Proof.
  unfold Message.create, Message.create_resumed, Message.ensureRoom, Message.create_sent,
    answered.
  cbv zeta. unfold try, bind.
  destruct (await (Db.select_room_ids roomName) w) as [[rows|e] w1]; reflexivity.
Qed.

Lemma frames_leaving (R : World -> World -> Prop) {HR : Frame R} {HB : DbBlind R}
    user answer :
  frames R (leaving user answer).
Proof.
  unfold leaving, Message.create_resumed.
  frame_walk ltac:(first [simple apply @frames_answered; frame_class | await_leaf]).
Qed.

(** The part of a disconnect after userLeave has answered with a record. *)
Lemma disconnect_known socket user w :
  StrMap.get (id socket) (connectedUsers w) = Some user ->
  let w1 := exec (userLeave (id socket)) w in
  let w2 := exec (Message.create_sent (p_room user))
              (with_outbox (outbox w1 ++ [left_emit user (Db.now (db w1))]) w1) in
  exists answer roster w3,
    getRoomUsers (p_room user) w2 = (Ok roster, w3)
    /\ disconnect socket w
       = (Ok tt,
          exec (leaving user answer)
            (with_outbox (outbox w3 ++ [roster_emit (p_room user) roster]) w3)).
Proof.
  intros Hget w1 w2.
  destruct (getRoomUsers_answer (p_room user) w2) as (roster & w3 & E3 & _).
  exists (fst (Message.create_sent (p_room user)
                 (with_outbox (outbox w1 ++ [left_emit user (Db.now (db w1))]) w1))),
         roster, w3.
  split; [exact E3|].
  unfold disconnect. unfold try at 1. unfold bind at 1.
  pose proof (userLeave_known _ _ _ Hget) as El.
  assert (Ew : w1 = snd (userLeave (id socket) w)) by reflexivity.
  rewrite El in Ew |- *. cbn [snd] in Ew. rewrite <- Ew.
  unfold formatMessage, clock, gets, bind at 1 2. unfold ret at 1.
  unfold bind at 1. unfold emit at 1, modify at 1.
  unfold detach_sent.
  fold (left_emit user (Db.now (db w1))).
  unfold w2, exec in E3.
  destruct (Message.create_sent (p_room user)
              (with_outbox (outbox w1 ++ [left_emit user (Db.now (db w1))]) w1))
    as [answer wa].
  cbn [fst snd] in *. unfold bind at 1. rewrite E3. reflexivity.
Qed.

(** X22.  A disconnect of a socket without presence record does nothing at
    all.  For a socket with a record, whatever the database does: the
    handler does not throw, it sends to the room of the record, and to
    nobody else, the notice that the user has left and then the roster of
    the room; and the record is gone afterwards, as long as nothing else
    registers the socket again meanwhile. *)
Theorem disconnect_notifies_room :
  forall (w : World) (socket : Socket),
    match StrMap.get (id socket) (connectedUsers w) with
    | None => disconnect socket w = (Ok tt, w)
    | Some user =>
        fst (disconnect socket w) = Ok tt
        /\ (exists time roster,
               outbox (exec (disconnect socket) w)
               = (outbox w ++ [left_emit user time; roster_emit (p_room user) roster])%list)
        /\ (registry_ok w ->
            sparing (id socket) (sched w) ->
            StrMap.get (id socket) (connectedUsers (exec (disconnect socket) w)) = None)
    end.
Proof.
  intros w socket.
  destruct (StrMap.get (id socket) (connectedUsers w)) as [user|] eqn:Hget.
  2:{ unfold disconnect, try, bind. now rewrite (userLeave_unknown _ _ Hget). }
  destruct (disconnect_known socket user w Hget) as (answer & roster & w3 & E3 & Ed).
  set (w1 := exec (userLeave (id socket)) w) in *.
  set (wl := with_outbox (outbox w1 ++ [left_emit user (Db.now (db w1))]) w1) in *.
  set (w2 := exec (Message.create_sent (p_room user)) wl) in *.
  set (promise := leaving user answer) in *.
  set (w4 := with_outbox (outbox w3 ++ [roster_emit (p_room user) roster]) w3) in *.
  assert (Ee : exec (disconnect socket) w = exec promise w4)
    by (unfold exec at 1; now rewrite Ed).
  assert (E3' : w3 = exec (getRoomUsers (p_room user)) w2)
    by (unfold exec; now rewrite E3).
  assert (E1 : w1 = exec (try (User.setOnlineStatus (p_id user) false ;;
                               Session.remove (p_sessionId user) ;;
                               ret tt)
                            (fun _ => ret tt))
                      (with_connectedUsers
                         (StrMap.delete (id socket) (connectedUsers w)) w)).
  { unfold w1, exec at 1. now rewrite (userLeave_known _ _ _ Hget). }
  split; [now rewrite Ed|]. split.
  - exists (Db.now (db w1)), roster. rewrite Ee.
    assert (Fp : frames silent promise) by (unfold promise; apply frames_leaving; exact _).
    destruct (Fp w4) as [-> _]. unfold w4. cbn [outbox with_outbox].
    assert (Fg : frames silent (getRoomUsers (p_room user)))
      by (unfold getRoomUsers; frame_walk blind_leaf).
    rewrite E3'. destruct (Fg w2) as [-> _].
    assert (Fs : frames silent (Message.create_sent (p_room user)))
      by (unfold Message.create_sent; frame_walk blind_leaf).
    unfold w2. destruct (Fs wl) as [-> _]. unfold wl. cbn [outbox with_outbox].
    assert (Fl : frames silent (userLeave (id socket)))
      by (unfold userLeave; frame_walk blind_leaf).
    destruct (Fl w) as [El _]. fold w1 in El. rewrite El. now rewrite <- app_assoc.
  - intros Hok Hs. rewrite Ee.
    assert (Fp : frames (keeps_presence (id socket)) promise)
      by (unfold promise; apply frames_leaving; exact _).
    assert (Fs : frames (keeps_presence (id socket)) (Message.create_sent (p_room user)))
      by (unfold Message.create_sent; frame_walk blind_leaf).
    assert (Fg : frames (keeps_presence (id socket)) (getRoomUsers (p_room user)))
      by (unfold getRoomUsers; frame_walk blind_leaf).
    assert (Fl : frames (keeps_presence (id socket))
                   (try (User.setOnlineStatus (p_id user) false ;;
                         Session.remove (p_sessionId user) ;;
                         ret tt)
                      (fun _ => ret tt))) by frame_walk blind_leaf.
    destruct (Fl (with_connectedUsers (StrMap.delete (id socket) (connectedUsers w)) w) Hs)
      as [G1 S1]. rewrite <- E1 in G1, S1.
    destruct (Fs wl S1) as [G2 S2]. fold w2 in G2, S2.
    destruct (Fg w2 S2) as [G3 S3]. rewrite <- E3' in G3, S3.
    destruct (Fp w4 S3) as [G4 _]. rewrite G4. unfold w4. cbn [connectedUsers with_outbox].
    rewrite G3, G2. unfold wl. cbn [connectedUsers with_outbox]. rewrite G1.
    cbn [connectedUsers with_connectedUsers]. now apply get_delete_same.
Qed.

Lemma disconnect_notifies_room_witness :
  fst (disconnect Sample.s1
         (mkWorld Sample.db2 [("sock-1", mkPresence 1 "sock-1" "s-alice" "alice" "general" 0)]
            [] [] []))
  = Ok tt
  /\ (exists time roster,
         outbox (exec (disconnect Sample.s1)
                   (mkWorld Sample.db2
                      [("sock-1", mkPresence 1 "sock-1" "s-alice" "alice" "general" 0)]
                      [] [] []))
         = [left_emit (mkPresence 1 "sock-1" "s-alice" "alice" "general" 0) time;
            roster_emit "general" roster]).
Proof.
  pose proof (disconnect_notifies_room
                (mkWorld Sample.db2
                   [("sock-1", mkPresence 1 "sock-1" "s-alice" "alice" "general" 0)]
                   [] [] [])
                Sample.s1) as H.
  cbn [StrMap.get connectedUsers id Sample.s1 String.eqb Ascii.eqb Bool.eqb] in H.
  destruct H as (H1 & H2 & _). split; [exact H1 | exact H2].
Defined.

(* ------------------------------------------------------------------ *)
(** ** Joins, and handlers as a whole *)

(** X23.  Guest names that differ only outside a-z and 0-9 shut each other
    out.  A join handled alone, under a username that nobody has but whose
    placeholder address (the lower-case letters and digits of the name,
    at guest.temp) is the email of a user: the insert of the guest fails on
    the email, the lookup by username finds nobody, and the join ends with
    the roomJoinError 'Failed to join room. Please try again.'; no
    account, no presence record, no session, nothing for the room. *)
Theorem guest_email_collision_blocks_join :
  forall (w : World) (socket : Socket) (username room : string),
    calm w ->
    JS.string_truthy username = true ->
    JS.string_truthy room = true ->
    Db.has_username username (db w) = false ->
    Db.has_email (tempEmail username) (db w) = true ->
    joinRoom socket (Some username) (Some room) w
    = (Ok tt,
       send (settle (settle (settle w))) (ToSocket (id socket)) "roomJoinError" join_failed).
Proof.
  intros w socket username room Hc Hu Hr Hname Hmail.
  pose proof (calm_settle _ Hc) as Hc1. pose proof (calm_settle _ Hc1) as Hc2.
  rewrite (joinRoom_unknown socket username room w Hu Hr (faultless_hd _ (proj1 Hc)))
    by (rewrite (resume_calm w Hc); exact Hname).
  rewrite (resume_calm w Hc).
  unfold join_as_guest. cbv zeta. unfold try at 1. unfold bind at 1. unfold try at 1.
  unfold bind at 1.
  rewrite (create_calm _ _ _ (settle w) Hc1). cbn [db settle with_sched].
  unfold Db.insert_user. rewrite Hname, Hmail. cbn [fst snd].
  rewrite dup_entry_is_dup. unfold bind at 1.
  replace (with_db (db w) (settle (settle w))) with (settle (settle w))
    by (now destruct w).
  rewrite (findByUsername_calm _ (settle (settle w)) Hc2). cbn [db settle with_sched].
  rewrite (no_username_select _ _ Hname). cbn [hd_error option_map]. unfold ret at 1 2.
  unfold join_resolved, user_id_of, bind, throw, join_catch, emit, modify, send.
  reflexivity.
Qed.

Lemma guest_email_collision_blocks_join_witness :
  joinRoom Sample.s2 (Some "carol") (Some "general") (Sample.world Guests.db4 [])
  = (Ok tt,
     send (settle (settle (settle (Sample.world Guests.db4 [])))) (ToSocket "sock-2")
       "roomJoinError" join_failed).
Proof.
  apply (guest_email_collision_blocks_join (Sample.world Guests.db4 []) Sample.s2
           "carol" "general").
  - split; constructor.
  - reflexivity.
  - reflexivity.
  - reflexivity.
  - reflexivity.
Defined.

Lemma history_load_capped socket room :
  frames (emits_only (capped_history 20))
    (try (recentMessages <- Message.getRecentMessages room (Some (JS.Num 20)) ;;
          let formattedMessages := map formatDbMessage recentMessages in
          emit (ToSocket (id socket)) "loadMessages" (PMessages formattedMessages))
       (fun messageError => emit (ToSocket (id socket)) "loadMessages" (PMessages []))).
Proof.
  intros w.
  destruct (getRecentMessages_rows room (Some (JS.Num 20)) 20 w eq_refl ltac:(lia))
    as (rows & E & Hrows).
  assert (Fh : frames (emits_only (capped_history 20))
                 (Message.getRecentMessages room (Some (JS.Num 20))))
    by (unfold Message.getRecentMessages; frame_walk emit_leaf).
  unfold exec, try, bind. rewrite E. cbv zeta. unfold emit, modify. cbn [snd].
  eapply frame_trans; [apply (Fh w)|].
  apply emits_only_send. unfold capped_history. cbn [e_payload]. split.
  - rewrite length_map. destruct Hrows as [-> | ->]; cbn [length]; [lia|].
    rewrite length_rev.
    pose proof (newest_length 20 room
                  (db (exec (Message.getRecentMessages room (Some (JS.Num 20))) w))
                  ltac:(lia)).
    lia.
  - destruct Hrows as [-> | ->]; [constructor | apply rev_newest_chronological].
Qed.

Ltac capped_leaf :=
  first
    [ simple apply @frames_await_blind; frame_class
    | simple apply history_load_capped
    | simple apply @frames_socket_join; frame_class;
      intros ? ?; exists []; split; [symmetry; apply app_nil_r | constructor]
    | simple apply @frames_modify; frame_class;
      intros ?; exists []; split; [symmetry; apply app_nil_r | constructor]
    | simple apply @frames_emit; intros ?; apply emits_only_send; exact I ].

Lemma join_greet_capped socket userId username room :
  frames (emits_only (capped_history 20)) (join_greet socket userId username room).
Proof.
  unfold join_greet. apply frames_bind; [exact _ | apply history_load_capped|].
  intros _. unfold getRoomUsers. frame_walk capped_leaf.
Qed.

(** X24.  The history a join loads is short and in order.  Whatever the
    schedule and the database, every list of messages that joinRoom sends
    holds at most 20 messages, oldest first. *)
Theorem join_history_capped :
  forall (w : World) (socket : Socket) (username room : option string),
    exists news,
      outbox (exec (joinRoom socket username room) w) = (outbox w ++ news)%list
      /\ Forall (capped_history 20) news.
Proof.
  intros w socket username room.
  assert (F : frames (emits_only (capped_history 20)) (joinRoom socket username room)).
  { unfold joinRoom, join_as_guest, join_resolved, join_catch, user_id_of, userJoin.
    frame_walk ltac:(first [simple apply join_greet_capped | capped_leaf]). }
  exact (F w).
Qed.

(** X25.  No handler lets an exception escape.  Whatever the schedule and
    whatever the database answers, joinRoom (for a payload that is an
    object, with username and room each a string or absent), chatMessage
    (for any payload) and disconnect, the registration, the login and the
    history route end with an answer of their own and never with an
    exception; for the registration, unless its loop is still running when
    the fuel is spent. *)
Theorem handlers_never_throw :
  forall (w : World) (socket : Socket),
    (forall username room, fst (joinRoom socket username room w) = Ok tt)
    /\ (forall msg, fst (chatMessage socket msg w) = Ok tt)
    /\ fst (disconnect socket w) = Ok tt
    /\ (forall fuel req session, exists r, fst (register fuel req session w) = Ok r)
    /\ (forall compare req session, exists r, fst (login compare req session w) = Ok r)
    /\ (forall room limit session, exists r, fst (get_messages room limit session w) = Ok r).
Proof.
  intros w socket.
  assert (U : forall m : M unit, total m -> fst (m w) = Ok tt).
  { intros m Hm. destruct (Hm w) as [[] H]. exact H. }
  split; [|split; [|split; [|split; [|split]]]].
  - intros username room. apply U. unfold joinRoom, join_catch. total_steps.
  - intros msg. apply U. unfold chatMessage. total_steps.
  - apply U. unfold disconnect. total_steps.
  - intros fuel req session.
    assert (T : total (register fuel req session))
      by (unfold register, register_catch; total_steps;
          repeat match goal with |- total (if ?b then _ else _) => destruct b end;
          total_steps).
    exact (T w).
  - intros compare req session.
    assert (T : total (login compare req session)) by (unfold login; total_steps).
    exact (T w).
  - intros room limit session.
    assert (T : total (get_messages room limit session)) by (unfold get_messages; total_steps).
    exact (T w).
Qed.

(* ------------------------------------------------------------------ *)
(** ** A join from beginning to end *)

Lemma getRecentMessages_alone room limit l w :
  Message.messageLimit (match limit with Some n => n | None => JS.Num 50 end) = JS.Num l ->
  0 <= l ->
  calm w ->
  Message.getRecentMessages room limit w
  = (Ok (rev (newest l room (with_room room (db w)))), settle (room_ensured room w)).
Proof.
  intros Hl Hpos Hc.
  assert (Hneg : (l <? 0) = false) by (apply Z.ltb_ge; lia).
  unfold Message.getRecentMessages. rewrite Hl. unfold try, bind.
  rewrite (ensureRoom_calm room w Hc).
  rewrite (await_calm _ _ (calm_room_ensured room w Hc)).
  unfold Db.select_recent_messages. rewrite Hneg. cbn [fst snd].
  unfold ret. f_equal.
Qed.

Lemma roster_rows_ext room d d' :
  Db.users d' = Db.users d ->
  Db.active_sessions d' = Db.active_sessions d ->
  Db.now d' = Db.now d ->
  Db.roster_rows room d' = Db.roster_rows room d.
Proof.
  intros Hu Hs Hn. unfold Db.roster_rows, Db.active_within_hour.
  now rewrite Hu, Hs, Hn.
Qed.

(** The end of a join, handled alone. *)
Lemma join_greet_alone socket userId username room v :
  calm v ->
  JS.string_truthy room = true ->
  Db.roster_rows room (db v) <> [] ->
  exists v',
    join_greet socket userId username room v = (Ok tt, v')
    /\ outbox v'
       = (outbox v
          ++ tl (join_emits socket userId username room (Db.now (db v))
                   (map formatDbMessage (rev (newest 20 room (with_room room (db v)))))
                   (map roster_entry_of_row (Db.roster_rows room (db v)))))%list
    /\ db v'
       = Db.with_messages
           (Db.messages (db v)
            ++ [message_row userId room (username ++ " has joined the chat!") "system" (db v)])
           (with_room room (db v))
    /\ connectedUsers v' = connectedUsers v
    /\ memberships v' = memberships v.
Proof.
  intros Hc Hr Hroster. unfold join_greet.
  unfold bind at 1. unfold try at 1. unfold bind at 1.
  rewrite (getRecentMessages_alone room (Some (JS.Num 20)) 20 v eq_refl ltac:(lia) Hc).
  unfold emit at 1, modify at 1.
  set (v1 := with_outbox _ (settle (room_ensured room v))).
  assert (Hc1 : calm v1)
    by (apply (calm_settle (room_ensured room v)), calm_room_ensured, Hc).
  unfold formatMessage at 1, clock at 1, gets at 1, bind at 1 2. unfold ret at 1.
  unfold bind at 1. unfold emit at 1, modify at 1.
  unfold formatMessage at 1, clock at 1, gets at 1, bind at 1 2. unfold ret at 1.
  unfold bind at 1. unfold emit at 1, modify at 1.
  set (v2 := with_outbox _ (with_outbox _ v1)).
  assert (Hc2 : calm v2) by exact Hc1.
  unfold bind at 1. unfold try at 1. unfold bind at 1.
  rewrite (message_create_calm userId room _ (Some "system") v2 Hc2).
  unfold ret at 1.
  set (v3 := with_db _ (settle (room_ensured room v2))).
  assert (Hc3 : calm v3)
    by (apply calm_with_db, calm_settle, calm_room_ensured, Hc2).
  unfold bind at 1. rewrite getRoomUsers_cases, Hr, (resume_calm v3 Hc3).
  replace (tick_fault (hd quiet (sched v3))) with (@None error)
    by (symmetry; apply faultless_hd, Hc3).
  change (db (settle v3)) with (db v3).
  assert (Hdb1 : db v1 = with_room room (db v)) by reflexivity.
  assert (Hdb2 : db v2 = with_room room (db v)) by reflexivity.
  assert (Hwr : forall d, Db.users (with_room room d) = Db.users d
                          /\ Db.active_sessions (with_room room d) = Db.active_sessions d
                          /\ Db.now (with_room room d) = Db.now d
                          /\ Db.messages (with_room room d) = Db.messages d).
  { intros d. unfold with_room. destruct (Db.has_room room d); cbn; auto. }
  assert (Hros : Db.roster_rows room (db v3) = Db.roster_rows room (db v)).
  { apply roster_rows_ext; unfold v3; cbn [db with_db Db.users Db.with_messages
      Db.active_sessions Db.now]; rewrite Hdb2.
    - rewrite with_room_idem. apply Hwr.
    - rewrite with_room_idem. apply Hwr.
    - rewrite with_room_idem. apply Hwr. }
  rewrite Hros.
  destruct (Db.roster_rows room (db v)) as [|r rows] eqn:Er; [now contradiction Hroster|].
  unfold emit, modify. eexists. split; [reflexivity|].
  cbn [outbox with_outbox db with_db connectedUsers memberships settle with_sched].
  split.
  { unfold v3, v2, v1, join_emits, roster_emit.
    cbn [outbox with_outbox with_db settle with_sched room_ensured tl].
    replace (outbox (if Db.has_room room (with_room room (db v))
                     then settle (with_outbox _ _) else _))
      with (outbox v ++ [mkEmit (ToSocket (id socket)) "loadMessages"
                           (PMessages (map formatDbMessage
                                         (rev (newest 20 room (with_room room (db v))))))]
            ++ [mkEmit (ToSocket (id socket)) "message"
                  (PMessage (mkChatMessage botName
                               ("Welcome to ChatBud, " ++ username ++ "! 🎉")
                               (Db.now (with_room room (db v))) None None))]
            ++ [mkEmit (ToRoomExcept room (id socket)) "message"
                  (PMessage (mkChatMessage botName
                               (username ++ " has joined the chat! 👋")
                               (Db.now (with_room room (db v))) None None))])%list.
    - rewrite (proj1 (proj2 (proj2 (Hwr (db v))))). rewrite <- !app_assoc. reflexivity.
    - rewrite has_room_with_room. cbn.
      destruct (Db.has_room room (db v)); cbn; now rewrite <- !app_assoc. }
  split.
  { unfold v3. cbn [db with_db]. rewrite Hdb2, with_room_idem.
    unfold message_row. rewrite with_room_idem.
    destruct (Hwr (db v)) as (_ & _ & -> & ->). reflexivity. }
  split.
  { unfold v3, v2, v1, room_ensured. cbn.
    rewrite has_room_with_room. cbn. now destruct (Db.has_room room (db v)). }
  { unfold v3, v2, v1, room_ensured. cbn.
    rewrite has_room_with_room. cbn. now destruct (Db.has_room room (db v)). }
Qed.

Lemma message_row_ext userId room message kind d d' :
  Db.messages d' = Db.messages d ->
  Db.rooms d' = Db.rooms d ->
  Db.now d' = Db.now d ->
  message_row userId room message kind d' = message_row userId room message kind d.
Proof.
  intros Hm Hr Hn. unfold message_row, room_id, with_room, Db.has_room, Db.room_names.
  rewrite Hm, Hr, Hn.
  destruct (existsb (String.eqb room) (map Db.r_name (Db.rooms d))); cbn;
    rewrite ?Hr; reflexivity.
Qed.

(** The join once the user is resolved, handled alone. *)
Lemma join_resolved_alone socket (u : UserRef) username room (user : Db.UserRow) w :
  calm w ->
  JS.string_truthy room = true ->
  JS.string_truthy (id socket) = true ->
  In user (Db.users (db w)) ->
  Db.u_id user = ur_id u ->
  Db.u_username user = username ->
  sessions_of (session_of socket) (db w) = [] ->
  let w' := exec (join_resolved socket (Some u) username room) w in
  exists history roster,
    outbox w'
    = (outbox w
       ++ join_emits socket (ur_id u) username room (Db.now (db w)) history roster)%list
    /\ (length history <= 20)%nat
    /\ In username (map re_username roster)
    /\ StrMap.get (id socket) (connectedUsers w')
       = Some (mkPresence (ur_id u) (id socket) (session_of socket) username room
                 (Db.now (db w)))
    /\ In (id socket, room) (memberships w')
    /\ sessions_of (session_of socket) (db w')
       = [Db.mkSession (session_of socket) (ur_id u) (Some (id socket)) (Some room)
            (Some (handshake_address socket)) (Some (handshake_user_agent socket))
            (Db.now (db w)) (Db.now (db w))]
    /\ Db.messages (db w')
       = (Db.messages (db w)
          ++ [message_row (ur_id u) room (username ++ " has joined the chat!")
                "system" (db w)])%list
    /\ Db.users (db w') = Db.users (marked true (ur_id u) (db w)).
Proof.
  intros Hc Hr Hid Hin Huid Hname Hfresh w'.
  assert (Hsid : JS.string_truthy (session_of socket) = true).
  { unfold session_of, string_or. destruct (handshake_sessionID socket) as [s|]; [|exact Hid].
    destruct (JS.string_truthy s) eqn:E; [exact E | exact Hid]. }
  assert (E0 : w' = exec (join_resolved socket (Some u) username room) w) by reflexivity.
  rewrite join_resolved_exec in E0.
  set (uid := ur_id u) in *.
  set (s1 := Db.mkSession (session_of socket) uid (Some (id socket)) (Some room)
               (Some (handshake_address socket)) (Some (handshake_user_agent socket))
               (Db.now (db w)) (Db.now (db w))).
  set (p := mkPresence uid (id socket) (session_of socket) username room (Db.now (db w))).
  set (dj := Db.with_sessions (Db.active_sessions (db w) ++ [s1]) (marked true uid (db w))).
  assert (Ej : exec (userJoin (id socket) (session_of socket) uid username room
                       (handshake_address socket) (handshake_user_agent socket)) w
               = with_db dj
                   (with_connectedUsers (StrMap.set (id socket) p (connectedUsers w))
                      (settle (settle (settle w))))).
  { rewrite (userJoin_calm _ _ _ _ _ _ _ w Hc Hsid). unfold session_db.
    change (sessions_of (session_of socket) (marked true uid (db w)))
      with (sessions_of (session_of socket) (db w)).
    rewrite Hfresh. reflexivity. }
  rewrite Ej in E0.
  set (wj := with_db dj _) in *.
  destruct (socket_join_exec socket room wj) as (So & Sc & Ss & Sd).
  set (ws := exec (socket_join socket room) wj) in *.
  assert (Hmem : In (id socket, room) (memberships ws)).
  { unfold ws, socket_join, modify, exec. cbn [snd].
    destruct (existsb _ (memberships wj)) eqn:Ex.
    - apply existsb_exists in Ex. destruct Ex as ([a b] & Hab & Heq).
      cbn in Heq. apply andb_prop in Heq. destruct Heq as [H1 H2].
      apply String.eqb_eq in H1, H2. now subst.
    - cbn. apply in_or_app. right. now left. }
  set (v := send ws (ToSocket (id socket)) "roomJoined" (PRoomJoined room uid username)) in *.
  assert (Hcv : calm v).
  { unfold calm, v. cbn [sched send with_outbox]. rewrite Ss. unfold wj.
    cbn [sched with_db with_connectedUsers]. now repeat apply calm_settle. }
  assert (Hdv : db v = dj) by (unfold v; cbn [db send with_outbox]; now rewrite Sd).
  set (user1 := Db.mkUser (Db.u_id user) (Db.u_username user) (Db.u_email user)
                  (Db.u_password_hash user) (Db.u_avatar_url user) true (Db.now (db w))).
  assert (Hros : In (Db.roster_row user1 s1) (Db.roster_rows room (db v))).
  { apply roster_rows_in. exists user1, s1. rewrite Hdv. unfold dj.
    repeat split.
    - cbn. apply in_map_iff. exists user. split; [|exact Hin].
      replace (Db.u_id user =? uid) with true by (symmetry; now apply Z.eqb_eq).
      reflexivity.
    - cbn. apply in_or_app. right. now left.
    - exact Huid.
    - cbn. lia. }
  assert (Hne : Db.roster_rows room (db v) <> []) by (intros E; rewrite E in Hros; destruct Hros).
  destruct (join_greet_alone socket uid username room v Hcv Hr Hne)
    as (v' & Eg & Ho & Hd & Hcu & Hm).
  assert (E1 : w' = v') by (rewrite E0; unfold exec; now rewrite Eg).
  rewrite E1.
  exists (map formatDbMessage (rev (newest 20 room (with_room room (db v))))),
         (map roster_entry_of_row (Db.roster_rows room (db v))).
  assert (Hnow : Db.now (db v) = Db.now (db w)) by (rewrite Hdv; reflexivity).
  split.
  { rewrite Ho, Hnow. unfold v at 1. cbn [outbox send with_outbox]. rewrite So.
    unfold wj. cbn [outbox with_db with_connectedUsers settle with_sched].
    rewrite <- app_assoc. reflexivity. }
  split.
  { rewrite length_map, length_rev.
    pose proof (newest_length 20 room (with_room room (db v)) ltac:(lia)). lia. }
  split.
  { rewrite map_map. apply in_map_iff. exists (Db.roster_row user1 s1).
    split; [exact Hname | exact Hros]. }
  split.
  { rewrite Hcu. unfold v. cbn [connectedUsers send with_outbox]. rewrite Sc.
    unfold wj. cbn [connectedUsers with_db with_connectedUsers]. apply get_set_same. }
  split.
  { rewrite Hm. exact Hmem. }
  split.
  { assert (Hs : Db.active_sessions (db v') = (Db.active_sessions (db w) ++ [s1])%list).
    { rewrite Hd, Hdv. unfold with_room. now destruct (Db.has_room room dj). }
    unfold sessions_of in *. rewrite Hs, filter_app, Hfresh. cbn.
    unfold has_id. cbn. now rewrite String.eqb_refl. }
  split.
  { rewrite Hd. cbn [Db.messages Db.with_messages]. rewrite Hdv. f_equal.
    f_equal. now apply message_row_ext. }
  { rewrite Hd, Hdv. unfold with_room. now destruct (Db.has_room room dj). }
Qed.

(** X27.  The join of a known user, handled alone, from a socket whose
    session id has no row yet.  The socket gets roomJoined, the history
    (at most 20 messages), and the welcome; the others in the room get the
    notice; then the room gets its roster, and the user is on it.  The
    presence record is registered, the socket is in the room, the user is
    marked online, the session row is written, and the notice is saved as a
    system message of the user. *)
Theorem join_of_known_user :
  forall (w : World) (socket : Socket) (username room : string) (row : Db.UserRow),
    calm w ->
    JS.string_truthy username = true ->
    JS.string_truthy room = true ->
    JS.string_truthy (id socket) = true ->
    by_username username (db w) = Some row ->
    sessions_of (session_of socket) (db w) = [] ->
    let w' := exec (joinRoom socket (Some username) (Some room)) w in
    exists history roster,
      outbox w'
      = (outbox w
         ++ join_emits socket (Db.u_id row) username room (Db.now (db w)) history roster)%list
      /\ (length history <= 20)%nat
      /\ In username (map re_username roster)
      /\ StrMap.get (id socket) (connectedUsers w')
         = Some (mkPresence (Db.u_id row) (id socket) (session_of socket) username room
                   (Db.now (db w)))
      /\ In (id socket, room) (memberships w')
      /\ sessions_of (session_of socket) (db w')
         = [Db.mkSession (session_of socket) (Db.u_id row) (Some (id socket)) (Some room)
              (Some (handshake_address socket)) (Some (handshake_user_agent socket))
              (Db.now (db w)) (Db.now (db w))]
      /\ Db.messages (db w')
         = (Db.messages (db w)
            ++ [message_row (Db.u_id row) room (username ++ " has joined the chat!")
                  "system" (db w)])%list
      /\ Db.users (db w') = Db.users (marked true (Db.u_id row) (db w)).
Proof.
  intros w socket username room row Hc Hu Hr Hid Hrow Hfresh w'.
  destruct (hd_filter_in _ _ _ Hrow) as [Hin Hname]. apply String.eqb_eq in Hname.
  assert (E0 : w' = exec (join_resolved socket (Some (user_ref row)) username room) (settle w)).
  { unfold w', exec at 1.
    rewrite (joinRoom_found socket username room w row Hu Hr (faultless_hd _ (proj1 Hc)))
      by (rewrite (resume_calm w Hc); exact Hrow).
    now rewrite (resume_calm w Hc). }
  rewrite E0.
  exact (join_resolved_alone socket (user_ref row) username room row (settle w)
           (calm_settle _ Hc) Hr Hid Hin eq_refl Hname Hfresh).
Qed.

Lemma join_of_known_user_witness :
  exists history roster,
    outbox (exec (joinRoom Sample.s1 (Some "alice") (Some "general"))
              (Sample.world Sample.db1 []))
    = join_emits Sample.s1 1 "alice" "general" 1000 history roster
    /\ (length history <= 20)%nat
    /\ In "alice" (map re_username roster).
Proof.
  destruct (join_of_known_user (Sample.world Sample.db1 []) Sample.s1 "alice" "general"
              Sample.alice (conj (Forall_nil _) (Forall_nil _)) eq_refl eq_refl eq_refl
              eq_refl eq_refl)
    as (history & roster & H1 & H2 & H3 & _).
  exists history, roster. split; [exact H1|]. split; [exact H2 | exact H3].
Defined.

Lemma emails_update_online b i d :
  Db.emails (snd (Db.update_user_online b i d)) = Db.emails d.
Proof.
  unfold Db.emails. cbn. rewrite map_map. apply map_ext.
  intros u. now destruct (Db.u_id u =? i).
Qed.

(** X28.  The join of a new guest, handled alone: a username that nobody
    has, with a placeholder address that nobody has, from a socket whose
    session id has no row yet.  One user is added, under exactly that
    username, with the placeholder address; then the join goes on as for a
    known user, with the id of the new row: roomJoined, history, welcome,
    notice, roster with the guest on it, presence record, session row and
    saved system message. *)
Theorem join_of_new_guest :
  forall (w : World) (socket : Socket) (username room : string),
    calm w ->
    JS.string_truthy username = true ->
    JS.string_truthy room = true ->
    JS.string_truthy (id socket) = true ->
    Db.has_username username (db w) = false ->
    Db.has_email (tempEmail username) (db w) = false ->
    sessions_of (session_of socket) (db w) = [] ->
    let userId := Db.fresh_id (map Db.u_id (Db.users (db w))) in
    let w' := exec (joinRoom socket (Some username) (Some room)) w in
    exists history roster,
      outbox w'
      = (outbox w ++ join_emits socket userId username room (Db.now (db w)) history roster)%list
      /\ (length history <= 20)%nat
      /\ In username (map re_username roster)
      /\ StrMap.get (id socket) (connectedUsers w')
         = Some (mkPresence userId (id socket) (session_of socket) username room
                   (Db.now (db w)))
      /\ In (id socket, room) (memberships w')
      /\ Db.usernames (db w') = (Db.usernames (db w) ++ [username])%list
      /\ Db.emails (db w') = (Db.emails (db w) ++ [tempEmail username])%list
      /\ Db.messages (db w')
         = (Db.messages (db w)
            ++ [message_row userId room (username ++ " has joined the chat!")
                  "system" (db w)])%list.
Proof.
  intros w socket username room Hc Hu Hr Hid Hname Hmail Hfresh userId w'.
  pose proof (calm_settle _ Hc) as Hc1.
  set (guest := Db.mkUser userId username (tempEmail username) (bcrypt_hash "temporary123")
                  None false (Db.now (db w))).
  set (w0 := with_db (Db.with_users (Db.users (db w) ++ [guest]) (db w))
               (settle (settle w))).
  assert (E0 : w' = exec (join_resolved socket (Some (mkUserRef userId username))
                            username room) w0).
  { unfold w', exec at 1.
    rewrite (joinRoom_unknown socket username room w Hu Hr (faultless_hd _ (proj1 Hc)))
      by (rewrite (resume_calm w Hc); exact Hname).
    rewrite (resume_calm w Hc).
    rewrite (join_insert_ok socket username room (settle w)
               (faultless_hd _ (proj1 Hc1)))
      by (rewrite (resume_calm _ Hc1); assumption).
    rewrite (resume_calm _ Hc1). cbn [db settle with_sched].
    unfold Db.insert_user. rewrite Hname, Hmail. reflexivity. }
  assert (Hc0 : calm w0) by (apply calm_with_db; now repeat apply calm_settle).
  destruct (join_resolved_alone socket (mkUserRef userId username) username room guest w0
              Hc0 Hr Hid)
    as (history & roster & H1 & H2 & H3 & H4 & H5 & _ & H7 & H8).
  { unfold w0. cbn. apply in_or_app. right. now left. }
  { reflexivity. }
  { reflexivity. }
  { exact Hfresh. }
  rewrite E0. cbn [ur_id] in *.
  exists history, roster.
  split; [exact H1|]. split; [exact H2|]. split; [exact H3|]. split; [exact H4|].
  split; [exact H5|]. split.
  { unfold Db.usernames. rewrite H8. fold (Db.usernames (marked true userId (db w0))).
    unfold marked. rewrite usernames_update_online. unfold w0, Db.usernames. cbn.
    now rewrite map_app. }
  split.
  { unfold Db.emails. rewrite H8. fold (Db.emails (marked true userId (db w0))).
    unfold marked. rewrite emails_update_online. unfold w0, Db.emails. cbn.
    now rewrite map_app. }
  { rewrite H7. f_equal. f_equal. now apply message_row_ext. }
Qed.

Lemma join_of_new_guest_witness :
  exists history roster,
    outbox (exec (joinRoom Sample.s1 (Some "Dave") (Some "general"))
              (Sample.world Sample.db1 []))
    = join_emits Sample.s1 3 "Dave" "general" 1000 history roster
    /\ In "Dave" (map re_username roster)
    /\ Db.usernames (db (exec (joinRoom Sample.s1 (Some "Dave") (Some "general"))
                           (Sample.world Sample.db1 [])))
       = ["alice"; "bob"; "Dave"]
    /\ Db.emails (db (exec (joinRoom Sample.s1 (Some "Dave") (Some "general"))
                        (Sample.world Sample.db1 [])))
       = ["alice@example.com"; "bob@example.com"; "dave@guest.temp"].
Proof.
  destruct (join_of_new_guest (Sample.world Sample.db1 []) Sample.s1 "Dave" "general"
              (conj (Forall_nil _) (Forall_nil _)) eq_refl eq_refl eq_refl
              eq_refl eq_refl eq_refl)
    as (history & roster & H1 & _ & H3 & _ & _ & H6 & H7 & _).
  exists history, roster. split; [exact H1|]. split; [exact H3|].
  split; [exact H6 | exact H7].
Defined.

(* ------------------------------------------------------------------ *)
(** ** A registration that loses a race *)

Lemma substring_skip a n s : substring (String.length a) n (a ++ s) = substring 0 n s.
Proof. induction a as [|c a IH]; cbn; [reflexivity | exact IH]. Qed.

Lemma substring_prefix a b : substring 0 (String.length a) (a ++ b) = a.
Proof.
  induction a as [|c a IH]; cbn.
  - now destruct b.
  - now rewrite IH.
Qed.

Lemma includes_middle needle a b :
  needle <> "" -> includes needle (a ++ needle ++ b) = true.
Proof.
  intros Hne. unfold includes.
  destruct (String.index 0 needle (a ++ needle ++ b)) eqn:E; [reflexivity|].
  exfalso.
  apply (index_correct3 0 (String.length a) needle (a ++ needle ++ b) E Hne); [lia|].
  now rewrite substring_skip, substring_prefix.
Qed.

Lemma app_assoc_string a b c : (a ++ b) ++ c = a ++ b ++ c.
Proof. induction a as [|x a IH]; cbn; [reflexivity | now rewrite IH]. Qed.

Lemma dup_message_names_key v key :
  key <> "" -> includes key (error_message (Db.dup_entry v key)) = true.
Proof.
  intros Hk. unfold Db.dup_entry. cbn [error_message].
  replace ("Duplicate entry '" ++ v ++ "' for key '" ++ key ++ "'")
    with (("Duplicate entry '" ++ v ++ "' for key '") ++ key ++ "'")
    by (now rewrite !app_assoc_string).
  now apply includes_middle.
Qed.

Lemma create_ok username email password w :
  tick_fault (hd quiet (sched w)) = None ->
  User.create username email password w
  = (match fst (Db.insert_user username email (bcrypt_hash password) (db (resume w))) with
     | inl a => Ok a
     | inr e => Thrown e
     end,
     with_db (snd (Db.insert_user username email (bcrypt_hash password) (db (resume w))))
       (resume w)).
Proof.
  intros F. unfold User.create. rewrite try_rethrow. cbv zeta. now apply await_ok.
Qed.

(** X29.  A registration that loses a race.  The email and the username
    are free when the handler looks them up, and by the time its insert
    runs another handler has taken the username or the email: the insert
    fails on the duplicate, the answer is 409 ('Username already taken' when
    it is the username), no user is created and the session stays as it
    was. *)
Theorem register_lost_race :
  forall (w : World) (email password : string) (session : HttpSession) (fuel : nat),
    JS.string_truthy email = true ->
    ascii_text password ->
    (6 <= String.length password)%nat ->
    faultless (firstn 3 (sched w)) ->
    Db.has_email email (db (resume w)) = false ->
    Db.has_username (JS.split_head "@" email) (db (resume (resume w))) = false ->
    Db.has_username (JS.split_head "@" email) (db (resume (resume (resume w)))) = true
    \/ Db.has_email email (db (resume (resume (resume w)))) = true ->
    exists message,
      register fuel (mkRegisterBody (Some email) (Some password)) session w
      = (Ok (Some (mkResponse 409 (BStatus false message), session)),
         resume (resume (resume w)))
      /\ (message = "Username already taken" \/ message = "Email already registered")
      /\ (Db.has_username (JS.split_head "@" email) (db (resume (resume (resume w)))) = true ->
          message = "Username already taken").
Proof.
  intros w email password session fuel Hemail Ha Hpw Hf Hnew Hfree Hrace.
  assert (F1 : tick_fault (hd quiet (sched w)) = None
               /\ tick_fault (hd quiet (sched (resume w))) = None
               /\ tick_fault (hd quiet (sched (resume (resume w)))) = None).
  { rewrite !sched_resume. unfold faultless in Hf.
    destruct (sched w) as [|t1 [|t2 [|t3 l]]]; cbn in *; repeat split;
      repeat match goal with H : Forall _ (_ :: _) |- _ => inversion H; subst; clear H end;
      auto. }
  destruct F1 as (F1 & F2 & F3).
  unfold register. cbn [rb_email rb_password present]. rewrite Hemail.
  assert (Hp : JS.string_truthy password = true)
    by (destruct password; [cbn in Hpw; lia | reflexivity]).
  rewrite Hp. cbn [negb orb].
  replace (Z.of_nat (JS.string_length password) <? 6) with false
    by (symmetry; apply Z.ltb_ge; rewrite (string_length_ascii _ Ha); lia).
  unfold try at 1. unfold bind at 1. rewrite findByEmail_eq, F1. cbn [lookup].
  rewrite (no_email_select _ _ Hnew). cbn [hd_error]. unfold bind at 1.
  rewrite findByUsername_eq, F2. cbn [lookup].
  rewrite (no_username_select _ _ Hfree). cbn [hd_error].
  unfold register_create, bind. rewrite (create_ok _ _ _ _ F3).
  unfold Db.insert_user, register_catch.
  destruct (Db.has_username _ (db (resume (resume (resume w))))) eqn:Hu.
  - cbn [fst snd]. rewrite dup_entry_is_dup.
    rewrite dup_message_names_key by discriminate.
    unfold ret. rewrite with_db_db. eexists. split; [reflexivity|]. auto.
  - destruct Hrace as [Hrace | Hrace]; [discriminate|]. rewrite Hrace.
    cbn [fst snd]. rewrite dup_entry_is_dup.
    rewrite (dup_message_names_key email "email") by discriminate.
    unfold ret. rewrite with_db_db.
    destruct (includes "username" _); eexists; (split; [reflexivity|]);
      (split; [auto | discriminate]).
Qed.

Lemma register_lost_race_witness :
  exists message,
    register 0 (mkRegisterBody (Some "carol@other.org") (Some "secret1")) Sample.anonymous
      (Sample.world Sample.db0
         [quiet; quiet;
          mkTick [EnvWrite (Db.InsertUser "carol" "carol@guest.temp" "$2a$temporary123")]
            None])
    = (Ok (Some (mkResponse 409 (BStatus false message), Sample.anonymous)),
       resume (resume (resume
         (Sample.world Sample.db0
            [quiet; quiet;
             mkTick [EnvWrite (Db.InsertUser "carol" "carol@guest.temp" "$2a$temporary123")]
               None]))))
    /\ (message = "Username already taken" \/ message = "Email already registered")
    /\ (Db.has_username (JS.split_head "@" "carol@other.org")
          (db (resume (resume (resume
             (Sample.world Sample.db0
                [quiet; quiet;
                 mkTick [EnvWrite (Db.InsertUser "carol" "carol@guest.temp"
                                     "$2a$temporary123")] None]))))) = true ->
        message = "Username already taken").
Proof.
  apply (register_lost_race
           (Sample.world Sample.db0
              [quiet; quiet;
               mkTick [EnvWrite (Db.InsertUser "carol" "carol@guest.temp" "$2a$temporary123")]
                 None])
           "carol@other.org" "secret1" Sample.anonymous 0).
  - reflexivity.
  - repeat constructor.
  - cbn. lia.
  - repeat constructor.
  - reflexivity.
  - reflexivity.
  - left. reflexivity.
Defined.

(* ------------------------------------------------------------------ *)
(** ** Session.updateActivity *)

(** On fields that are not null, the two readings of [update] agree. *)
Lemma update_fields_agrees sessionId socketId roomName ipAddress userAgent w :
  Session.update_fields sessionId (option_map Some socketId) (option_map Some roomName)
    (option_map Some ipAddress) (option_map Some userAgent) w
  = Session.update sessionId socketId roomName ipAddress userAgent w.
Proof.
  unfold Session.update_fields, Session.update, try, bind, await.
  destruct (tick_fault (hd quiet (sched w))); [reflexivity|].
  unfold Db.update_session_fields, Db.update_session.
  replace (map _ (Db.active_sessions (db (resume w))))
    with (map (fun s =>
                 if String.eqb (Db.s_session_id s) sessionId
                 then Db.mkSession (Db.s_session_id s) (Db.s_user_id s)
                        (Db.keep socketId (Db.s_socket_id s))
                        (Db.keep roomName (Db.s_room_name s))
                        (Db.keep ipAddress (Db.s_ip_address s))
                        (Db.keep userAgent (Db.s_user_agent s))
                        (Db.s_created_at s) (Db.now (db (resume w)))
                 else s)
            (Db.active_sessions (db (resume w)))); [reflexivity|].
  apply map_ext. intros s.
  destruct socketId, roomName, ipAddress, userAgent; reflexivity.
Qed.

(** X30.  Session.updateActivity called with a session id alone takes the
    session out of its room.  Its socket and its room default to null, and
    null is not undefined: handled alone, every row of the session id then
    has no socket and no room (and is stamped now), so that no roster
    counts it; no row is added or removed and the rows of other ids are
    untouched.  With an empty session id it throws 'Session ID is
    required' before any statement. *)
Theorem updateActivity_clears_room :
  forall (w : World) (sessionId : string),
    (JS.string_truthy sessionId = false ->
     Session.updateActivity sessionId None None w
     = (Thrown (Error "Session ID is required"), w))
    /\ (JS.string_truthy sessionId = true ->
        calm w ->
        let d' := db (exec (Session.updateActivity sessionId None None) w) in
        fst (Session.updateActivity sessionId None None w) = Ok true
        /\ length (Db.active_sessions d') = length (Db.active_sessions (db w))
        /\ (forall s, In s (sessions_of sessionId d') ->
                      Db.s_socket_id s = None /\ Db.s_room_name s = None
                      /\ Db.s_last_activity s = Db.now (db w))
        /\ (forall room s, In s (sessions_of sessionId d') -> Db.in_room room s = false)
        /\ other_sessions sessionId d' = other_sessions sessionId (db w)).
Proof.
  intros w sessionId. split.
  - intros Hf. unfold Session.updateActivity, try, throw. now rewrite Hf.
  - intros Ht Hc d'.
    assert (E : Session.updateActivity sessionId None None w
                = (Ok true,
                   with_db (snd (Db.update_session_fields sessionId (Some None) (Some None)
                                   None None (db w))) (settle w))).
    { unfold Session.updateActivity. rewrite try_rethrow, Ht. cbn [negb].
      unfold Session.update_fields, try, bind. now rewrite (await_calm _ w Hc). }
    unfold d', exec. rewrite E. cbn [fst snd db with_db].
    split; [reflexivity|].
    cbn [Db.update_session_fields snd Db.active_sessions Db.with_sessions].
    set (f := fun s : Db.SessionRow => if String.eqb (Db.s_session_id s) sessionId then _ else s).
    assert (Hid : forall x, has_id sessionId (f x) = has_id sessionId x).
    { intros x. unfold f, has_id. destruct (String.eqb (Db.s_session_id x) sessionId) eqn:Ex;
        cbn; now rewrite Ex. }
    assert (Hrows : forall s, In s (sessions_of sessionId
                                      (Db.with_sessions (map f (Db.active_sessions (db w)))
                                         (db w))) ->
                              Db.s_socket_id s = None /\ Db.s_room_name s = None
                              /\ Db.s_last_activity s = Db.now (db w)).
    { intros s Hs. unfold sessions_of in Hs. cbn in Hs.
      rewrite (filter_map_fixed _ f _ Hid) in Hs.
      apply in_map_iff in Hs. destruct Hs as (x & <- & Hx).
      apply filter_In in Hx. destruct Hx as [_ Hx].
      unfold f. unfold has_id in Hx. rewrite Hx. cbn. auto. }
    split; [now rewrite length_map|]. split; [exact Hrows|]. split.
    + intros room s Hs. destruct (Hrows s Hs) as (_ & Hroom & _).
      unfold Db.in_room. now rewrite Hroom.
    + unfold other_sessions. cbn.
      rewrite (filter_map_fixed (fun s => negb (has_id sessionId s)) f).
      * apply map_filter_id. intros x Hx. unfold f. unfold has_id in Hx.
        now destruct (String.eqb (Db.s_session_id x) sessionId).
      * intros x. now rewrite Hid.
Qed.

Lemma updateActivity_clears_room_witness :
  fst (Session.updateActivity "s-bob" None None (Sample.world Sample.db2 [])) = Ok true
  /\ map Db.s_room_name
       (sessions_of "s-bob"
          (db (exec (Session.updateActivity "s-bob" None None) (Sample.world Sample.db2 []))))
     = [None].
Proof.
  destruct (proj2 (updateActivity_clears_room (Sample.world Sample.db2 []) "s-bob")
              eq_refl (conj (Forall_nil _) (Forall_nil _)))
    as (H1 & _).
  split; [exact H1 | reflexivity].
Defined.
